(** * Pi transfer bot: a shallow embedding of [pi_transfer_script.py]

    The bot talks to a remote payment platform over HTTP, reads the wall
    clock and sleeps.  Those effects are made explicit:

    - the remote platform and the clock are an environment [Env] that is
      quantified over: the k-th call to an endpoint gets [reply ep k], the
      k-th clock read gets [clock k].  A run of the script is determined
      by the answers it gets, so every run against a real platform is the
      run against the [Env] that lists those answers;
    - every request, sleep and clock read is appended to the [history] of
      the run, so that statements such as "no payment-creation request is
      issued" or "exactly 60 polls" are statements about that trace;
    - Python exceptions are an explicit [Raise] result, threaded through a
      state-and-exception monad, with [try_except] for the handlers.

    Python values received from the platform are dynamically typed JSON
    values; [.get], truthiness, iteration and [float()] follow Python.
    Strings are sequences of characters ([len] is [String.length]).
    Floats are IEEE binary64, computed with the Standard Library's
    [SpecFloat].  Logging is not modelled (except that an expression
    evaluated for a log line may raise), nor is [KeyboardInterrupt]. *)

From Stdlib Require Import ZArith List String Ascii Bool Lia.
From Stdlib Require Import Floats.SpecFloat.
Import ListNotations.
Local Open Scope string_scope.
Local Open Scope Z_scope.
Local Open Scope list_scope.
Set Warnings "-register-all".

(** ** Python values *)

Module Py.

(** The exception classes the script can meet.  All of them derive from
    [Exception]; only [RequestException] is caught by the narrow
    handlers of the platform client. *)
Inductive exn :=
| RequestException
| ValueError
| TypeError
| AttributeError
| OverflowError.

Definition is_RequestException (e : exn) : bool :=
  match e with RequestException => true | _ => false end.

Definition is_Exception (e : exn) : bool := true.

Inductive result (A : Type) :=
| Ok (a : A)
| Raise (e : exn).
Arguments Ok {A} a.
Arguments Raise {A} e.

(** binary64.  The floats of a run are valid ones ([valid_binary]), for
    which [SFcompare] is the IEEE comparison. *)
Definition float := spec_float.
Definition prec : Z := 53.
Definition emax : Z := 1024.

Definition float_of_Z (z : Z) : float := binary_normalize prec emax z 0 false.
Definition fadd : float -> float -> float := SFadd prec emax.
Definition fsub : float -> float -> float := SFsub prec emax.
Definition fdiv : float -> float -> float := SFdiv prec emax.

(** [a >= b] on floats; false as soon as one side is NaN. *)
Definition fge (a b : float) : bool := SFleb b a.
Definition flt (a b : float) : bool := SFltb a b.

(** A decimal literal [n / 10^k] is read as the correctly rounded
    quotient; both operands are exact for the literals used here. *)
Definition decimal (n : Z) (pow10 : Z) : float :=
  fdiv (float_of_Z n) (float_of_Z pow10).

Inductive value :=
| VNone
| VBool (b : bool)
| VInt (z : Z)
| VFloat (f : float)
| VStr (s : string)
| VList (l : list value)
| VDict (d : list (string * value)).

(** [bool(v)] *)
Definition truthy (v : value) : bool :=
  match v with
  | VNone => false
  | VBool b => b
  | VInt z => negb (z =? 0)
  | VFloat f => match f with S754_zero _ => false | _ => true end
  | VStr s => negb (s =? "")%string
  | VList l => match l with [] => false | _ => true end
  | VDict d => match d with [] => false | _ => true end
  end.

Fixpoint lookup (d : list (string * value)) (k : string) : option value :=
  match d with
  | [] => None
  | (k', v) :: rest => if (k' =? k)%string then Some v else lookup rest k
  end.

(** [v.get(k, default)]: only a dict has the method. *)
Definition get (v : value) (k : string) (default : value) : result value :=
  match v with
  | VDict d => Ok (match lookup d k with Some x => x | None => default end)
  | _ => Raise AttributeError
  end.

Fixpoint chars (s : string) : list value :=
  match s with
  | EmptyString => []
  | String c rest => VStr (String c EmptyString) :: chars rest
  end.

(** What a [for] loop iterates over. *)
Definition iter (v : value) : result (list value) :=
  match v with
  | VList l => Ok l
  | VDict d => Ok (map (fun kv => VStr (fst kv)) d)
  | VStr s => Ok (chars s)
  | _ => Raise TypeError
  end.

(** [float(v)].  Parsing a [str] is left to [parse], the interpreter's
    decimal reader ([None] stands for its [ValueError]). *)
Definition to_float (parse : string -> option float) (v : value) : result float :=
  match v with
  | VNone => Raise TypeError
  | VBool b => Ok (float_of_Z (if b then 1 else 0))
  | VInt z =>
      match float_of_Z z with
      | S754_infinity _ => Raise OverflowError
      | f => Ok f
      end
  | VFloat f => Ok f
  | VStr s => match parse s with Some f => Ok f | None => Raise ValueError end
  | VList _ => Raise TypeError
  | VDict _ => Raise TypeError
  end.

End Py.
Import Py.

(** ** The remote platform, the clock and the trace *)

(** A formatted text: either a plain string or the memo f-string of
    [execute_transfer], kept symbolic in the amount. *)
Inductive text :=
| Plain (s : string)
| TransferMemo (amount : float).

(** The seven remote operations.  Path parameters are the Python values
    that the f-string of the URL interpolates. *)
Inductive request :=
| GetMe
| GetBalance (wallet : value)
| GetPendingPayments
| PostPayment (amount : float) (memo : text) (recipient : string) (uid : value)
| PostApprove (payment_id : value)
| GetPayment (payment_id : value)
| PostComplete (payment_id : value).

Inductive endpoint :=
| EpMe | EpBalance | EpPending | EpCreate | EpApprove | EpStatus | EpComplete.

Definition endpoint_of (r : request) : endpoint :=
  match r with
  | GetMe => EpMe
  | GetBalance _ => EpBalance
  | GetPendingPayments => EpPending
  | PostPayment _ _ _ _ => EpCreate
  | PostApprove _ => EpApprove
  | GetPayment _ => EpStatus
  | PostComplete _ => EpComplete
  end.

Definition endpoint_eqb (a b : endpoint) : bool :=
  match a, b with
  | EpMe, EpMe | EpBalance, EpBalance | EpPending, EpPending
  | EpCreate, EpCreate | EpApprove, EpApprove | EpStatus, EpStatus
  | EpComplete, EpComplete => true
  | _, _ => false
  end.

(** What [requests] hands back: either it raises (timeout, connection
    refused: a [RequestException]), or there is a response with a status
    code and a body; [response.json()] returns the parsed body or raises
    the exception the body carries. *)
Record response := {
  status_code : Z;
  json : result value
}.

Inductive outcome :=
| NetworkError
| Response (r : response).

Inductive event :=
| Http (base_url : string) (bearer : string) (r : request)
| Sleep (seconds : Z)
| Now.

Definition trace := list event.

Definition calls (ep : endpoint) (tr : trace) : nat :=
  List.length (filter (fun e => match e with
                                | Http _ _ r => endpoint_eqb (endpoint_of r) ep
                                | _ => false
                                end) tr).

Definition clock_reads (tr : trace) : nat :=
  List.length (filter (fun e => match e with Now => true | _ => false end) tr).

(** Time is in microseconds since the epoch, UTC. *)
Record Env := {
  reply : endpoint -> nat -> outcome;
  clock : nat -> Z;
  float_of_str : string -> option float
}.

(** ** The bot object *)

Record Bot := {
  access_token : string;
  allowed_recipient : string;
  app_id : string;
  app_secret : string;
  pi_api_base_url : string;
  sandbox_mode : bool;
  wallet_address : value;
  user_uid : value
}.

Definition set_wallet_address (w : value) (b : Bot) : Bot :=
  {| access_token := access_token b; allowed_recipient := allowed_recipient b;
     app_id := app_id b; app_secret := app_secret b;
     pi_api_base_url := pi_api_base_url b; sandbox_mode := sandbox_mode b;
     wallet_address := w; user_uid := user_uid b |}.

Definition set_user_uid (u : value) (b : Bot) : Bot :=
  {| access_token := access_token b; allowed_recipient := allowed_recipient b;
     app_id := app_id b; app_secret := app_secret b;
     pi_api_base_url := pi_api_base_url b; sandbox_mode := sandbox_mode b;
     wallet_address := wallet_address b; user_uid := u |}.

Definition TRANSFER_AMOUNT : float := float_of_Z 1650.
Definition TRANSACTION_FEE : float := decimal 1 100.
Definition REQUIRED_BALANCE : float := fadd TRANSFER_AMOUNT TRANSACTION_FEE.

(** [datetime(2025, 7, 20, 15, 38, 9, tzinfo=timezone.utc)] *)
Definition TARGET_DATETIME : Z := 1753025889 * 1000000.

Record State := {
  self : Bot;
  history : trace
}.

(** ** State and exception monad *)

Definition M (A : Type) : Type := State -> result A * State.

Definition ret {A} (a : A) : M A := fun s => (Ok a, s).

Definition raise {A} (e : exn) : M A := fun s => (Raise e, s).

Definition bind {A B} (m : M A) (k : A -> M B) : M B :=
  fun s =>
    match m s with
    | (Ok a, s') => k a s'
    | (Raise e, s') => (Raise e, s')
    end.

Notation "x <- m ;; k" := (bind m (fun x => k))
  (at level 61, m at next level, right associativity).
Notation "m ;;; k" := (bind m (fun _ => k))
  (at level 61, right associativity).

Definition lift {A} (r : result A) : M A := fun s => (r, s).

(** [try: body except <classes>: handler] *)
Definition try_except {A} (body : M A) (catches : exn -> bool) (handler : M A) : M A :=
  fun s =>
    match body s with
    | (Ok a, s') => (Ok a, s')
    | (Raise e, s') => if catches e then handler s' else (Raise e, s')
    end.

Definition get_self : M Bot := fun s => (Ok (self s), s).

Definition modify_self (f : Bot -> Bot) : M unit :=
  fun s => (Ok tt, {| self := f (self s); history := history s |}).

Definition emit (e : event) : M unit :=
  fun s => (Ok tt, {| self := self s; history := history s ++ [e] |}).

Fixpoint for_each {A} (xs : list A) (body : A -> M unit) : M unit :=
  match xs with
  | [] => ret tt
  | x :: rest => body x ;;; for_each rest body
  end.

Section Script.

Variable env : Env.

(** [requests.get] / [requests.post] with the bearer header. *)
Definition requests_call (r : request) : M response :=
  fun s =>
    let o := reply env (endpoint_of r) (calls (endpoint_of r) (history s)) in
    let s' := {| self := self s;
                 history := history s ++ [Http (pi_api_base_url (self s))
                                       (access_token (self s)) r] |} in
    match o with
    | NetworkError => (Raise RequestException, s')
    | Response resp => (Ok resp, s')
    end.

Definition time_sleep (seconds : Z) : M unit := emit (Sleep seconds).

Definition datetime_now : M Z :=
  fun s => (Ok (clock env (clock_reads (history s))),
            {| self := self s; history := history s ++ [Now] |}).

(** *** Recipient guard *)

Definition _validate_recipient_address (recipient : string) : M bool :=
  b <- get_self ;;
  if negb (recipient =? allowed_recipient b)%string
  then raise ValueError
  else ret true.

(** *** Platform client *)

Definition get_user_info : M value :=
  try_except
    (response <- requests_call GetMe ;;
     if status_code response =? 200 then
       user_data <- lift (json response) ;;
       (* the log line reads user_data.get('username', 'N/A') *)
       _ <- lift (get user_data "username" (VStr "N/A")) ;;
       uid <- lift (get user_data "uid" VNone) ;;
       modify_self (set_user_uid uid) ;;;
       w <- lift (get user_data "wallet_address" VNone) ;;
       modify_self (set_wallet_address w) ;;;
       ret user_data
     else ret VNone)
    is_RequestException
    (ret VNone).

Definition get_wallet_balance : M value :=
  b <- get_self ;;
  if negb (truthy (wallet_address b)) then ret VNone
  else
    try_except
      (response <- requests_call (GetBalance (wallet_address b)) ;;
       if status_code response =? 200 then
         balance_data <- lift (json response) ;;
         ret balance_data
       else ret VNone)
      is_RequestException
      (ret VNone).

Definition get_available_balance : M float :=
  balance_data <- get_wallet_balance ;;
  if truthy balance_data then
    available <- lift (get balance_data "available" (VInt 0)) ;;
    lift (to_float (float_of_str env) available)
  else ret (float_of_Z 0).

Definition get_pending_payments : M value :=
  try_except
    (response <- requests_call GetPendingPayments ;;
     if status_code response =? 200 then
       payments_data <- lift (json response) ;;
       lift (get payments_data "payments" (VList []))
     else ret VNone)
    is_RequestException
    (ret VNone).

Definition _complete_payment (payment_id : value) : M bool :=
  try_except
    (response <- requests_call (PostComplete payment_id) ;;
     ret (status_code response =? 200))
    is_RequestException
    (ret false).

(** The body of the [for] loop of [confirm_unlock]. *)
Definition sweep_one (payment : value) : M unit :=
  status <- lift (get payment "status" (VDict [])) ;;
  completed <- lift (get status "developer_completed" (VBool true)) ;;
  if negb (truthy completed) then
    payment_id <- lift (get payment "identifier" VNone) ;;
    _ <- _complete_payment payment_id ;;
    ret tt
  else ret tt.

Definition confirm_unlock : M bool :=
  try_except
    (pending_payments <- get_pending_payments ;;
     if negb (truthy pending_payments) then ret true
     else
       payments <- lift (iter pending_payments) ;;
       for_each payments sweep_one ;;;
       ret true)
    is_Exception
    (ret false).

Definition create_payment (recipient : string) (amount : float) (memo : text)
  : M value :=
  try_except
    (_ <- _validate_recipient_address recipient ;;
     b <- get_self ;;
     response <- requests_call
                   (PostPayment amount memo recipient (user_uid b)) ;;
     if (status_code response =? 200) || (status_code response =? 201) then
       payment_response <- lift (json response) ;;
       payment_id <- lift (get payment_response "identifier" VNone) ;;
       ret payment_id
     else ret VNone)
    is_Exception
    (ret VNone).

Definition approve_payment (payment_id : value) : M bool :=
  try_except
    (response <- requests_call (PostApprove payment_id) ;;
     if status_code response =? 200 then ret true else ret false)
    is_RequestException
    (ret false).

Definition complete_payment (payment_id : value) (txid : value) : M bool :=
  _complete_payment payment_id.

Definition get_payment_status (payment_id : value) : M value :=
  try_except
    (response <- requests_call (GetPayment payment_id) ;;
     if status_code response =? 200 then lift (json response)
     else ret VNone)
    is_RequestException
    (ret VNone).

(** *** Payment workflow *)

Definition max_attempts : nat := 60.

(** One turn of the polling loop of [execute_transfer], up to (and not
    including) [attempt += 1]: [Some b] is [return b], [None] falls
    through to the end of the loop body. *)
Definition poll_once (payment_id : value) : M (option bool) :=
  payment_status <- get_payment_status payment_id ;;
  if truthy payment_status then
    status <- lift (get payment_status "status" (VDict [])) ;;
    verified <- lift (get status "transaction_verified" VNone) ;;
    ready <- (if truthy verified then
                completed <- lift (get status "developer_completed" VNone) ;;
                ret (negb (truthy completed))
              else ret false) ;;
    done <- (if ready then
               transaction <- lift (get payment_status "transaction" (VDict [])) ;;
               txid <- lift (get transaction "txid" VNone) ;;
               complete_payment payment_id txid
             else ret false) ;;
    if done then ret (Some true)
    else
      cancelled <- lift (get status "cancelled" VNone) ;;
      stop <- (if truthy cancelled then ret true
               else
                 user_cancelled <- lift (get status "user_cancelled" VNone) ;;
                 ret (truthy user_cancelled)) ;;
      if stop then ret (Some false) else ret None
  else ret None.

(** [while attempt < max_attempts], with [remaining = max_attempts - attempt]. *)
Fixpoint poll_loop (payment_id : value) (remaining : nat) : M bool :=
  match remaining with
  | O => ret false
  | S k =>
      r <- poll_once payment_id ;;
      match r with
      | Some b => ret b
      | None => time_sleep 10 ;;; poll_loop payment_id k
      end
  end.

Definition execute_transfer (recipient : string) (amount : float) : M bool :=
  try_except
    (let memo := TransferMemo amount in
     payment_id <- create_payment recipient amount memo ;;
     if negb (truthy payment_id) then ret false
     else
       approved <- approve_payment payment_id ;;
       if negb approved then ret false
       else poll_loop payment_id max_attempts)
    is_Exception
    (ret false).

(** *** Balance gate and one cycle *)

Definition check_and_transfer : M bool :=
  try_except
    (b <- get_self ;;
     authenticated <- (if negb (truthy (wallet_address b)) then
                         user_info <- get_user_info ;;
                         ret (truthy user_info)
                       else ret true) ;;
     if negb authenticated then ret false
     else
       _ <- confirm_unlock ;;
       available_balance <- get_available_balance ;;
       if fge available_balance REQUIRED_BALANCE then
         b <- get_self ;;
         success <- execute_transfer (allowed_recipient b) TRANSFER_AMOUNT ;;
         if success then ret true else ret false
       else
         let needed := fsub REQUIRED_BALANCE available_balance in
         ret false)
    is_Exception
    (ret false).

(** *** Scheduler *)

Definition is_target_time_reached : M bool :=
  current_time <- datetime_now ;;
  ret (TARGET_DATETIME <=? current_time).

Inductive control := Break | Continue.

(** The body of [while True].  [total_seconds() > 300] is compared in
    microseconds. *)
Definition loop_body : M control :=
  try_except
    (current_time <- datetime_now ;;
     reached <- is_target_time_reached ;;
     if reached then
       ok <- check_and_transfer ;;
       if ok then ret Break else ret Break
     else
       ok <- check_and_transfer ;;
       if ok then ret Break
       else
         let time_until_target := TARGET_DATETIME - current_time in
         if 300 * 1000000 <? time_until_target then
           time_sleep 300 ;;; ret Continue
         else
           time_sleep 60 ;;; ret Continue)
    is_Exception
    (time_sleep 60 ;;; ret Continue).

(** [None]: the loop is still running when the fuel is spent. *)
Fixpoint monitoring_loop (fuel : nat) (s : State) : option (result unit * State) :=
  match fuel with
  | O => None
  | S k =>
      match loop_body s with
      | (Ok Break, s') => Some (Ok tt, s')
      | (Ok Continue, s') => monitoring_loop k s'
      | (Raise e, s') => Some (Raise e, s')
      end
  end.

Definition run_monitoring_loop (fuel : nat) (s : State)
  : option (result unit * State) :=
  match get_user_info s with
  | (Ok user_info, s') =>
      if negb (truthy user_info) then Some (Ok tt, s')
      else monitoring_loop fuel s'
  | (Raise e, s') => Some (Raise e, s')
  end.

Definition run_scheduled_check : M unit :=
  _ <- is_target_time_reached ;;
  _ <- check_and_transfer ;;
  ret tt.

End Script.

(** ** Start-up *)

Definition environ := string -> option string.

Definition getenv (e : environ) (name default : string) : string :=
  match e name with Some v => v | None => default end.

Definition lower_ascii (c : ascii) : ascii :=
  let n := nat_of_ascii c in
  if ((65 <=? n) && (n <=? 90))%nat then ascii_of_nat (n + 32) else c.

(** [str.lower()] on the ASCII letters. *)
Fixpoint lower (s : string) : string :=
  match s with
  | EmptyString => EmptyString
  | String c rest => String (lower_ascii c) (lower rest)
  end.

Definition nonempty (s : string) : bool := negb (s =? "")%string.

Definition _validate_configuration (b : Bot) : result unit :=
  if negb (nonempty (access_token b)) then Raise ValueError
  else if negb (nonempty (allowed_recipient b)) then Raise ValueError
  else if negb (nonempty (app_id b)) then Raise ValueError
  else if negb (nonempty (app_secret b)) then Raise ValueError
  else if negb (nonempty (allowed_recipient b))
          || (String.length (allowed_recipient b) <? 20)%nat
       then Raise ValueError
  else Ok tt.

Definition __init__ (e : environ) : result Bot :=
  let access_token := getenv e "PI_ACCESS_TOKEN" "test_access_token_here" in
  let allowed_recipient :=
    getenv e "ALLOWED_RECIPIENT_ADDRESS" "test_wallet_address_here" in
  let app_id := getenv e "PI_APP_ID" "test_app_id_here" in
  let app_secret := getenv e "PI_APP_SECRET" "test_app_secret_here" in
  let pi_api_base_url := getenv e "PI_API_BASE_URL" "https://api.minepi.com" in
  let sandbox_mode := (lower (getenv e "PI_SANDBOX_MODE" "false") =? "true")%string in
  let pi_api_base_url :=
    if sandbox_mode then "https://api.sandbox.minepi.com" else pi_api_base_url in
  let b := {| access_token := access_token;
              allowed_recipient := allowed_recipient;
              app_id := app_id;
              app_secret := app_secret;
              pi_api_base_url := pi_api_base_url;
              sandbox_mode := sandbox_mode;
              wallet_address := VNone;
              user_uid := VNone |} in
  match _validate_configuration b with
  | Raise ex => Raise ex
  | Ok _ => Ok b
  end.

(** The guard under [if __name__ == "__main__"]. *)
Definition required_env_vars : list string :=
  ["PI_ACCESS_TOKEN"; "ALLOWED_RECIPIENT_ADDRESS"; "PI_APP_ID"; "PI_APP_SECRET"].

Definition missing_vars (e : environ) : list string :=
  filter (fun var => match e var with
                     | Some v => negb (nonempty v)
                     | None => true
                     end) required_env_vars.

(** How a process ends: [exit(status)], an exception that reaches the top,
    a return of [main()], or a loop that is still going when the fuel is
    spent. *)
Inductive process :=
| Exit (status : Z)
| Crashed (e : exn)
| Returned (s : State)
| Running.

(** [main()]: construct the bot, then run the monitoring loop; exceptions
    are logged and raised again. *)
Definition main (env : Env) (e : environ) (fuel : nat) : process :=
  match __init__ e with
  | Raise ex => Crashed ex
  | Ok bot =>
      match run_monitoring_loop env fuel {| self := bot; history := [] |} with
      | Some (Ok _, s) => Returned s
      | Some (Raise ex, _) => Crashed ex
      | None => Running
      end
  end.

(** The file run as a script: [exit(1)] when a required variable is
    missing, [main()] otherwise. *)
Definition script (env : Env) (e : environ) (fuel : nat) : process :=
  match missing_vars e with
  | [] => main env e fuel
  | _ :: _ => Exit 1
  end.

(** ** The trigger endpoint ([app.py]) *)

(** [os.environ[name] = value] *)
Definition setenv (e : environ) (name value : string) : environ :=
  fun n => if (n =? name)%string then Some value else e n.

Fixpoint has_nul (s : string) : bool :=
  match s with
  | EmptyString => false
  | String c rest => (nat_of_ascii c =? 0)%nat || has_nul rest
  end.

(** Assigning a Python value to an environment variable: only a [str]
    without a null character is accepted. *)
Definition environ_set (e : environ) (name : string) (v : value) : result environ :=
  match v with
  | VStr value => if has_nul value then Raise ValueError else Ok (setenv e name value)
  | _ => Raise TypeError
  end.

(** The JSON bodies the endpoint answers with. *)
Inductive body :=
| ErrorText (msg : string)
| ErrorOf (e : exn)
| Success (success : bool).

(** What persists between two requests: the environment of the process
    and what has been exchanged with the platform so far. *)
Record Process := {
  os_environ : environ;
  exchanged : trace
}.

(** [handle_transfer()], given the parsed JSON body of the POST.  A
    [Raise] is an exception that leaves the view function. *)
Definition handle_transfer (env : Env) (data : value) (p : Process)
  : result (body * Z) * Process :=
  match get data "accessToken" VNone with
  | Raise ex => (Raise ex, p)
  | Ok access_token =>
      if negb (truthy access_token) then (Ok (ErrorText "No access token", 400), p)
      else
        match environ_set (os_environ p) "PI_ACCESS_TOKEN" access_token with
        | Raise ex => (Raise ex, p)
        | Ok e1 =>
            let e2 := setenv e1 "ALLOWED_RECIPIENT_ADDRESS" "pi_1abc234...yourrecipient" in
            let e3 := setenv e2 "PI_APP_ID" "your_app_id_here" in
            let e4 := setenv e3 "PI_APP_SECRET" "your_app_secret_here" in
            let e5 := setenv e4 "PI_SANDBOX_MODE" "true" in
            match __init__ e5 with
            | Raise ex =>
                (Ok (ErrorOf ex, 500), {| os_environ := e5; exchanged := exchanged p |})
            | Ok bot =>
                match check_and_transfer env {| self := bot; history := exchanged p |} with
                | (Ok success, s) =>
                    (Ok (Success success, if success then 200 else 500),
                     {| os_environ := e5; exchanged := history s |})
                | (Raise ex, s) =>
                    (Ok (ErrorOf ex, 500),
                     {| os_environ := e5; exchanged := history s |})
                end
            end
        end
  end.

(** * Vocabulary for the statements *)

(** ** Traces *)

(** The state after [evs] has been appended to the trace. *)
Definition record (evs : trace) (s : State) : State :=
  {| self := self s; history := history s ++ evs |}.

(** The event of a request issued by the bot in state [s]. *)
Definition sent (s : State) (r : request) : event :=
  Http (pi_api_base_url (self s)) (access_token (self s)) r.

(** The next answer of an endpoint in state [s]. *)
Definition next (env : Env) (ep : endpoint) (s : State) : outcome :=
  reply env ep (calls ep (history s)).

(** ** Weights *)

(** A weight on events; [total w evs] adds it up over a trace. *)
Definition weight := event -> Z.

Fixpoint total (w : weight) (evs : trace) : Z :=
  match evs with
  | [] => 0
  | e :: rest => w e + total w rest
  end.

(** [bounded w n m]: whatever the state, [m] only appends to the trace,
    and what it appends weighs at most [n]. *)
Definition bounded {A} (w : weight) (n : Z) (m : M A) : Prop :=
  forall s, exists evs, history (snd (m s)) = history s ++ evs /\ total w evs <= n.

(** Weight 1 on the requests selected by [p], 0 elsewhere: [total] counts them. *)
Definition counting (p : request -> bool) : weight :=
  fun e => match e with
           | Http _ _ r => if p r then 1 else 0
           | _ => 0
           end.

Definition is_status_poll (r : request) : bool :=
  match r with GetPayment _ => true | _ => false end.

Definition is_completion (r : request) : bool :=
  match r with PostComplete _ => true | _ => false end.

Definition is_creation (r : request) : bool :=
  match r with PostPayment _ _ _ _ => true | _ => false end.

(** Requests that only the payment workflow issues. *)
Definition is_workflow (r : request) : bool :=
  match r with
  | PostPayment _ _ _ _ | PostApprove _ | GetPayment _ => true
  | _ => false
  end.

(** Completions minus status polls. *)
Definition completions_over_polls : weight :=
  fun e => counting is_completion e - counting is_status_poll e.

(** Sleeps other than the 10-unit pause between two polls. *)
Definition long_sleeps : weight :=
  fun e => match e with
           | Sleep n => if n =? 10 then 0 else 1
           | _ => 0
           end.

(** Every sleep counts for one. *)
Definition pauses : weight :=
  fun e => match e with
           | Sleep _ => 1
           | _ => 0
           end.

(** ** Answers of the platform *)

(** What [get_payment_status] and [get_wallet_balance] make of an answer. *)
Definition body_or_none (o : outcome) : result value :=
  match o with
  | NetworkError => Ok VNone
  | Response r =>
      if status_code r =? 200 then
        match json r with
        | Ok v => Ok v
        | Raise e => if is_RequestException e then Ok VNone else Raise e
        end
      else Ok VNone
  end.

(** What [approve_payment] and [_complete_payment] make of an answer. *)
Definition ok_200 (o : outcome) : bool :=
  match o with
  | NetworkError => false
  | Response r => status_code r =? 200
  end.

(** With the allowed recipient the guard passes and the request goes out;
    [create_payment] never raises. *)
Definition created (o : outcome) : value :=
  match o with
  | NetworkError => VNone
  | Response r =>
      if (status_code r =? 200) || (status_code r =? 201) then
        match json r with
        | Ok payment_response =>
            match get payment_response "identifier" VNone with
            | Ok payment_id => payment_id
            | Raise _ => VNone
            end
        | Raise _ => VNone
        end
      else VNone
  end.

(** The call did not succeed: the network failed, or the status code is
    not one of the operation's success codes. *)
Definition failed (success_codes : list Z) (o : outcome) : bool :=
  match o with
  | NetworkError => true
  | Response r => negb (existsb (Z.eqb (status_code r)) success_codes)
  end.

(** ** Status polls *)

(** [status.get(name)] is truthy, where [status] is the nested record of a
    payment object. *)
Definition status_flag (payment_status : value) (name : string) : bool :=
  match get payment_status "status" (VDict []) with
  | Ok status =>
      match get status name VNone with
      | Ok x => truthy x
      | Raise _ => false
      end
  | Raise _ => false
  end.

Definition verified_uncompleted (payment_status : value) : bool :=
  truthy payment_status
  && status_flag payment_status "transaction_verified"
  && negb (status_flag payment_status "developer_completed").

Definition cancelled (payment_status : value) : bool :=
  truthy payment_status
  && (status_flag payment_status "cancelled"
      || status_flag payment_status "user_cancelled").

(** The payment object has the shape of the platform's contract: its
    [status], when present, is a record. *)
Definition has_status_record (payment_status : value) : bool :=
  match get payment_status "status" (VDict []) with
  | Ok (VDict _) => true
  | _ => false
  end.

(** [payment_status.get('transaction', {})] is a record, so that the
    [txid] can be read. *)
Definition has_transaction_record (payment_status : value) : bool :=
  match get payment_status "transaction" (VDict []) with
  | Ok (VDict _) => true
  | _ => false
  end.

(** A poll that leaves the workflow waiting: the call failed, or it
    returned a payment object that is neither verified-and-uncompleted nor
    cancelled. *)
Definition pending (polled : result value) : bool :=
  match polled with
  | Ok v =>
      negb (truthy v)
      || (has_status_record v && negb (verified_uncompleted v) && negb (cancelled v))
  | Raise _ => false
  end.

Definition reports (p : value -> bool) (polled : result value) : bool :=
  match polled with
  | Ok v => p v
  | Raise _ => false
  end.

(** The k-th status poll from state [s] on. *)
Definition poll (env : Env) (s : State) (k : nat) : result value :=
  body_or_none (reply env EpStatus (calls EpStatus (history s) + k)).

(** [n] rounds of "poll, then sleep 10". *)
Definition polling (s : State) (payment_id : value) (n : nat) : trace :=
  List.concat (repeat [sent s (GetPayment payment_id); Sleep 10] n).

(** No poll before the j-th reports verified-and-uncompleted. *)
Definition none_verified_before (env : Env) (s : State) (j : nat) : bool :=
  forallb (fun k => negb (reports verified_uncompleted (poll env s k))) (seq 0 j).

(** ** Unlock confirmation *)

(** The pending payment carries a status record in which the
    [developer_completed] flag is present and false (in Python's sense:
    [not flag] holds). *)
Definition explicitly_uncompleted (payment : value) : bool :=
  match payment with
  | VDict d =>
      match lookup d "status" with
      | Some (VDict status) =>
          match lookup status "developer_completed" with
          | Some flag => negb (truthy flag)
          | None => false
          end
      | _ => false
      end
  | _ => false
  end.

Definition identifier_of (payment : value) : value :=
  match get payment "identifier" VNone with
  | Ok payment_id => payment_id
  | Raise _ => VNone
  end.

(** The payments the sweep gets through: it stops at the first entry that
    is not a payment object. *)
Fixpoint swept (payments : list value) : list value :=
  match payments with
  | [] => []
  | payment :: rest =>
      if has_status_record payment then payment :: swept rest else []
  end.

(** The completion requests for the flagged payments, in order. *)
Definition completions (s : State) (payments : list value) : trace :=
  map (fun payment => sent s (PostComplete (identifier_of payment)))
      (filter explicitly_uncompleted payments).

(** ** One cycle *)

(** What [check_and_transfer] does once the bot is authenticated. *)
Definition gate_and_transfer (env : Env) : M bool :=
  _ <- confirm_unlock env ;;
  available_balance <- get_available_balance env ;;
  if fge available_balance REQUIRED_BALANCE then
    b <- get_self ;;
    success <- execute_transfer env (allowed_recipient b) TRANSFER_AMOUNT ;;
    if success then ret true else ret false
  else ret false.

(** The cycle gets past its authentication step, in state [s0]: the
    wallet address is known already, or [get_user_info] returns the user. *)
Definition authenticated (env : Env) (s s0 : State) : Prop :=
  (truthy (wallet_address (self s)) = true /\ s0 = s)
  \/ (truthy (wallet_address (self s)) = false
      /\ exists user_info,
          get_user_info env s = (Ok user_info, s0) /\ truthy user_info = true).

(** ** What a run keeps *)

(** The settings read at start-up; only the wallet address and the user
    id of the bot are ever assigned later. *)
Definition same_config (b b' : Bot) : Prop :=
  access_token b = access_token b'
  /\ allowed_recipient b = allowed_recipient b'
  /\ app_id b = app_id b'
  /\ app_secret b = app_secret b'
  /\ pi_api_base_url b = pi_api_base_url b'
  /\ sandbox_mode b = sandbox_mode b'.

(** [keeps P m]: whatever the state, [m] only appends to the history,
    leaves the settings of the bot alone, and every event it appends
    satisfies [P] for the bot it started with. *)
Definition keeps {A} (P : Bot -> event -> Prop) (m : M A) : Prop :=
  forall s, exists evs,
    history (snd (m s)) = history s ++ evs
    /\ same_config (self s) (self (snd (m s)))
    /\ Forall (P (self s)) evs.

(** A request goes to the bot's base URL with the bot's token, and a
    creation is for the allowed recipient, the given amount and the memo of
    that amount. *)
Definition orderly (amount : float) (b : Bot) (e : event) : Prop :=
  match e with
  | Http base bearer r =>
      base = pi_api_base_url b
      /\ bearer = access_token b
      /\ match r with
         | PostPayment a memo recipient _ =>
             recipient = allowed_recipient b /\ a = amount /\ memo = TransferMemo amount
         | _ => True
         end
  | _ => True
  end.

(** A step of the workflow on one payment: approve it, poll it, complete
    it, or pause for 10. *)
Definition workflow_step (payment_id : value) (b : Bot) (e : event) : Prop :=
  match e with
  | Http _ _ (PostApprove p) => p = payment_id
  | Http _ _ (GetPayment p) => p = payment_id
  | Http _ _ (PostComplete p) => p = payment_id
  | Sleep n => n = 10
  | _ => False
  end.

(** ** The trigger endpoint *)

(** The environment after the five assignments of [handle_transfer]. *)
Definition trigger_environ (e : environ) (token : string) : environ :=
  setenv (setenv (setenv (setenv (setenv e "PI_ACCESS_TOKEN" token)
    "ALLOWED_RECIPIENT_ADDRESS" "pi_1abc234...yourrecipient")
    "PI_APP_ID" "your_app_id_here")
    "PI_APP_SECRET" "your_app_secret_here")
    "PI_SANDBOX_MODE" "true".

(** The bot that [handle_transfer] works with. *)
Definition trigger_bot (token : string) : Bot :=
  {| access_token := token;
     allowed_recipient := "pi_1abc234...yourrecipient";
     app_id := "your_app_id_here";
     app_secret := "your_app_secret_here";
     pi_api_base_url := "https://api.sandbox.minepi.com";
     sandbox_mode := true;
     wallet_address := VNone;
     user_uid := VNone |}.

(** * Sample platforms *)

Module Sample.

Definition bot : Bot :=
  {| access_token := "token";
     allowed_recipient := "GBALLOWEDRECIPIENT0000001";
     app_id := "app";
     app_secret := "secret";
     pi_api_base_url := "https://api.minepi.com";
     sandbox_mode := false;
     wallet_address := VStr "GBWALLET";
     user_uid := VStr "user-1" |}.

Definition start : State := {| self := bot; history := [] |}.

Definition respond (code : Z) (body : value) : outcome :=
  Response {| status_code := code; json := Ok body |}.

Definition payment_object (verified completed is_cancelled : bool) : value :=
  VDict [("identifier", VStr "pay-1");
         ("status", VDict [("transaction_verified", VBool verified);
                           ("developer_completed", VBool completed);
                           ("cancelled", VBool is_cancelled);
                           ("user_cancelled", VBool false)]);
         ("transaction", VDict [("txid", VStr "tx-1")])].

(** Creation and approval succeed; [status k] is the k-th poll and
    [completion k] the k-th answer to a completion. *)
Definition platform (status completion : nat -> outcome) : Env :=
  {| reply := fun ep k =>
                match ep with
                | EpCreate => respond 201 (VDict [("identifier", VStr "pay-1")])
                | EpApprove => respond 200 (VDict [])
                | EpStatus => status k
                | EpComplete => completion k
                | _ => NetworkError
                end;
     clock := fun _ => 0;
     float_of_str := fun _ => None |}.

Definition always_pending : Env :=
  platform (fun _ => respond 200 (payment_object false false false))
           (fun _ => NetworkError).

(** Every poll reports the payment cancelled, and not verified. *)
Definition cancelled_at_once : Env :=
  platform (fun _ => respond 200 (payment_object false false true))
           (fun _ => NetworkError).

(** Every poll reports the payment both verified-and-uncompleted and
    cancelled; completions succeed. *)
Definition verified_and_cancelled : Env :=
  platform (fun _ => respond 200 (payment_object true false true))
           (fun _ => respond 200 (VDict [])).

(** Every poll reports verified-and-uncompleted; the first completion
    is refused, the later ones succeed. *)
Definition first_completion_refused : Env :=
  platform (fun _ => respond 200 (payment_object true false false))
           (fun k => match k with
                     | O => respond 500 (VDict [])
                     | S _ => respond 200 (VDict [])
                     end).

(** Four payments are listed as pending: one flagged as not completed,
    one flagged as completed, one without the flag and one without a
    status record. *)
Definition pending_list : list value :=
  [VDict [("identifier", VStr "old-1");
          ("status", VDict [("developer_completed", VBool false)])];
   VDict [("identifier", VStr "old-2");
          ("status", VDict [("developer_completed", VBool true)])];
   VDict [("identifier", VStr "old-3");
          ("status", VDict [("transaction_verified", VBool true)])];
   VDict [("identifier", VStr "old-4")]].

Definition with_pending : Env :=
  {| reply := fun ep k =>
                match ep with
                | EpPending => respond 200 (VDict [("payments", VList pending_list)])
                | _ => NetworkError
                end;
     clock := fun _ => 0;
     float_of_str := fun _ => None |}.

(** Every call times out. *)
Definition offline : Env :=
  {| reply := fun _ _ => NetworkError;
     clock := fun _ => 0;
     float_of_str := fun _ => None |}.

(** Every call is answered by HTTP 500 with an error body. *)
Definition rejecting : Env :=
  {| reply := fun _ _ => respond 500 (VDict [("error", VStr "rejected")]);
     clock := fun _ => 0;
     float_of_str := fun _ => None |}.

(** None of the variables is set. *)
Definition no_environment : environ := fun _ => None.

(** The deadline has passed and every call times out. *)
Definition past_deadline : Env :=
  {| reply := fun _ _ => NetworkError;
     clock := fun _ => TARGET_DATETIME + 1;
     float_of_str := fun _ => None |}.

(** The wallet holds exactly 1650.01; no payment is pending; creation
    and approval succeed and every poll is pending. *)
Definition funded : Env :=
  {| reply := fun ep k =>
                match ep with
                | EpBalance =>
                    respond 200 (VDict [("available", VFloat (decimal 165001 100))])
                | EpPending => respond 200 (VDict [("payments", VList [])])
                | EpCreate => respond 201 (VDict [("identifier", VStr "pay-1")])
                | EpApprove => respond 200 (VDict [])
                | EpStatus => respond 200 (payment_object false false false)
                | _ => NetworkError
                end;
     clock := fun _ => 0;
     float_of_str := fun _ => None |}.

(** As [funded], with the deadline passed: the final attempt starts a
    payment that stays pending. *)
Definition stalled_at_deadline : Env :=
  {| reply := reply funded;
     clock := fun _ => TARGET_DATETIME + 1;
     float_of_str := float_of_str funded |}.

(** The balance endpoint answers HTTP 503; everything else succeeds. *)
Definition balance_down : Env :=
  {| reply := fun ep k =>
                match ep with
                | EpBalance => respond 503 (VDict [])
                | EpPending => respond 200 (VDict [("payments", VList [])])
                | EpCreate => respond 201 (VDict [("identifier", VStr "pay-1")])
                | EpApprove => respond 200 (VDict [])
                | EpStatus => respond 200 (payment_object true false false)
                | EpComplete => respond 200 (VDict [])
                | EpMe => NetworkError
                end;
     clock := fun _ => 0;
     float_of_str := fun _ => None |}.

(** The third poll reports verified-and-uncompleted, the first two are
    pending; the completion is accepted. *)
Definition verified_on_third_poll : Env :=
  platform (fun k => match k with
                     | 0%nat | 1%nat => respond 200 (payment_object false false false)
                     | _ => respond 200 (payment_object true false false)
                     end)
           (fun _ => respond 200 (VDict [])).

(** Every call times out; the clock stands [seconds] before the deadline. *)
Definition waiting (seconds : Z) : Env :=
  {| reply := fun _ _ => NetworkError;
     clock := fun _ => TARGET_DATETIME - seconds * 1000000;
     float_of_str := fun _ => None |}.

(** The identity lookup is answered by HTTP 200 with a list for a body. *)
Definition odd_identity : Env :=
  {| reply := fun _ _ => respond 200 (VList [VStr "unexpected"]);
     clock := fun _ => 0;
     float_of_str := fun _ => None |}.

(** Every poll reports verified-and-uncompleted and every completion is
    refused. *)
Definition completion_always_refused : Env :=
  platform (fun _ => respond 200 (payment_object true false false))
           (fun _ => respond 409 (VDict [])).

(** The creation is answered by HTTP 201, without an identifier. *)
Definition no_identifier : Env :=
  {| reply := fun ep k =>
                match ep with
                | EpCreate => respond 201 (VDict [("amount", VInt 1650)])
                | _ => respond 200 (payment_object true false false)
                end;
     clock := fun _ => 0;
     float_of_str := fun _ => None |}.

(** The creation succeeds and the approval is answered by HTTP 403. *)
Definition approval_refused : Env :=
  {| reply := fun ep k =>
                match ep with
                | EpCreate => respond 201 (VDict [("identifier", VStr "pay-1")])
                | EpApprove => respond 403 (VDict [])
                | _ => respond 200 (payment_object true false false)
                end;
     clock := fun _ => 0;
     float_of_str := fun _ => None |}.

(** A bot that has not looked up its identity yet. *)
Definition fresh : State :=
  {| self := set_user_uid VNone (set_wallet_address VNone bot); history := [] |}.

Definition identity : value :=
  VDict [("uid", VStr "user-1"); ("username", VStr "alice");
         ("wallet_address", VStr "GBWALLET")].

(** The deadline has passed; the identity is known to the platform, the
    wallet holds 2000, nothing is pending, and the second poll of the new
    payment reports it verified. *)
Definition last_chance : Env :=
  {| reply := fun ep k =>
                match ep with
                | EpMe => respond 200 identity
                | EpBalance => respond 200 (VDict [("available", VInt 2000)])
                | EpPending => respond 200 (VDict [("payments", VList [])])
                | EpCreate => respond 201 (VDict [("identifier", VStr "pay-1")])
                | EpApprove => respond 200 (VDict [])
                | EpStatus =>
                    match k with
                    | O => respond 200 (payment_object false false false)
                    | S _ => respond 200 (payment_object true false false)
                    end
                | EpComplete => respond 200 (VDict [])
                end;
     clock := fun _ => TARGET_DATETIME + 1;
     float_of_str := fun _ => None |}.

(** The identity lookup succeeds, and the answer names a user without a
    wallet address. *)
Definition no_wallet : Env :=
  {| reply := fun _ _ => respond 200 (VDict [("uid", VStr "user-2")]);
     clock := fun _ => 0;
     float_of_str := fun _ => None |}.

(** The listing of pending payments is answered by an object without a
    [payments] field. *)
Definition nothing_listed : Env :=
  {| reply := fun _ _ => respond 200 (VDict [("total", VInt 0)]);
     clock := fun _ => 0;
     float_of_str := fun _ => None |}.

(** The balance is answered by [{"locked": 5}]: no [available] field. *)
Definition no_available_field : Env :=
  {| reply := fun _ _ => respond 200 (VDict [("locked", VInt 5)]);
     clock := fun _ => 0;
     float_of_str := fun _ => None |}.

(** The balance is answered by [{"available": null}]; everything else
    would let a transfer through. *)
Definition null_balance : Env :=
  {| reply := fun ep k =>
                match ep with
                | EpBalance => respond 200 (VDict [("available", VNone)])
                | EpPending => respond 200 (VDict [("payments", VList [])])
                | EpCreate => respond 201 (VDict [("identifier", VStr "pay-1")])
                | EpComplete | EpApprove => respond 200 (VDict [])
                | EpStatus => respond 200 (payment_object true false false)
                | EpMe => respond 200 identity
                end;
     clock := fun _ => 0;
     float_of_str := fun _ => None |}.

(** The four required variables are set, the sandbox flag is spelled in
    capitals and a base URL is given. *)
Definition configured : environ :=
  fun name =>
    if (name =? "PI_ACCESS_TOKEN")%string then Some "token"
    else if (name =? "ALLOWED_RECIPIENT_ADDRESS")%string
         then Some "GBALLOWEDRECIPIENT0000001"
    else if (name =? "PI_APP_ID")%string then Some "app"
    else if (name =? "PI_APP_SECRET")%string then Some "secret"
    else if (name =? "PI_SANDBOX_MODE")%string then Some "TRUE"
    else if (name =? "PI_API_BASE_URL")%string then Some "https://example.org"
    else None.

(** As [configured], with a recipient of 8 characters. *)
Definition short_recipient : environ :=
  setenv configured "ALLOWED_RECIPIENT_ADDRESS" "GBSHORT1".

(** As [configured], with an empty app secret. *)
Definition empty_secret : environ := setenv configured "PI_APP_SECRET" "".

(** A server process whose environment points to production. *)
Definition server : Process :=
  {| os_environ := setenv (setenv no_environment "PI_SANDBOX_MODE" "false")
                     "PI_API_BASE_URL" "https://api.minepi.com";
     exchanged := [] |}.

Definition create : request :=
  PostPayment TRANSFER_AMOUNT (TransferMemo TRANSFER_AMOUNT)
    (allowed_recipient bot) (VStr "user-1").
Definition approve : request := PostApprove (VStr "pay-1").
Definition status : request := GetPayment (VStr "pay-1").
Definition complete : request := PostComplete (VStr "pay-1").

End Sample.

(** * Reasoning about runs *)

(** ** Traces *)

Arguments calls : simpl never.
Arguments clock_reads : simpl never.

Lemma calls_app ep (a b : trace) :
  calls ep (a ++ b) = (calls ep a + calls ep b)%nat.
Proof. unfold calls. now rewrite filter_app, length_app. Qed.

Lemma clock_reads_app (a b : trace) :
  clock_reads (a ++ b) = (clock_reads a + clock_reads b)%nat.
Proof. unfold clock_reads. now rewrite filter_app, length_app. Qed.

Lemma record_nil s : record [] s = s.
Proof. destruct s; unfold record; cbn. now rewrite app_nil_r. Qed.

Lemma record_record a b s : record b (record a s) = record (a ++ b) s.
Proof. unfold record; cbn. now rewrite app_assoc. Qed.

Lemma total_app w a b : total w (a ++ b) = total w a + total w b.
Proof. induction a as [|e a IH]; cbn; [reflexivity | rewrite IH; lia]. Qed.

Section Bounded.

Variable w : weight.

Lemma bounded_le {A} (m : M A) n n' :
  bounded w n m -> n <= n' -> bounded w n' m.
Proof.
  intros H Hle s. destruct (H s) as (evs & E & T).
  exists evs. split; [assumption | lia].
Qed.

Lemma bounded_ret {A} (a : A) : bounded w 0 (ret a).
Proof. intro s. exists []. cbn. rewrite app_nil_r. split; [reflexivity | lia]. Qed.

Lemma bounded_raise {A} e : bounded w 0 (@raise A e).
Proof. intro s. exists []. cbn. rewrite app_nil_r. split; [reflexivity | lia]. Qed.

Lemma bounded_lift {A} (r : result A) : bounded w 0 (lift r).
Proof. intro s. exists []. cbn. rewrite app_nil_r. split; [reflexivity | lia]. Qed.

Lemma bounded_get_self : bounded w 0 get_self.
Proof. intro s. exists []. cbn. rewrite app_nil_r. split; [reflexivity | lia]. Qed.

Lemma bounded_modify_self f : bounded w 0 (modify_self f).
Proof. intro s. exists []. cbn. rewrite app_nil_r. split; [reflexivity | lia]. Qed.

Lemma bounded_emit e : bounded w (w e) (emit e).
Proof. intro s. exists [e]. cbn. split; [reflexivity | lia]. Qed.

(** A continuation that is skipped by an exception appends nothing,
    hence [0 <= n2]. *)
Lemma bounded_bind {A B} (m : M A) (k : A -> M B) n1 n2 :
  bounded w n1 m -> (forall a, bounded w n2 (k a)) -> 0 <= n2 ->
  bounded w (n1 + n2) (bind m k).
Proof.
  intros Hm Hk Hpos s. unfold bind.
  destruct (Hm s) as (e1 & E1 & T1).
  destruct (m s) as [[a|ex] s1]; cbn in E1.
  - destruct (Hk a s1) as (e2 & E2 & T2).
    exists (e1 ++ e2). rewrite E2, E1, app_assoc, total_app.
    split; [reflexivity | lia].
  - exists e1. cbn. split; [assumption | lia].
Qed.

Lemma bounded_bind0 {A B} (m : M A) (k : A -> M B) :
  bounded w 0 m -> (forall a, bounded w 0 (k a)) -> bounded w 0 (bind m k).
Proof. intros Hm Hk. apply (bounded_bind m k 0 0); [assumption | assumption | lia]. Qed.

Lemma bounded_try {A} (body handler : M A) catches n1 n2 :
  bounded w n1 body -> bounded w n2 handler -> 0 <= n2 ->
  bounded w (n1 + n2) (try_except body catches handler).
Proof.
  intros Hb Hh Hpos s. unfold try_except.
  destruct (Hb s) as (e1 & E1 & T1).
  destruct (body s) as [[a|ex] s1]; cbn in E1.
  - exists e1. cbn. split; [assumption | lia].
  - destruct (catches ex).
    + destruct (Hh s1) as (e2 & E2 & T2).
      exists (e1 ++ e2). rewrite E2, E1, app_assoc, total_app.
      split; [reflexivity | lia].
    + exists e1. cbn. split; [assumption | lia].
Qed.

Lemma bounded_try0 {A} (body handler : M A) catches :
  bounded w 0 body -> bounded w 0 handler ->
  bounded w 0 (try_except body catches handler).
Proof. intros Hb Hh. apply (bounded_try body handler catches 0 0); [assumption | assumption | lia]. Qed.

Lemma bounded_for_each0 {A} (xs : list A) (body : A -> M unit) :
  (forall x, bounded w 0 (body x)) -> bounded w 0 (for_each xs body).
Proof.
  intro Hb. induction xs as [|x xs IH]; cbn [for_each].
  - apply bounded_ret.
  - apply bounded_bind0; [apply Hb | intros _; exact IH].
Qed.

Lemma bounded_requests_call env r n :
  (forall base bearer, w (Http base bearer r) <= n) ->
  bounded w n (requests_call env r).
Proof.
  intros Hw s. exists [sent s r]. unfold requests_call, sent.
  destruct (reply env (endpoint_of r) (calls (endpoint_of r) (history s)));
    cbn; (split; [reflexivity | specialize (Hw (pi_api_base_url (self s)) (access_token (self s))); lia]).
Qed.

Lemma bounded_time_sleep n : bounded w (w (Sleep n)) (time_sleep n).
Proof. apply bounded_emit. Qed.

Lemma bounded_datetime_now env : bounded w (w Now) (datetime_now env).
Proof. intro s. exists [Now]. cbn. split; [reflexivity | lia]. Qed.

End Bounded.

(** ** The platform client, answer by answer *)

Ltac run :=
  unfold try_except, bind, requests_call, lift, ret, raise, get_self,
    modify_self, record, sent, next; cbn.

Lemma get_payment_status_eq env payment_id s :
  get_payment_status env payment_id s =
  (body_or_none (next env EpStatus s), record [sent s (GetPayment payment_id)] s).
Proof.
  unfold get_payment_status, body_or_none; run.
  destruct (reply env EpStatus _) as [|r]; cbn; [reflexivity|].
  destruct (status_code r =? 200); cbn; [|reflexivity].
  destruct (json r) as [v|e]; cbn; [reflexivity|]. destruct e; reflexivity.
Qed.

Lemma _complete_payment_eq env payment_id s :
  _complete_payment env payment_id s =
  (Ok (ok_200 (next env EpComplete s)), record [sent s (PostComplete payment_id)] s).
Proof.
  unfold _complete_payment, ok_200; run.
  destruct (reply env EpComplete _) as [|r]; reflexivity.
Qed.

Lemma approve_payment_eq env payment_id s :
  approve_payment env payment_id s =
  (Ok (ok_200 (next env EpApprove s)), record [sent s (PostApprove payment_id)] s).
Proof.
  unfold approve_payment, ok_200; run.
  destruct (reply env EpApprove _) as [|r]; cbn; [reflexivity|].
  destruct (status_code r =? 200); reflexivity.
Qed.

Lemma get_wallet_balance_eq env s :
  get_wallet_balance env s =
  if truthy (wallet_address (self s)) then
    (body_or_none (next env EpBalance s),
     record [sent s (GetBalance (wallet_address (self s)))] s)
  else (Ok VNone, s).
Proof.
  unfold get_wallet_balance, body_or_none; run.
  destruct (truthy (wallet_address (self s))); cbn; [|reflexivity].
  destruct (reply env EpBalance _) as [|r]; cbn; [reflexivity|].
  destruct (status_code r =? 200); cbn; [|reflexivity].
  destruct (json r) as [v|e]; cbn; [reflexivity|]. destruct e; reflexivity.
Qed.

Lemma get_pending_payments_eq env s :
  get_pending_payments env s =
  (match next env EpPending s with
   | NetworkError => Ok VNone
   | Response r =>
       if status_code r =? 200 then
         match json r with
         | Ok payments_data => get payments_data "payments" (VList [])
         | Raise e => if is_RequestException e then Ok VNone else Raise e
         end
       else Ok VNone
   end,
   record [sent s GetPendingPayments] s).
Proof.
  unfold get_pending_payments; run.
  destruct (reply env EpPending _) as [|r]; cbn; [reflexivity|].
  destruct (status_code r =? 200); cbn; [|reflexivity].
  destruct (json r) as [v|e]; cbn.
  - destruct v; reflexivity.
  - destruct e; reflexivity.
Qed.

Lemma create_payment_allowed env amount memo s :
  create_payment env (allowed_recipient (self s)) amount memo s =
  (Ok (created (next env EpCreate s)),
   record [sent s (PostPayment amount memo (allowed_recipient (self s))
                               (user_uid (self s)))] s).
Proof.
  unfold create_payment, _validate_recipient_address, created; run.
  rewrite String.eqb_refl; cbn.
  destruct (reply env EpCreate _) as [|r]; cbn; [reflexivity|].
  destruct ((status_code r =? 200) || (status_code r =? 201)); cbn; [|reflexivity].
  destruct (json r) as [v|e]; cbn; [|reflexivity].
  destruct v; reflexivity.
Qed.

Lemma create_payment_denied env recipient amount memo s :
  recipient <> allowed_recipient (self s) ->
  create_payment env recipient amount memo s = (Ok VNone, s).
Proof.
  intro Hne. apply String.eqb_neq in Hne.
  unfold create_payment, _validate_recipient_address; run.
  rewrite Hne; cbn. destruct s; reflexivity.
Qed.

Lemma get_user_info_log env s :
  history (snd (get_user_info env s)) = history s ++ [sent s GetMe].
Proof.
  unfold get_user_info; run.
  destruct (reply env EpMe _) as [|r]; cbn; [reflexivity|].
  destruct (status_code r =? 200); cbn; [|reflexivity].
  destruct (json r) as [v|e]; cbn; [|destruct e; reflexivity].
  destruct v; reflexivity.
Qed.

(** ** What a status poll reports *)

Lemma poll_once_pending env payment_id s :
  pending (body_or_none (next env EpStatus s)) = true ->
  poll_once env payment_id s =
  (Ok None, record [sent s (GetPayment payment_id)] s).
Proof.
  intro H. unfold poll_once, bind at 1. rewrite get_payment_status_eq.
  destruct (body_or_none (next env EpStatus s)) as [v|e]; [|discriminate].
  cbn in H. destruct (truthy v) eqn:Tv; [|reflexivity].
  unfold verified_uncompleted, cancelled, has_status_record, status_flag in H.
  rewrite Tv in H. cbn in H.
  destruct (get v "status" (VDict [])) as [st|e] eqn:Est; [|discriminate].
  destruct st as [| | | | | |d]; try discriminate.
  unfold bind, lift, ret; cbn.
  cbn in H.
  destruct (truthy (match lookup d "transaction_verified" with
                    | Some x => x | None => VNone end)); cbn in *.
  - destruct (truthy (match lookup d "developer_completed" with
                      | Some x => x | None => VNone end)); cbn in *; [|discriminate].
    destruct (truthy (match lookup d "cancelled" with
                      | Some x => x | None => VNone end)); cbn in *; [discriminate|].
    destruct (truthy (match lookup d "user_cancelled" with
                      | Some x => x | None => VNone end)); cbn in *; [discriminate|].
    reflexivity.
  - destruct (truthy (match lookup d "cancelled" with
                      | Some x => x | None => VNone end)); cbn in *; [discriminate|].
    destruct (truthy (match lookup d "user_cancelled" with
                      | Some x => x | None => VNone end)); cbn in *; [discriminate|].
    reflexivity.
Qed.

Lemma calls_status_poll s payment_id :
  calls EpStatus (history (record [sent s (GetPayment payment_id); Sleep 10] s)) =
  S (calls EpStatus (history s)).
Proof.
  cbn [record history]. rewrite calls_app.
  change (calls EpStatus [sent s (GetPayment payment_id); Sleep 10]) with 1%nat.
  lia.
Qed.

Lemma calls_polling s payment_id n :
  calls EpStatus (polling s payment_id n) = n.
Proof.
  induction n as [|n IH]; [reflexivity|].
  unfold polling in *. cbn [repeat List.concat].
  rewrite calls_app, IH. reflexivity.
Qed.

Lemma poll_loop_pending env payment_id n : forall s,
  (forall k, (k < n)%nat -> pending (poll env s k) = true) ->
  poll_loop env payment_id n s = (Ok false, record (polling s payment_id n) s).
Proof.
  induction n as [|n IH]; intros s H.
  - cbn. now rewrite record_nil.
  - cbn [poll_loop]. unfold bind at 1.
    rewrite poll_once_pending.
    2:{ specialize (H 0%nat ltac:(lia)). unfold poll in H.
        now rewrite Nat.add_0_r in H. }
    unfold bind, time_sleep, emit. cbn [fst snd].
    change {| self := self (record [sent s (GetPayment payment_id)] s);
              history := history (record [sent s (GetPayment payment_id)] s) ++ [Sleep 10] |}
      with (record [Sleep 10] (record [sent s (GetPayment payment_id)] s)).
    rewrite record_record. cbn [app].
    rewrite IH.
    + rewrite record_record. reflexivity.
    + intros k Hk. unfold poll. rewrite calls_status_poll.
      specialize (H (S k) ltac:(lia)). unfold poll in H.
      now rewrite Nat.add_succ_r in H.
Qed.

(** ** Counting what a run appends *)

Ltac quiet :=
  repeat first
    [ assumption
    | apply bounded_ret
    | apply bounded_lift
    | apply bounded_raise
    | apply bounded_get_self
    | apply bounded_modify_self
    | apply bounded_bind0; [ | intro ]
    | apply bounded_try0
    | apply bounded_for_each0; intro
    | match goal with
      | |- bounded _ _ (if ?c then _ else _) => destruct c
      | |- bounded _ _ (match ?x with _ => _ end) => destruct x
      end ].

Section ClientBounds.

Variable w : weight.
Variable env : Env.

Lemma get_payment_status_bounded payment_id n :
  (forall base bearer, w (Http base bearer (GetPayment payment_id)) <= n) ->
  bounded w n (get_payment_status env payment_id).
Proof.
  intros H s. rewrite get_payment_status_eq. eexists. split; [reflexivity|].
  cbn. unfold sent. specialize (H (pi_api_base_url (self s)) (access_token (self s))). lia.
Qed.

Lemma _complete_payment_bounded payment_id n :
  (forall base bearer, w (Http base bearer (PostComplete payment_id)) <= n) ->
  bounded w n (_complete_payment env payment_id).
Proof.
  intros H s. rewrite _complete_payment_eq. eexists. split; [reflexivity|].
  cbn. unfold sent. specialize (H (pi_api_base_url (self s)) (access_token (self s))). lia.
Qed.

Lemma approve_payment_bounded payment_id n :
  (forall base bearer, w (Http base bearer (PostApprove payment_id)) <= n) ->
  bounded w n (approve_payment env payment_id).
Proof.
  intros H s. rewrite approve_payment_eq. eexists. split; [reflexivity|].
  cbn. unfold sent. specialize (H (pi_api_base_url (self s)) (access_token (self s))). lia.
Qed.

Lemma get_pending_payments_bounded n :
  (forall base bearer, w (Http base bearer GetPendingPayments) <= n) ->
  bounded w n (get_pending_payments env).
Proof.
  intros H s. rewrite get_pending_payments_eq. eexists. split; [reflexivity|].
  cbn. unfold sent. specialize (H (pi_api_base_url (self s)) (access_token (self s))). lia.
Qed.

Lemma get_user_info_bounded n :
  (forall base bearer, w (Http base bearer GetMe) <= n) ->
  bounded w n (get_user_info env).
Proof.
  intros H s. rewrite get_user_info_log. eexists. split; [reflexivity|].
  cbn. unfold sent. specialize (H (pi_api_base_url (self s)) (access_token (self s))). lia.
Qed.

Lemma get_wallet_balance_bounded n :
  (forall base bearer wallet, w (Http base bearer (GetBalance wallet)) <= n) ->
  0 <= n ->
  bounded w n (get_wallet_balance env).
Proof.
  intros H Hn s. rewrite get_wallet_balance_eq.
  destruct (truthy (wallet_address (self s))).
  - eexists. split; [reflexivity|].
    cbn. unfold sent. specialize (H (pi_api_base_url (self s)) (access_token (self s))
                       (wallet_address (self s))). lia.
  - exists []. cbn. rewrite app_nil_r. split; [reflexivity | lia].
Qed.

Lemma create_payment_bounded recipient amount memo n :
  (forall base bearer uid,
      w (Http base bearer (PostPayment amount memo recipient uid)) <= n) ->
  0 <= n ->
  bounded w n (create_payment env recipient amount memo).
Proof.
  intros H Hn. unfold create_payment.
  apply bounded_le with (n := n + 0); [|lia].
  apply bounded_try; [ | apply bounded_ret | lia ].
  apply bounded_le with (n := 0 + n); [|lia].
  apply bounded_bind; [ | intros _ | assumption ].
  { unfold _validate_recipient_address. quiet. }
  apply bounded_le with (n := 0 + n); [|lia].
  apply bounded_bind; [ apply bounded_get_self | intro b | assumption ].
  apply bounded_le with (n := n + 0); [|lia].
  apply bounded_bind; [ | intro r | lia ].
  - apply bounded_requests_call. intros; apply H.
  - quiet.
Qed.

End ClientBounds.

Ltac after0 k :=
  apply bounded_le with (n := 0 + k);
  [ apply bounded_bind; [ quiet | | ] | ].

Section WorkflowBounds.

Variable w : weight.
Variable env : Env.

(** Bounds on the weight of a status poll, of a completion and of a
    creation; approvals and the 10-unit sleep weigh nothing. *)
Variables a b cr : Z.
Hypothesis w_status :
  forall base bearer payment_id, w (Http base bearer (GetPayment payment_id)) <= a.
Hypothesis w_complete :
  forall base bearer payment_id, w (Http base bearer (PostComplete payment_id)) <= b.
Hypothesis w_create :
  forall base bearer amount memo recipient uid,
    w (Http base bearer (PostPayment amount memo recipient uid)) <= cr.
Hypothesis w_approve :
  forall base bearer payment_id, w (Http base bearer (PostApprove payment_id)) <= 0.
Hypothesis w_sleep : w (Sleep 10) <= 0.
Hypothesis b_pos : 0 <= b.
Hypothesis ab_pos : 0 <= a + b.
Hypothesis cr_pos : 0 <= cr.

Lemma poll_once_bounded payment_id :
  bounded w (a + b) (poll_once env payment_id).
Proof.
  unfold poll_once.
  apply bounded_bind; [ | intro payment_status | assumption ].
  { apply get_payment_status_bounded. intros; apply w_status. }
  destruct (truthy payment_status).
  2:{ apply bounded_le with (n := 0); [quiet | lia]. }
  after0 b; [ intro status | lia | lia ].
  after0 b; [ intro verified | lia | lia ].
  after0 b; [ intro ready | lia | lia ].
  apply bounded_le with (n := b + 0); [ | lia ].
  apply bounded_bind; [ | intro done; quiet | lia ].
  destruct ready.
  - after0 b; [ intro transaction | lia | lia ].
    after0 b; [ intro txid | lia | lia ].
    apply _complete_payment_bounded. intros; apply w_complete.
  - apply bounded_le with (n := 0); [quiet | lia].
Qed.

Lemma poll_loop_bounded payment_id n :
  bounded w (Z.of_nat n * (a + b)) (poll_loop env payment_id n).
Proof.
  induction n as [|n IH]; cbn [poll_loop].
  - apply bounded_ret.
  - apply bounded_le with (n := (a + b) + Z.of_nat n * (a + b)); [ | lia ].
    apply bounded_bind; [ apply poll_once_bounded | intro r | nia ].
    destruct r as [ret_value|].
    + apply bounded_le with (n := 0); [quiet | nia].
    + apply bounded_le with (n := 0 + Z.of_nat n * (a + b)); [ | lia ].
      apply bounded_bind; [ | intros _; exact IH | nia ].
      apply bounded_le with (n := w (Sleep 10)); [ | assumption ].
      apply bounded_time_sleep.
Qed.

Lemma execute_transfer_bounded recipient amount :
  bounded w (cr + 60 * (a + b)) (execute_transfer env recipient amount).
Proof.
  unfold execute_transfer.
  apply bounded_le with (n := (cr + 60 * (a + b)) + 0); [ | lia ].
  apply bounded_try; [ | apply bounded_ret | lia ].
  apply bounded_bind; [ | intro payment_id | lia ].
  { apply create_payment_bounded; [ intros; apply w_create | assumption ]. }
  destruct (negb (truthy payment_id)).
  { apply bounded_le with (n := 0); [quiet | lia]. }
  apply bounded_le with (n := 0 + 60 * (a + b)); [ | lia ].
  apply bounded_bind; [ | intro approved | lia ].
  { apply approve_payment_bounded. intros; apply w_approve. }
  destruct (negb approved).
  { apply bounded_le with (n := 0); [quiet | lia]. }
  exact (poll_loop_bounded payment_id 60).
Qed.

End WorkflowBounds.

Section CycleBounds.

Variable w : weight.
Variable env : Env.

Variables a cr : Z.
Hypothesis w_me : forall base bearer, w (Http base bearer GetMe) <= 0.
Hypothesis w_pending : forall base bearer, w (Http base bearer GetPendingPayments) <= 0.
Hypothesis w_balance :
  forall base bearer wallet, w (Http base bearer (GetBalance wallet)) <= 0.
Hypothesis w_complete :
  forall base bearer payment_id, w (Http base bearer (PostComplete payment_id)) <= 0.
Hypothesis w_status :
  forall base bearer payment_id, w (Http base bearer (GetPayment payment_id)) <= a.
Hypothesis w_create :
  forall base bearer amount memo recipient uid,
    w (Http base bearer (PostPayment amount memo recipient uid)) <= cr.
Hypothesis w_approve :
  forall base bearer payment_id, w (Http base bearer (PostApprove payment_id)) <= 0.
Hypothesis w_sleep : w (Sleep 10) <= 0.
Hypothesis a_pos : 0 <= a.
Hypothesis cr_pos : 0 <= cr.

Lemma confirm_unlock_bounded : bounded w 0 (confirm_unlock env).
Proof.
  unfold confirm_unlock.
  apply bounded_try0; [ | apply bounded_ret ].
  apply bounded_bind0; [ | intro pending_payments ].
  { apply get_pending_payments_bounded. intros; apply w_pending. }
  destruct (negb (truthy pending_payments)); [apply bounded_ret|].
  apply bounded_bind0; [ apply bounded_lift | intro payments ].
  apply bounded_bind0; [ | intros _; apply bounded_ret ].
  apply bounded_for_each0. intro payment. unfold sweep_one.
  apply bounded_bind0; [ apply bounded_lift | intro status ].
  apply bounded_bind0; [ apply bounded_lift | intro completed ].
  destruct (negb (truthy completed)); [ | apply bounded_ret ].
  apply bounded_bind0; [ apply bounded_lift | intro payment_id ].
  apply bounded_bind0; [ | intros _; apply bounded_ret ].
  apply _complete_payment_bounded. intros; apply w_complete.
Qed.

Lemma get_available_balance_bounded : bounded w 0 (get_available_balance env).
Proof.
  unfold get_available_balance.
  apply bounded_bind0; [ | intro balance_data; quiet ].
  apply get_wallet_balance_bounded; [ intros; apply w_balance | lia ].
Qed.

Lemma check_and_transfer_bounded :
  bounded w (cr + 60 * a) (check_and_transfer env).
Proof.
  unfold check_and_transfer.
  apply bounded_le with (n := (cr + 60 * a) + 0); [ | lia ].
  apply bounded_try; [ | apply bounded_ret | lia ].
  after0 (cr + 60 * a); [ intro b | lia | lia ].
  apply bounded_le with (n := 0 + (cr + 60 * a)); [ | lia ].
  apply bounded_bind; [ | intro authenticated | lia ].
  { destruct (negb (truthy (wallet_address b))); [ | apply bounded_ret ].
    apply bounded_bind0; [ | intro; apply bounded_ret ].
    apply get_user_info_bounded. intros; apply w_me. }
  destruct (negb authenticated).
  { apply bounded_le with (n := 0); [ apply bounded_ret | lia ]. }
  apply bounded_le with (n := 0 + (cr + 60 * a)); [ | lia ].
  apply bounded_bind; [ apply confirm_unlock_bounded | intros _ | lia ].
  apply bounded_le with (n := 0 + (cr + 60 * a)); [ | lia ].
  apply bounded_bind;
    [ apply get_available_balance_bounded | intro available_balance | lia ].
  destruct (fge available_balance REQUIRED_BALANCE).
  2:{ apply bounded_le with (n := 0); [ apply bounded_ret | lia ]. }
  after0 (cr + 60 * a); [ intro b' | lia | lia ].
  apply bounded_le with (n := (cr + 60 * a) + 0); [ | lia ].
  apply bounded_bind; [ | intro success; quiet | lia ].
  replace (cr + 60 * a) with (cr + 60 * (a + 0)) by lia.
  apply execute_transfer_bounded; try assumption; lia.
Qed.

End CycleBounds.

(** Sleeps of one cycle: one after each poll that settles nothing. *)
Section PauseBounds.

Variable env : Env.

Lemma poll_once_no_pause payment_id : bounded pauses 0 (poll_once env payment_id).
Proof.
  apply bounded_le with (n := 0 + 0); [ | lia ].
  apply (poll_once_bounded pauses env 0 0); intros; cbn; lia.
Qed.

Lemma poll_loop_pauses payment_id n :
  bounded pauses (Z.of_nat n) (poll_loop env payment_id n).
Proof.
  induction n as [|n IH]; cbn [poll_loop].
  - apply bounded_ret.
  - apply bounded_le with (n := 0 + Z.of_nat (S n)); [ | lia ].
    apply bounded_bind; [ apply poll_once_no_pause | intro r | lia ].
    destruct r as [ret_value|].
    + apply bounded_le with (n := 0); [quiet | lia].
    + apply bounded_le with (n := 1 + Z.of_nat n); [ | lia ].
      apply bounded_bind; [ | intros _; exact IH | lia ].
      exact (bounded_time_sleep pauses 10).
Qed.

Lemma execute_transfer_pauses recipient amount :
  bounded pauses 60 (execute_transfer env recipient amount).
Proof.
  unfold execute_transfer.
  apply bounded_le with (n := 60 + 0); [ | lia ].
  apply bounded_try; [ | apply bounded_ret | lia ].
  apply bounded_le with (n := 0 + 60); [ | lia ].
  apply bounded_bind; [ | intro payment_id | lia ].
  { apply create_payment_bounded; [ intros; cbn; lia | lia ]. }
  destruct (negb (truthy payment_id)).
  { apply bounded_le with (n := 0); [quiet | lia]. }
  apply bounded_le with (n := 0 + 60); [ | lia ].
  apply bounded_bind; [ | intro approved | lia ].
  { apply approve_payment_bounded. intros; cbn; lia. }
  destruct (negb approved).
  { apply bounded_le with (n := 0); [quiet | lia]. }
  exact (poll_loop_pauses payment_id 60).
Qed.

Lemma check_and_transfer_pauses : bounded pauses 60 (check_and_transfer env).
Proof.
  unfold check_and_transfer.
  apply bounded_le with (n := 60 + 0); [ | lia ].
  apply bounded_try; [ | apply bounded_ret | lia ].
  after0 60; [ intro b | lia | lia ].
  apply bounded_le with (n := 0 + 60); [ | lia ].
  apply bounded_bind; [ | intro authenticated | lia ].
  { destruct (negb (truthy (wallet_address b))); [ | apply bounded_ret ].
    apply bounded_bind0; [ | intro; apply bounded_ret ].
    apply get_user_info_bounded. intros; cbn; lia. }
  destruct (negb authenticated).
  { apply bounded_le with (n := 0); [ apply bounded_ret | lia ]. }
  apply bounded_le with (n := 0 + 60); [ | lia ].
  apply bounded_bind; [ | intros _ | lia ].
  { apply confirm_unlock_bounded; intros; cbn; lia. }
  apply bounded_le with (n := 0 + 60); [ | lia ].
  apply bounded_bind; [ | intro available_balance | lia ].
  { apply get_available_balance_bounded; intros; cbn; lia. }
  destruct (fge available_balance REQUIRED_BALANCE).
  2:{ apply bounded_le with (n := 0); [ apply bounded_ret | lia ]. }
  after0 60; [ intro b' | lia | lia ].
  apply bounded_le with (n := 60 + 0); [ | lia ].
  apply bounded_bind; [ | intro success; quiet | lia ].
  apply execute_transfer_pauses.
Qed.

End PauseBounds.

(** ** Completion and cancellation *)

Lemma calls_after_other ep (tr : trace) e :
  match e with Http _ _ r => endpoint_eqb (endpoint_of r) ep | _ => false end = false ->
  calls ep (tr ++ [e]) = calls ep tr.
Proof.
  intro H. rewrite calls_app. unfold calls at 2. cbn. rewrite H. cbn. lia.
Qed.

(** A poll that does not report verified-and-uncompleted issues the status
    request and nothing else, and does not end in success. *)
Lemma poll_once_unverified env payment_id s :
  reports verified_uncompleted (body_or_none (next env EpStatus s)) = false ->
  exists r,
    poll_once env payment_id s = (r, record [sent s (GetPayment payment_id)] s)
    /\ r <> Ok (Some true)
    /\ (reports cancelled (body_or_none (next env EpStatus s)) = true ->
        r = Ok (Some false)).
Proof.
  intro H. unfold poll_once, bind at 1. rewrite get_payment_status_eq.
  destruct (body_or_none (next env EpStatus s)) as [v|e].
  2:{ eexists. split; [reflexivity|]. split; [discriminate|]. cbn. discriminate. }
  cbn in H. cbn [reports]. unfold verified_uncompleted, cancelled, status_flag in *.
  destruct (truthy v) eqn:Tv.
  2:{ eexists. split; [reflexivity|]. split; [discriminate|]. cbn. discriminate. }
  cbn in H. unfold bind, lift, ret.
  destruct (get v "status" (VDict [])) as [st|e].
  2:{ eexists. split; [reflexivity|]. split; [discriminate|]. cbn. discriminate. }
  destruct st as [| | | | | |d];
    try (eexists; split; [reflexivity|]; split; [discriminate|]; cbn; discriminate).
  cbn in *.
  destruct (truthy (match lookup d "transaction_verified" with
                    | Some x => x | None => VNone end)); cbn in *.
  - destruct (truthy (match lookup d "developer_completed" with
                      | Some x => x | None => VNone end)); cbn in *; [|discriminate].
    destruct (truthy (match lookup d "cancelled" with
                      | Some x => x | None => VNone end)); cbn in *.
    { eexists. split; [reflexivity|]. split; [discriminate|reflexivity]. }
    destruct (truthy (match lookup d "user_cancelled" with
                      | Some x => x | None => VNone end)); cbn in *;
      (eexists; split; [reflexivity|]; split; [discriminate|]; try reflexivity; discriminate).
  - destruct (truthy (match lookup d "cancelled" with
                      | Some x => x | None => VNone end)); cbn in *.
    { eexists. split; [reflexivity|]. split; [discriminate|reflexivity]. }
    destruct (truthy (match lookup d "user_cancelled" with
                      | Some x => x | None => VNone end)); cbn in *;
      (eexists; split; [reflexivity|]; split; [discriminate|]; try reflexivity; discriminate).
Qed.

(** A poll that reports verified-and-uncompleted, with a readable
    transaction: the completion is attempted, and only its success ends
    the loop with success; after a failure the cancellation flags are
    looked at, and otherwise the loop goes on. *)
Lemma poll_once_verified env payment_id s v :
  body_or_none (next env EpStatus s) = Ok v ->
  verified_uncompleted v = true ->
  has_transaction_record v = true ->
  poll_once env payment_id s =
  (Ok (if ok_200 (next env EpComplete s) then Some true
       else if cancelled v then Some false else None),
   record [sent s (GetPayment payment_id); sent s (PostComplete payment_id)] s).
Proof.
  intros Hv Hvu Htx. unfold poll_once, bind at 1. rewrite get_payment_status_eq, Hv.
  unfold verified_uncompleted, cancelled, status_flag, has_transaction_record in *.
  destruct (truthy v) eqn:Tv; [|discriminate]. cbn in Hvu.
  unfold bind at 1, lift at 1.
  destruct (get v "status" (VDict [])) as [st|e]; [|discriminate].
  destruct st as [| | | | | |d]; try discriminate.
  cbn in Hvu. unfold bind at 1, lift at 1. cbn [get].
  destruct (truthy (match lookup d "transaction_verified" with
                    | Some x => x | None => VNone end)); [|discriminate].
  cbn in Hvu. unfold bind at 1. unfold bind at 1, lift at 1, ret at 1.
  destruct (truthy (match lookup d "developer_completed" with
                    | Some x => x | None => VNone end)); [discriminate|].
  cbn [negb]. unfold bind at 1. unfold bind at 1, lift at 1.
  destruct (get v "transaction" (VDict [])) as [tx|e]; [|discriminate].
  destruct tx as [| | | | | |t]; try discriminate.
  unfold bind at 1, lift at 1. cbn [get].
  unfold complete_payment. rewrite _complete_payment_eq.
  unfold next. cbn [record history self].
  rewrite calls_after_other by reflexivity.
  rewrite record_record. cbn [app].
  change (sent (record [sent s (GetPayment payment_id)] s) (PostComplete payment_id))
    with (sent s (PostComplete payment_id)).
  destruct (ok_200 (reply env EpComplete (calls EpComplete (history s)))); [reflexivity|].
  unfold bind, lift, ret. cbn.
  destruct (truthy (match lookup d "cancelled" with
                    | Some x => x | None => VNone end)); [reflexivity|].
  cbn.
  destruct (truthy (match lookup d "user_cancelled" with
                    | Some x => x | None => VNone end)); reflexivity.
Qed.

Lemma total_counting_nonneg p evs : 0 <= total (counting p) evs.
Proof.
  induction evs as [|e evs IH]; cbn; [lia|].
  destruct e as [base bearer r| |]; cbn; try lia. destruct (p r); lia.
Qed.

(** A count of zero: no selected request occurs in the trace. *)
Lemma total_counting_none p evs :
  total (counting p) evs <= 0 ->
  forall base bearer r, In (Http base bearer r) evs -> p r = false.
Proof.
  induction evs as [|e evs IH]; cbn; intros H base bearer r Hin; [contradiction|].
  pose proof (total_counting_nonneg p evs) as Hpos.
  destruct Hin as [->|Hin].
  - cbn in H. destruct (p r); [lia | reflexivity].
  - apply (IH ltac:(destruct e as [? ? r'| |]; cbn in H; try lia;
                     destruct (p r'); lia) base bearer r Hin).
Qed.

Lemma poll_shift env s payment_id k :
  poll env (record [sent s (GetPayment payment_id); Sleep 10] s) k =
  poll env s (S k).
Proof.
  unfold poll. rewrite calls_status_poll. now rewrite Nat.add_succ_r.
Qed.

Lemma poll_loop_cancelled env payment_id : forall j n s,
  (j < n)%nat ->
  (forall k, (k <= j)%nat -> reports verified_uncompleted (poll env s k) = false) ->
  reports cancelled (poll env s j) = true ->
  exists r evs,
    poll_loop env payment_id n s = (r, record evs s)
    /\ r <> Ok true
    /\ total (counting is_completion) evs <= 0.
Proof.
  induction j as [|j IH]; intros n s Hlt Hvu Hc;
    (destruct n as [|n]; [lia|]); cbn [poll_loop]; unfold bind at 1;
    pose proof (Hvu 0%nat ltac:(lia)) as H0; unfold poll in H0, Hc;
    rewrite Nat.add_0_r in H0;
    destruct (poll_once_unverified env payment_id s H0) as (r0 & E0 & Hne & Hcan);
    rewrite E0.
  - rewrite Nat.add_0_r in Hc. rewrite (Hcan Hc).
    exists (Ok false), [sent s (GetPayment payment_id)].
    split; [reflexivity|]. split; [discriminate | cbn; lia].
  - destruct r0 as [[[|]|]|e].
    + now contradiction Hne.
    + exists (Ok false), [sent s (GetPayment payment_id)].
      split; [reflexivity|]. split; [discriminate | cbn; lia].
    + unfold bind, time_sleep, emit. cbn [fst snd].
      change {| self := self (record [sent s (GetPayment payment_id)] s);
                history := history (record [sent s (GetPayment payment_id)] s) ++ [Sleep 10] |}
        with (record [Sleep 10] (record [sent s (GetPayment payment_id)] s)).
      rewrite record_record. cbn [app].
      destruct (IH n (record [sent s (GetPayment payment_id); Sleep 10] s))
        as (r & evs & E & Hr & Ht).
      * lia.
      * intros k Hk. rewrite poll_shift. apply Hvu. lia.
      * rewrite poll_shift. unfold poll. exact Hc.
      * exists r, ([sent s (GetPayment payment_id); Sleep 10] ++ evs).
        rewrite E, record_record. split; [reflexivity|]. split; [assumption|].
        rewrite total_app. cbn. lia.
    + exists (Raise e), [sent s (GetPayment payment_id)].
      split; [reflexivity|]. split; [discriminate | cbn; lia].
Qed.

Lemma poll_after_approval env s r1 r2 k :
  is_status_poll r1 = false -> is_status_poll r2 = false ->
  poll env (record [sent s r1; sent s r2] s) k = poll env s k.
Proof.
  intros H1 H2. unfold poll. cbn [record history self].
  change [sent s r1; sent s r2] with ([sent s r1] ++ [sent s r2]).
  rewrite app_assoc, !calls_after_other; [reflexivity | |].
  - destruct r1; cbn in *; congruence.
  - destruct r2; cbn in *; congruence.
Qed.

Lemma sent_record evs s r : sent (record evs s) r = sent s r.
Proof. reflexivity. Qed.

(** As long as no poll reports verified-and-uncompleted, no completion
    request is issued and the loop does not end in success. *)
Lemma poll_loop_unverified env payment_id : forall n s,
  (forall k, (k < n)%nat -> reports verified_uncompleted (poll env s k) = false) ->
  exists r evs,
    poll_loop env payment_id n s = (r, record evs s)
    /\ r <> Ok true
    /\ total (counting is_completion) evs <= 0.
Proof.
  induction n as [|n IH]; intros s Hvu.
  - exists (Ok false), []. cbn. rewrite record_nil.
    split; [reflexivity|]. split; [discriminate | lia].
  - cbn [poll_loop]. unfold bind at 1.
    pose proof (Hvu 0%nat ltac:(lia)) as H0. unfold poll in H0.
    rewrite Nat.add_0_r in H0.
    destruct (poll_once_unverified env payment_id s H0) as (r0 & E0 & Hne & _).
    rewrite E0. destruct r0 as [[[|]|]|e].
    + now contradiction Hne.
    + exists (Ok false), [sent s (GetPayment payment_id)].
      split; [reflexivity|]. split; [discriminate | cbn; lia].
    + unfold bind, time_sleep, emit. cbn [fst snd].
      change {| self := self (record [sent s (GetPayment payment_id)] s);
                history := history (record [sent s (GetPayment payment_id)] s) ++ [Sleep 10] |}
        with (record [Sleep 10] (record [sent s (GetPayment payment_id)] s)).
      rewrite record_record. cbn [app].
      destruct (IH (record [sent s (GetPayment payment_id); Sleep 10] s))
        as (r & evs & E & Hr & Ht).
      * intros k Hk. rewrite poll_shift. apply Hvu. lia.
      * exists r, ([sent s (GetPayment payment_id); Sleep 10] ++ evs).
        rewrite E, record_record. split; [reflexivity|]. split; [assumption|].
        rewrite total_app. cbn. lia.
    + exists (Raise e), [sent s (GetPayment payment_id)].
      split; [reflexivity|]. split; [discriminate | cbn; lia].
Qed.

(** Creation and approval send no completion; if the polling loop sends
    none either and does not end in success, the transfer fails. *)
Lemma execute_transfer_fails env recipient amount s :
  (forall payment_id s2,
      (forall k, poll env s2 k = poll env s k) ->
      exists r evs,
        poll_loop env payment_id max_attempts s2 = (r, record evs s2)
        /\ r <> Ok true
        /\ total (counting is_completion) evs <= 0) ->
  exists s' evs,
    execute_transfer env recipient amount s = (Ok false, s')
    /\ history s' = history s ++ evs
    /\ forall base bearer payment_id,
         ~ In (Http base bearer (PostComplete payment_id)) evs.
Proof.
  intros Hloop.
  assert (Hnone : forall evs, total (counting is_completion) evs <= 0 ->
                  forall base bearer payment_id,
                    ~ In (Http base bearer (PostComplete payment_id)) evs).
  { intros evs Ht base bearer payment_id Hin.
    now pose proof (total_counting_none _ _ Ht _ _ _ Hin). }
  unfold execute_transfer, try_except, bind at 1.
  destruct (String.eqb_spec recipient (allowed_recipient (self s))) as [->|Hne].
  2:{ rewrite create_payment_denied by assumption. cbn.
      exists s, []. rewrite app_nil_r. repeat split. intros ? ? ? []. }
  rewrite create_payment_allowed.
  set (payment_id := created (next env EpCreate s)).
  set (create := PostPayment _ _ _ _).
  destruct (truthy payment_id); cbn [negb].
  2:{ exists (record [sent s create] s), [sent s create].
      repeat split. apply Hnone. cbn. lia. }
  unfold bind at 1. rewrite approve_payment_eq, sent_record, record_record.
  cbn [app]. set (approve := PostApprove payment_id).
  destruct (ok_200 _); cbn [negb].
  2:{ exists (record [sent s create; sent s approve] s), [sent s create; sent s approve].
      repeat split. apply Hnone. cbn. lia. }
  destruct (Hloop payment_id (record [sent s create; sent s approve] s))
    as (r & evs & E & Hr & Ht).
  { intro k. now apply poll_after_approval. }
  rewrite E, record_record.
  exists (record ([sent s create; sent s approve] ++ evs) s),
         ([sent s create; sent s approve] ++ evs).
  split.
  - destruct r as [[|]|e]; [now contradiction Hr | reflexivity | reflexivity].
  - split; [reflexivity|]. apply Hnone. rewrite total_app. cbn. lia.
Qed.

(** ** Unlock confirmation *)

Lemma sweep_one_eq env payment s :
  sweep_one env payment s =
  if has_status_record payment then
    (Ok tt, record (completions s [payment]) s)
  else (Raise AttributeError, s).
Proof.
  unfold sweep_one, has_status_record, completions, explicitly_uncompleted,
    identifier_of, bind at 1, lift at 1.
  destruct payment as [| | | | | |d]; try reflexivity.
  cbn [get filter]. destruct (lookup d "status") as [st|].
  - destruct st as [| | | | | |status]; try reflexivity.
    unfold bind at 1, lift at 1. cbn [get].
    destruct (lookup status "developer_completed") as [flag|].
    + destruct (truthy flag); cbn [negb map].
      * now rewrite record_nil.
      * unfold bind at 1, lift at 1. unfold bind at 1.
        now rewrite _complete_payment_eq.
    + cbn. now rewrite record_nil.
  - cbn. now rewrite record_nil.
Qed.

Lemma completions_cons s payment payments :
  completions s (payment :: payments) =
  completions s [payment] ++ completions s payments.
Proof.
  unfold completions. cbn [filter].
  destruct (explicitly_uncompleted payment); reflexivity.
Qed.

Lemma for_each_sweep env payments : forall s,
  for_each payments (sweep_one env) s =
  (if forallb has_status_record payments then Ok tt else Raise AttributeError,
   record (completions s (swept payments)) s).
Proof.
  induction payments as [|payment payments IH]; intro s; cbn [for_each forallb swept].
  - cbn. now rewrite record_nil.
  - unfold bind at 1. rewrite sweep_one_eq.
    destruct (has_status_record payment); cbn [andb].
    + rewrite IH, record_record.
      rewrite (completions_cons s payment (swept payments)). reflexivity.
    + cbn. now rewrite record_nil.
Qed.

Lemma confirm_unlock_listed env s r payments_data payments :
  next env EpPending s = Response r ->
  status_code r = 200 ->
  json r = Ok payments_data ->
  get payments_data "payments" (VList []) = Ok (VList payments) ->
  confirm_unlock env s =
  (Ok (forallb has_status_record payments),
   record (sent s GetPendingPayments :: completions s (swept payments)) s).
Proof.
  intros Hr Hcode Hjson Hget.
  unfold confirm_unlock, try_except, bind at 1.
  rewrite get_pending_payments_eq, Hr, Hcode, Hjson, Hget. cbn [Z.eqb Pos.eqb].
  destruct payments as [|payment payments]; [reflexivity|].
  cbn [truthy negb]. unfold bind at 1, lift at 1. cbn [iter].
  unfold bind at 1. rewrite for_each_sweep, record_record.
  destruct (forallb has_status_record (payment :: payments)); reflexivity.
Qed.

(** Whatever the platform answers, the sweep returns a boolean, and all it
    sends is the listing request followed by completion requests. *)
Lemma confirm_unlock_run env s :
  exists ok payments,
    confirm_unlock env s =
    (Ok ok, record (sent s GetPendingPayments :: completions s payments) s).
Proof.
  unfold confirm_unlock, try_except, bind at 1.
  rewrite get_pending_payments_eq.
  destruct (next env EpPending s) as [|r].
  { exists true, []. reflexivity. }
  destruct (status_code r =? 200).
  2:{ exists true, []. reflexivity. }
  destruct (json r) as [v|e].
  2:{ destruct e; cbn; first [ exists true, []; reflexivity | exists false, []; reflexivity ]. }
  destruct (get v "payments" (VList [])) as [pv|e].
  2:{ exists false, []. reflexivity. }
  destruct (truthy pv) eqn:Tpv; cbn [negb].
  2:{ exists true, []. reflexivity. }
  unfold bind at 1, lift at 1.
  destruct (iter pv) as [items|e].
  2:{ exists false, []. reflexivity. }
  unfold bind at 1. rewrite for_each_sweep, record_record.
  destruct (forallb has_status_record items).
  - exists true, (swept items). reflexivity.
  - exists false, (swept items). reflexivity.
Qed.

Lemma swept_incl payments payment :
  In payment (swept payments) -> In payment payments.
Proof.
  induction payments as [|p payments IH]; cbn; [tauto|].
  destruct (has_status_record p); cbn; [|tauto].
  intros [->|H]; [now left | right; now apply IH].
Qed.

(** ** Failures of the platform client *)

Lemma failed_200 o :
  failed [200] o = true ->
  o = NetworkError \/ exists r, o = Response r /\ (status_code r =? 200) = false.
Proof.
  destruct o as [|r]; cbn; [now left|]. intro H. right. exists r.
  split; [reflexivity|]. destruct (status_code r =? 200); [discriminate | reflexivity].
Qed.

Lemma get_user_info_failed env s :
  failed [200] (next env EpMe s) = true ->
  get_user_info env s = (Ok VNone, record [sent s GetMe] s).
Proof.
  intro H. apply failed_200 in H. unfold get_user_info; run. unfold next in H.
  destruct H as [-> | (r & -> & Hcode)]; cbn; [reflexivity|].
  now rewrite Hcode.
Qed.

Lemma body_or_none_failed o : failed [200] o = true -> body_or_none o = Ok VNone.
Proof.
  intro H. apply failed_200 in H.
  destruct H as [-> | (r & -> & Hcode)]; cbn; [reflexivity | now rewrite Hcode].
Qed.

Lemma ok_200_failed o : failed [200] o = true -> ok_200 o = false.
Proof.
  intro H. apply failed_200 in H.
  destruct H as [-> | (r & -> & Hcode)]; cbn; [reflexivity | assumption].
Qed.

(** A success answer whose body is not an object is another matter: the
    [.get] on it raises, and the narrow handler lets that through. *)
Lemma odd_identity_raises :
  get_user_info Sample.odd_identity Sample.start =
  (Raise AttributeError, record [sent Sample.start GetMe] Sample.start).
Proof. reflexivity. Qed.

(** ** Start-up *)

(** Construction fails as soon as one of the four settings, as read with
    its default, is empty, or the recipient has fewer than 20 characters. *)
Lemma init_rejects e :
  getenv e "PI_ACCESS_TOKEN" "test_access_token_here" = ""%string
  \/ getenv e "ALLOWED_RECIPIENT_ADDRESS" "test_wallet_address_here" = ""%string
  \/ getenv e "PI_APP_ID" "test_app_id_here" = ""%string
  \/ getenv e "PI_APP_SECRET" "test_app_secret_here" = ""%string
  \/ (String.length
        (getenv e "ALLOWED_RECIPIENT_ADDRESS" "test_wallet_address_here") < 20)%nat ->
  __init__ e = Raise ValueError.
Proof.
  intro H. unfold __init__, _validate_configuration, nonempty.
  cbn [access_token allowed_recipient app_id app_secret].
  destruct (getenv e "PI_ACCESS_TOKEN" "test_access_token_here" =? "")%string eqn:E1;
    [reflexivity|].
  destruct (getenv e "ALLOWED_RECIPIENT_ADDRESS" "test_wallet_address_here" =? "")%string
    eqn:E2; [reflexivity|].
  destruct (getenv e "PI_APP_ID" "test_app_id_here" =? "")%string eqn:E3;
    [reflexivity|].
  destruct (getenv e "PI_APP_SECRET" "test_app_secret_here" =? "")%string eqn:E4;
    [reflexivity|].
  cbn [negb orb].
  destruct (String.length
              (getenv e "ALLOWED_RECIPIENT_ADDRESS" "test_wallet_address_here") <? 20)%nat
    eqn:E5; [reflexivity|].
  apply String.eqb_neq in E1, E2, E3, E4. apply Nat.ltb_ge in E5.
  destruct H as [H|[H|[H|[H|H]]]]; try contradiction. lia.
Qed.

(** It succeeds in every other case. *)
Lemma init_accepts e :
  getenv e "PI_ACCESS_TOKEN" "test_access_token_here" <> ""%string ->
  getenv e "ALLOWED_RECIPIENT_ADDRESS" "test_wallet_address_here" <> ""%string ->
  getenv e "PI_APP_ID" "test_app_id_here" <> ""%string ->
  getenv e "PI_APP_SECRET" "test_app_secret_here" <> ""%string ->
  (20 <= String.length
           (getenv e "ALLOWED_RECIPIENT_ADDRESS" "test_wallet_address_here"))%nat ->
  exists b, __init__ e = Ok b.
Proof.
  intros H1 H2 H3 H4 H5.
  apply String.eqb_neq in H1, H2, H3, H4. apply Nat.ltb_ge in H5.
  unfold __init__, _validate_configuration, nonempty.
  cbn [access_token allowed_recipient app_id app_secret].
  rewrite H1, H2, H3, H4, H5. cbn. eauto.
Qed.

(** The guard of the script finds nothing missing exactly when the four
    variables are set and not empty. *)
Lemma missing_vars_nil e :
  missing_vars e = [] <->
  forall var, In var required_env_vars -> exists v, e var = Some v /\ v <> ""%string.
Proof.
  unfold missing_vars, required_env_vars, nonempty. cbn [filter]. split.
  - intros H var Hin.
    destruct (e "PI_ACCESS_TOKEN") as [v1|] eqn:E1; [|discriminate].
    destruct (v1 =? "")%string eqn:N1; [discriminate|]. cbn [negb] in H.
    destruct (e "ALLOWED_RECIPIENT_ADDRESS") as [v2|] eqn:E2; [|discriminate].
    destruct (v2 =? "")%string eqn:N2; [discriminate|]. cbn [negb] in H.
    destruct (e "PI_APP_ID") as [v3|] eqn:E3; [|discriminate].
    destruct (v3 =? "")%string eqn:N3; [discriminate|]. cbn [negb] in H.
    destruct (e "PI_APP_SECRET") as [v4|] eqn:E4; [|discriminate].
    destruct (v4 =? "")%string eqn:N4; [discriminate|].
    apply String.eqb_neq in N1, N2, N3, N4.
    destruct Hin as [<-|[<-|[<-|[<-|[]]]]]; eauto.
  - intro H.
    destruct (H "PI_ACCESS_TOKEN" ltac:(cbn; tauto)) as (v1 & -> & N1).
    destruct (H "ALLOWED_RECIPIENT_ADDRESS" ltac:(cbn; tauto)) as (v2 & -> & N2).
    destruct (H "PI_APP_ID" ltac:(cbn; tauto)) as (v3 & -> & N3).
    destruct (H "PI_APP_SECRET" ltac:(cbn; tauto)) as (v4 & -> & N4).
    apply String.eqb_neq in N1, N2, N3, N4. now rewrite N1, N2, N3, N4.
Qed.

(** The constructor raises nothing but [ValueError]. *)
Lemma init_raises_value_error e ex : __init__ e = Raise ex -> ex = ValueError.
Proof.
  unfold __init__, _validate_configuration. cbv zeta. cbn [access_token
    allowed_recipient app_id app_secret].
  repeat match goal with
         | |- context [if ?c then _ else _] => destruct c
         end; intro H; now inversion H.
Qed.

(** The constructor fails exactly on a variable set to the empty string
    or on a recipient of fewer than 20 characters; an unset variable is
    replaced by its placeholder. *)
Lemma init_fails_iff e :
  __init__ e = Raise ValueError <->
  (exists var, In var required_env_vars /\ e var = Some ""%string)
  \/ (exists r, e "ALLOWED_RECIPIENT_ADDRESS" = Some r /\ (String.length r < 20)%nat).
Proof.
  split.
  - intro H.
    destruct (String.eqb_spec (getenv e "PI_ACCESS_TOKEN" "test_access_token_here") "")
      as [E1|N1].
    { left. exists "PI_ACCESS_TOKEN". split; [cbn; tauto|].
      unfold getenv in E1. destruct (e "PI_ACCESS_TOKEN"); [now subst | discriminate]. }
    destruct (String.eqb_spec
                (getenv e "ALLOWED_RECIPIENT_ADDRESS" "test_wallet_address_here") "")
      as [E2|N2].
    { left. exists "ALLOWED_RECIPIENT_ADDRESS". split; [cbn; tauto|].
      unfold getenv in E2.
      destruct (e "ALLOWED_RECIPIENT_ADDRESS"); [now subst | discriminate]. }
    destruct (String.eqb_spec (getenv e "PI_APP_ID" "test_app_id_here") "") as [E3|N3].
    { left. exists "PI_APP_ID". split; [cbn; tauto|].
      unfold getenv in E3. destruct (e "PI_APP_ID"); [now subst | discriminate]. }
    destruct (String.eqb_spec (getenv e "PI_APP_SECRET" "test_app_secret_here") "")
      as [E4|N4].
    { left. exists "PI_APP_SECRET". split; [cbn; tauto|].
      unfold getenv in E4. destruct (e "PI_APP_SECRET"); [now subst | discriminate]. }
    destruct (Nat.ltb_spec
                (String.length
                   (getenv e "ALLOWED_RECIPIENT_ADDRESS" "test_wallet_address_here")) 20)
      as [Hshort|Hlong].
    + right. unfold getenv in Hshort.
      destruct (e "ALLOWED_RECIPIENT_ADDRESS") as [r|]; [eauto | cbn in Hshort; lia].
    + destruct (init_accepts e N1 N2 N3 N4 Hlong) as (b & Hb).
      rewrite Hb in H. discriminate.
  - intro H. apply init_rejects. unfold getenv.
    destruct H as [(var & Hin & Hvar)|(r & Hr & Hshort)].
    + destruct Hin as [<-|[<-|[<-|[<-|[]]]]]; rewrite Hvar; tauto.
    + rewrite Hr. tauto.
Qed.

(** ** One cycle and the scheduler *)

(** A handler on [Exception] that returns a value leaves no exception. *)
Lemma try_except_total {A} (body : M A) (x : A) s :
  exists a s', try_except body is_Exception (ret x) s = (Ok a, s').
Proof.
  unfold try_except, is_Exception, ret. destruct (body s) as [[a|e] s']; eauto.
Qed.

Lemma execute_transfer_total env recipient amount s :
  exists ok s', execute_transfer env recipient amount s = (Ok ok, s').
Proof. apply try_except_total. Qed.

Lemma check_and_transfer_total env s :
  exists ok s', check_and_transfer env s = (Ok ok, s').
Proof. apply try_except_total. Qed.

(** Two pending polls, then a verified one: one completion request, after
    the third poll, and success. *)
Example third_poll_verified :
  execute_transfer Sample.verified_on_third_poll
    (allowed_recipient Sample.bot) TRANSFER_AMOUNT Sample.start =
  (Ok true,
   record [sent Sample.start Sample.create; sent Sample.start Sample.approve;
           sent Sample.start Sample.status; Sleep 10;
           sent Sample.start Sample.status; Sleep 10;
           sent Sample.start Sample.status; sent Sample.start Sample.complete]
     Sample.start).
Proof. reflexivity. Qed.

(** Before the deadline, a cycle that does not transfer is followed by a
    sleep of 300 when more than five minutes remain, of 60 otherwise, and
    the loop goes on. *)
Example scheduler_sleeps :
  loop_body (Sample.waiting 301) Sample.start =
    (Ok Continue,
     record [Now; Now; sent Sample.start GetPendingPayments;
             sent Sample.start (GetBalance (VStr "GBWALLET")); Sleep 300]
       Sample.start)
  /\ loop_body (Sample.waiting 300) Sample.start =
    (Ok Continue,
     record [Now; Now; sent Sample.start GetPendingPayments;
             sent Sample.start (GetBalance (VStr "GBWALLET")); Sleep 60]
       Sample.start)
  /\ monitoring_loop (Sample.waiting 300) 3 Sample.start = None.
Proof. repeat split; vm_compute; reflexivity. Qed.

Lemma total_long_sleeps_nonneg evs : 0 <= total long_sleeps evs.
Proof.
  induction evs as [|e evs IH]; cbn; [lia|].
  destruct e as [base bearer r|n|]; cbn; try lia. destruct (n =? 10); lia.
Qed.

Lemma total_long_sleeps_none evs :
  total long_sleeps evs <= 0 -> forall n, In (Sleep n) evs -> n = 10.
Proof.
  induction evs as [|e evs IH]; cbn; intros H n Hin; [contradiction|].
  pose proof (total_long_sleeps_nonneg evs) as Hpos.
  destruct Hin as [->|Hin].
  - cbn in H. destruct (n =? 10) eqn:E; [now apply Z.eqb_eq in E | lia].
  - apply IH; [|assumption].
    destruct e as [base bearer r|m|]; cbn in H; try lia.
    destruct (m =? 10); lia.
Qed.

(** ** Balance gate *)

(** The literals [0.01] and [1650.01]: the floats within half a unit in
    the last place of the decimal values. *)
Lemma literals_are_nearest :
  decimal 1 100 = S754_finite false 5764607523034235 (-59)
  /\ Z.abs (100 * 5764607523034235 - 1 * 2 ^ 59) <= 50
  /\ decimal 165001 100 = S754_finite false 7256820723786711 (-42)
  /\ Z.abs (100 * 7256820723786711 - 165001 * 2 ^ 42) <= 50.
Proof. repeat split; vm_compute; congruence. Qed.

Lemma SFcompare_Lt_Gt a b :
  SFcompare a b = Some Lt -> SFcompare b a = Some Gt.
Proof.
  destruct a as [sa|sa| |sa ma ea], b as [sb|sb| |sb mb eb]; cbn;
    try destruct sa; try destruct sb; try discriminate; try reflexivity.
  - rewrite (Z.compare_antisym ea eb).
    destruct (ea ?= eb); cbn; try discriminate; try reflexivity.
    change (Pos.compare_cont Eq ma mb) with (Pos.compare ma mb).
    change (Pos.compare_cont Eq mb ma) with (Pos.compare mb ma).
    rewrite (Pos.compare_antisym ma mb).
    destruct (ma ?= mb)%positive; cbn; try discriminate; reflexivity.
  - rewrite (Z.compare_antisym ea eb).
    destruct (ea ?= eb); cbn; try discriminate; try reflexivity.
    change (Pos.compare_cont Eq ma mb) with (Pos.compare ma mb).
    change (Pos.compare_cont Eq mb ma) with (Pos.compare mb ma).
    rewrite (Pos.compare_antisym ma mb).
    destruct (ma ?= mb)%positive; cbn; try discriminate; reflexivity.
Qed.

(** [a < b] excludes [a >= b]. *)
Lemma flt_not_fge a b : flt a b = true -> fge a b = false.
Proof.
  unfold flt, fge, SFltb, SFleb. intro H.
  destruct (SFcompare a b) as [[| |]|] eqn:E; try discriminate.
  now rewrite (SFcompare_Lt_Gt a b E).
Qed.

(** With the allowed recipient, the workflow starts by the creation request. *)
Lemma execute_transfer_starts env amount s :
  exists rest,
    history (snd (execute_transfer env (allowed_recipient (self s)) amount s)) =
    history s ++ sent s (PostPayment amount (TransferMemo amount)
                       (allowed_recipient (self s)) (user_uid (self s))) :: rest.
Proof.
  unfold execute_transfer, try_except, bind at 1.
  rewrite create_payment_allowed.
  set (payment_id := created (next env EpCreate s)).
  set (create := PostPayment _ _ _ _).
  destruct (truthy payment_id); cbn [negb].
  2:{ exists []. reflexivity. }
  unfold bind at 1. rewrite approve_payment_eq, record_record. cbn [app].
  destruct (ok_200 _); cbn [negb].
  2:{ eexists. cbn. reflexivity. }
  destruct (poll_loop_bounded (counting is_status_poll) env 1 0) with
    (payment_id := payment_id) (n := max_attempts)
    (s := record [sent s create;
                  sent (record [sent s create] s) (PostApprove payment_id)] s)
    as (evs & Hlog & _); try (intros; cbn; lia).
  destruct (poll_loop env payment_id max_attempts _) as [[ok|e] s'];
    unfold is_Exception, ret; cbn [snd] in *; rewrite Hlog; cbn [record history];
    rewrite <- app_assoc; eexists; reflexivity.
Qed.

(** The sweep and the balance read send no request of the payment workflow. *)
Lemma before_the_gate env s sweep s1 balance s2 :
  confirm_unlock env s = (sweep, s1) ->
  get_available_balance env s1 = (balance, s2) ->
  exists evs,
    history s2 = history s ++ evs
    /\ forall base bearer r, In (Http base bearer r) evs -> is_workflow r = false.
Proof.
  intros Hsweep Hbalance.
  destruct (confirm_unlock_bounded (counting is_workflow) env) with (s := s)
    as (e1 & L1 & T1); try (intros; cbn; lia).
  destruct (get_available_balance_bounded (counting is_workflow) env) with (s := s1)
    as (e2 & L2 & T2); try (intros; cbn; lia).
  rewrite Hsweep in L1. rewrite Hbalance in L2. cbn [snd] in L1, L2.
  exists (e1 ++ e2). split; [now rewrite L2, L1, app_assoc|].
  apply total_counting_none. rewrite total_app. lia.
Qed.

Lemma check_and_transfer_unfold env :
  check_and_transfer env =
  try_except
    (b <- get_self ;;
     authenticated <- (if negb (truthy (wallet_address b)) then
                         user_info <- get_user_info env ;;
                         ret (truthy user_info)
                       else ret true) ;;
     if negb authenticated then ret false else gate_and_transfer env)
    is_Exception
    (ret false).
Proof. reflexivity. Qed.

Lemma check_and_transfer_authenticated env s s0 :
  authenticated env s s0 ->
  check_and_transfer env s =
  try_except (gate_and_transfer env) is_Exception (ret false) s0.
Proof.
  intro H. rewrite check_and_transfer_unfold.
  unfold try_except at 1, bind at 1, get_self at 1.
  destruct H as [[Hw ->] | (Hw & user_info & Hme & Hu)]; rewrite Hw; cbn [negb].
  - unfold bind at 1, ret at 1. cbn [negb]. reflexivity.
  - unfold bind at 1. unfold bind at 1. rewrite Hme. unfold ret at 1.
    rewrite Hu. cbn [negb]. reflexivity.
Qed.

Lemma authenticated_log env s s0 :
  authenticated env s s0 ->
  history s0 = history s \/ history s0 = history s ++ [sent s GetMe].
Proof.
  intros [[_ ->] | (_ & user_info & Hme & _)]; [now left | right].
  pose proof (get_user_info_log env s) as H. now rewrite Hme in H.
Qed.

(** ** A balance that cannot be read *)

Lemma get_available_balance_unreadable env s :
  truthy (wallet_address (self s)) = false
  \/ failed [200] (next env EpBalance s) = true ->
  get_available_balance env s =
  (Ok (float_of_Z 0),
   if truthy (wallet_address (self s))
   then record [sent s (GetBalance (wallet_address (self s)))] s
   else s).
Proof.
  intro H. unfold get_available_balance, bind at 1.
  rewrite get_wallet_balance_eq.
  destruct (truthy (wallet_address (self s))); [|reflexivity].
  destruct H as [H|H]; [discriminate|].
  now rewrite (body_or_none_failed _ H).
Qed.

Lemma calls_balance_completions s payments :
  calls EpBalance (completions s payments) = 0%nat.
Proof.
  unfold completions.
  induction (filter explicitly_uncompleted payments) as [|p l IH]; [reflexivity|].
  cbn [map]. change (?x :: ?l) with ([x] ++ l). now rewrite calls_app, IH.
Qed.

Lemma next_balance_after_sweep env s payments :
  next env EpBalance (record (sent s GetPendingPayments :: completions s payments) s) =
  next env EpBalance s.
Proof.
  unfold next. cbn [record history].
  change (sent s GetPendingPayments :: completions s payments)
    with ([sent s GetPendingPayments] ++ completions s payments).
  rewrite !calls_app, calls_balance_completions.
  change (calls EpBalance [sent s GetPendingPayments]) with 0%nat.
  now rewrite !Nat.add_0_r.
Qed.

Lemma gate_closed env s :
  truthy (wallet_address (self s)) = false
  \/ failed [200] (next env EpBalance s) = true ->
  exists s' evs,
    gate_and_transfer env s = (Ok false, s')
    /\ history s' = history s ++ evs
    /\ forall base bearer r, In (Http base bearer r) evs -> is_workflow r = false.
Proof.
  intro H. unfold gate_and_transfer, bind at 1.
  destruct (confirm_unlock env s) as [sweep s1] eqn:Hsweep.
  destruct (confirm_unlock_run env s) as (ok & payments & Hrun).
  rewrite Hrun in Hsweep. injection Hsweep as <- <-.
  set (s1 := record (sent s GetPendingPayments :: completions s payments) s) in *.
  assert (H1 : truthy (wallet_address (self s1)) = false
               \/ failed [200] (next env EpBalance s1) = true).
  { unfold s1. rewrite next_balance_after_sweep. exact H. }
  pose proof (get_available_balance_unreadable env s1 H1) as Hbal.
  destruct (before_the_gate env s _ s1 _ _ Hrun Hbal) as (evs & Hlog & Hnone).
  unfold bind at 1. rewrite Hbal.
  replace (fge (float_of_Z 0) REQUIRED_BALANCE) with false by (vm_compute; reflexivity).
  eexists _, evs. split; [reflexivity|]. split; assumption.
Qed.

(** * The claims *)

(** ** Recipient guard *)

(** C1.  For every recipient different from the allowed one (compared as
    strings, character by character), the guard raises, [create_payment]
    returns [None], and the state is left as it was: nothing is appended
    to the trace, so no request reaches the platform. *)
Theorem recipient_guard_blocks_creation env s recipient amount memo :
  recipient <> allowed_recipient (self s) ->
  _validate_recipient_address recipient s = (Raise ValueError, s) /\
  create_payment env recipient amount memo s = (Ok VNone, s) /\
  history (snd (create_payment env recipient amount memo s)) = history s.
Proof.
  intro Hne. split; [|split].
  - apply String.eqb_neq in Hne.
    unfold _validate_recipient_address; run. now rewrite Hne.
  - now apply create_payment_denied.
  - now rewrite create_payment_denied.
Qed.

Lemma recipient_guard_blocks_creation_witness :
  create_payment Sample.always_pending "gballowedrecipient0000001"
    TRANSFER_AMOUNT (Plain "memo") Sample.start = (Ok VNone, Sample.start).
Proof.
  apply (recipient_guard_blocks_creation Sample.always_pending Sample.start
           "gballowedrecipient0000001" TRANSFER_AMOUNT (Plain "memo")).
  discriminate.
Defined.

(** ** A failed completion *)

(** C2 as stated fails.  The first poll reports verified-and-uncompleted
    and the completion is refused; the loop sleeps, polls again and issues
    a second completion request in the same invocation, which then
    returns [True]. *)
Lemma failed_completion_is_retried :
  reports verified_uncompleted
    (poll Sample.first_completion_refused Sample.start 0) = true
  /\ ok_200 (reply Sample.first_completion_refused EpComplete 0) = false
  /\ execute_transfer Sample.first_completion_refused
       (allowed_recipient Sample.bot) TRANSFER_AMOUNT Sample.start =
     (Ok true,
      record [sent Sample.start Sample.create; sent Sample.start Sample.approve;
              sent Sample.start Sample.status; sent Sample.start Sample.complete;
              Sleep 10;
              sent Sample.start Sample.status; sent Sample.start Sample.complete]
        Sample.start).
Proof. repeat split. Qed.

(** C2 (amended).  When a poll reports verified-and-uncompleted (with a
    readable transaction, and no cancellation) and the completion fails,
    the polling loop goes on: it sleeps 10 and continues with the
    remaining attempts, and a next poll that again reports
    verified-and-uncompleted issues another completion request.  In one
    [execute_transfer] there are never more completion requests than
    status polls, and never more than 60 status polls. *)
Theorem failed_completion_keeps_polling env payment_id n s v :
  body_or_none (next env EpStatus s) = Ok v ->
  verified_uncompleted v = true ->
  has_transaction_record v = true ->
  cancelled v = false ->
  ok_200 (next env EpComplete s) = false ->
  let s' := record [sent s (GetPayment payment_id);
                    sent s (PostComplete payment_id); Sleep 10] s in
  poll_loop env payment_id (S n) s = poll_loop env payment_id n s'
  /\ (forall v',
        body_or_none (next env EpStatus s') = Ok v' ->
        verified_uncompleted v' = true ->
        has_transaction_record v' = true ->
        history (snd (poll_once env payment_id s')) =
        history s' ++ [sent s (GetPayment payment_id); sent s (PostComplete payment_id)])
  /\ (forall recipient amount,
        bounded completions_over_polls 0 (execute_transfer env recipient amount)
        /\ bounded (counting is_status_poll) 60
             (execute_transfer env recipient amount)).
Proof.
  intros Hv Hvu Htx Hc Hfail s'. split; [|split].
  - cbn [poll_loop]. unfold bind at 1.
    rewrite (poll_once_verified env payment_id s v Hv Hvu Htx), Hfail, Hc.
    unfold bind, time_sleep, emit. cbn [fst snd].
    change {| self := self (record [sent s (GetPayment payment_id);
                                    sent s (PostComplete payment_id)] s);
              history := history (record [sent s (GetPayment payment_id);
                                  sent s (PostComplete payment_id)] s) ++ [Sleep 10] |}
      with (record [Sleep 10] (record [sent s (GetPayment payment_id);
                                       sent s (PostComplete payment_id)] s)).
    now rewrite record_record.
  - intros v' Hv' Hvu' Htx'.
    now rewrite (poll_once_verified env payment_id s' v' Hv' Hvu' Htx').
  - intros recipient amount. split.
    + replace 0 with (0 + 60 * (-1 + 1)) by lia.
      apply execute_transfer_bounded; intros; cbn; lia.
    + replace 60 with (0 + 60 * (1 + 0)) by lia.
      apply execute_transfer_bounded; intros; cbn; lia.
Qed.

Lemma failed_completion_keeps_polling_witness :
  poll_loop Sample.first_completion_refused (VStr "pay-1") 60 Sample.start =
  poll_loop Sample.first_completion_refused (VStr "pay-1") 59
    (record [sent Sample.start Sample.status; sent Sample.start Sample.complete;
             Sleep 10] Sample.start).
Proof.
  refine (proj1 (failed_completion_keeps_polling Sample.first_completion_refused
                   (VStr "pay-1") 59 Sample.start
                   (Sample.payment_object true false false) _ _ _ _ _)).
  - reflexivity.
  - reflexivity.
  - reflexivity.
  - reflexivity.
  - reflexivity.
Defined.

(** ** Polling runs out *)

(** C3.  Once the payment is created and approved, if each of the next 60
    status polls is pending (the call fails, or it returns a payment
    object that is neither verified-and-uncompleted nor cancelled), then
    [execute_transfer] returns [False] after exactly 60 rounds of "poll,
    sleep 10".  Whatever the platform answers, it never polls more than
    60 times, and it returns [False] whenever none of the first 60 polls
    reports verified-and-uncompleted. *)
Theorem polling_times_out env recipient amount s payment_id s1 s2 :
  create_payment env recipient amount (TransferMemo amount) s = (Ok payment_id, s1) ->
  truthy payment_id = true ->
  approve_payment env payment_id s1 = (Ok true, s2) ->
  (forall k, (k < 60)%nat -> pending (poll env s2 k) = true) ->
  execute_transfer env recipient amount s =
    (Ok false, record (polling s2 payment_id 60) s2)
  /\ calls EpStatus (polling s2 payment_id 60) = 60%nat
  /\ bounded (counting is_status_poll) 60 (execute_transfer env recipient amount)
  /\ ((forall k, (k < 60)%nat ->
                 reports verified_uncompleted (poll env s k) = false) ->
      exists s', execute_transfer env recipient amount s = (Ok false, s')).
Proof.
  intros Hcreate Hid Happrove Hpolls. split; [|split; [|split]].
  - unfold execute_transfer, try_except, bind.
    rewrite Hcreate, Hid. cbn [negb]. rewrite Happrove. cbn [negb].
    unfold max_attempts. now rewrite poll_loop_pending.
  - apply calls_polling.
  - replace 60 with (0 + 60 * (1 + 0)) by lia.
    apply execute_transfer_bounded; intros; cbn; lia.
  - intro Hvu.
    destruct (execute_transfer_fails env recipient amount s) as (s' & evs & E & _).
    + intros pid s3 Hpoll. apply poll_loop_unverified.
      intros k Hk. rewrite Hpoll. apply Hvu. exact Hk.
    + now exists s'.
Qed.

Lemma polling_times_out_witness :
  execute_transfer Sample.always_pending
    (allowed_recipient Sample.bot) TRANSFER_AMOUNT Sample.start =
  (Ok false,
   record (polling Sample.start (VStr "pay-1") 60)
     (record [sent Sample.start
                (PostPayment TRANSFER_AMOUNT (TransferMemo TRANSFER_AMOUNT)
                   (allowed_recipient Sample.bot) (VStr "user-1"));
              sent Sample.start (PostApprove (VStr "pay-1"))]
        Sample.start)).
Proof.
  refine (proj1 (polling_times_out Sample.always_pending
                   (allowed_recipient Sample.bot) TRANSFER_AMOUNT Sample.start
                   (VStr "pay-1") _ _ _ _ _ _)).
  - reflexivity.
  - reflexivity.
  - reflexivity.
  - intros k Hk. reflexivity.
Defined.

(** ** Balance gate *)

(** C4.  In a cycle that gets past authentication, once the sweep has run
    and the balance has been read as [available]: if
    [available >= REQUIRED_BALANCE] the cycle is the payment workflow for
    the allowed recipient and the fixed amount, which starts by the
    creation request; otherwise the cycle returns [False] at once.  Up to
    that point no request of the workflow has been sent.
    [REQUIRED_BALANCE] is [1650.0 + 0.01], which is the float [1650.01]; a
    balance of 1650.01 is sufficient, a balance below the required one is
    not. *)
Theorem balance_gate env s s0 sweep s1 available s2 :
  authenticated env s s0 ->
  confirm_unlock env s0 = (sweep, s1) ->
  get_available_balance env s1 = (Ok available, s2) ->
  (fge available REQUIRED_BALANCE = true ->
   check_and_transfer env s =
     execute_transfer env (allowed_recipient (self s2)) TRANSFER_AMOUNT s2
   /\ exists rest,
       history (snd (check_and_transfer env s)) =
       history s2 ++ sent s2 (PostPayment TRANSFER_AMOUNT (TransferMemo TRANSFER_AMOUNT)
                            (allowed_recipient (self s2)) (user_uid (self s2)))
             :: rest)
  /\ (fge available REQUIRED_BALANCE = false ->
      check_and_transfer env s = (Ok false, s2))
  /\ (exists evs,
        history s2 = history s ++ evs
        /\ forall base bearer r, In (Http base bearer r) evs -> is_workflow r = false)
  /\ (flt available REQUIRED_BALANCE = true -> fge available REQUIRED_BALANCE = false)
  /\ REQUIRED_BALANCE = fadd (float_of_Z 1650) (decimal 1 100)
  /\ REQUIRED_BALANCE = decimal 165001 100
  /\ fge (decimal 165001 100) REQUIRED_BALANCE = true.
Proof.
  intros Hauth Hsweep Hbalance.
  assert (Hcycle : check_and_transfer env s =
                   if fge available REQUIRED_BALANCE
                   then execute_transfer env (allowed_recipient (self s2))
                          TRANSFER_AMOUNT s2
                   else (Ok false, s2)).
  { rewrite (check_and_transfer_authenticated env s s0 Hauth).
    destruct (confirm_unlock_run env s0) as (ok & payments & Hrun).
    rewrite Hrun in Hsweep. injection Hsweep as <- <-.
    unfold try_except, gate_and_transfer, bind at 1. rewrite Hrun.
    unfold bind at 1. rewrite Hbalance.
    destruct (fge available REQUIRED_BALANCE); [|reflexivity].
    unfold bind at 1, get_self at 1. unfold bind at 1.
    destruct (execute_transfer_total env (allowed_recipient (self s2))
                TRANSFER_AMOUNT s2) as (success & s3 & Hrun3).
    rewrite Hrun3. destruct success; reflexivity. }
  split; [|split; [|split; [|split; [|split; [|split]]]]].
  - intro Hge. rewrite Hcycle, Hge. split; [reflexivity|].
    apply execute_transfer_starts.
  - intro Hlt. now rewrite Hcycle, Hlt.
  - destruct (before_the_gate env s0 sweep s1 (Ok available) s2 Hsweep Hbalance)
      as (evs & Hlog & Hnone).
    destruct (authenticated_log env s s0 Hauth) as [H0|H0].
    + exists evs. split; [now rewrite Hlog, H0 | assumption].
    + exists (sent s GetMe :: evs). split.
      * rewrite Hlog, H0, <- app_assoc. reflexivity.
      * intros base bearer r [Heq|Hin]; [|now apply (Hnone base bearer r)].
        unfold sent in Heq. now injection Heq as _ _ <-.
  - apply flt_not_fge.
  - reflexivity.
  - vm_compute. reflexivity.
  - vm_compute. reflexivity.
Qed.

Lemma balance_gate_witness :
  check_and_transfer Sample.funded Sample.start =
  execute_transfer Sample.funded (allowed_recipient Sample.bot) TRANSFER_AMOUNT
    (record [sent Sample.start (GetBalance (VStr "GBWALLET"))]
       (record [sent Sample.start GetPendingPayments] Sample.start)).
Proof.
  assert (Hauth : authenticated Sample.funded Sample.start Sample.start)
    by (left; split; reflexivity).
  assert (Hsweep : confirm_unlock Sample.funded Sample.start =
                   (Ok true, record [sent Sample.start GetPendingPayments] Sample.start))
    by (vm_compute; reflexivity).
  assert (Hbalance :
            get_available_balance Sample.funded
              (record [sent Sample.start GetPendingPayments] Sample.start) =
            (Ok (decimal 165001 100),
             record [sent Sample.start (GetBalance (VStr "GBWALLET"))]
               (record [sent Sample.start GetPendingPayments] Sample.start)))
    by (vm_compute; reflexivity).
  assert (Hge : fge (decimal 165001 100) REQUIRED_BALANCE = true)
    by (vm_compute; reflexivity).
  exact (proj1 (proj1 (balance_gate Sample.funded Sample.start _ _ _ _ _
                         Hauth Hsweep Hbalance) Hge)).
Defined.

(** ** Cancellation *)

(** C5 as stated fails.  The first poll reports the payment cancelled, and
    no poll before it reports verified-and-uncompleted; but that same poll
    also reports verified-and-uncompleted, the verification branch is
    looked at first, the completion request is issued and succeeds, and
    [execute_transfer] returns [True]. *)
Lemma verified_and_cancelled_poll_is_completed :
  reports cancelled (poll Sample.verified_and_cancelled Sample.start 0) = true
  /\ none_verified_before Sample.verified_and_cancelled Sample.start 0 = true
  /\ execute_transfer Sample.verified_and_cancelled
       (allowed_recipient Sample.bot) TRANSFER_AMOUNT Sample.start =
     (Ok true,
      record [sent Sample.start Sample.create; sent Sample.start Sample.approve;
              sent Sample.start Sample.status; sent Sample.start Sample.complete]
        Sample.start).
Proof. repeat split. Qed.

(** C5 (amended).  If some poll reports cancelled or user_cancelled, and
    no poll up to and including that one reports verified-and-uncompleted,
    then [execute_transfer] returns [False] and issues no completion
    request. *)
Theorem cancellation_abandons_transfer env recipient amount s j :
  (forall k, (k <= j)%nat ->
             reports verified_uncompleted (poll env s k) = false) ->
  reports cancelled (poll env s j) = true ->
  exists s' evs,
    execute_transfer env recipient amount s = (Ok false, s')
    /\ history s' = history s ++ evs
    /\ forall base bearer payment_id,
         ~ In (Http base bearer (PostComplete payment_id)) evs.
Proof.
  intros Hvu Hc. apply execute_transfer_fails. intros payment_id s2 Hpoll.
  destruct (Nat.lt_ge_cases j 60) as [Hj|Hj].
  - apply (poll_loop_cancelled env payment_id j); [assumption | |].
    + intros k Hk. rewrite Hpoll. now apply Hvu.
    + now rewrite Hpoll.
  - apply poll_loop_unverified. intros k Hk. rewrite Hpoll. apply Hvu.
    unfold max_attempts in Hk. lia.
Qed.

Lemma cancellation_abandons_transfer_witness :
  exists s' evs,
    execute_transfer Sample.cancelled_at_once
      (allowed_recipient Sample.bot) TRANSFER_AMOUNT Sample.start = (Ok false, s')
    /\ history s' = history Sample.start ++ evs
    /\ forall base bearer payment_id,
         ~ In (Http base bearer (PostComplete payment_id)) evs.
Proof.
  apply (cancellation_abandons_transfer Sample.cancelled_at_once
           (allowed_recipient Sample.bot) TRANSFER_AMOUNT Sample.start 0%nat).
  - intros k Hk. reflexivity.
  - reflexivity.
Defined.

(** ** Deadline *)

(** C6 as stated fails at "after observing the deadline reached it never
    sleeps".  The wallet is funded and the deadline has passed: the
    iteration reads the clock twice, sees the deadline reached, and makes
    its final attempt.  That attempt starts a payment that stays pending,
    so the workflow sleeps after each of its 60 status polls, 60 times in
    all, before the loop breaks. *)
Theorem final_attempt_sleeps :
  TARGET_DATETIME <= clock Sample.stalled_at_deadline 1
  /\ fst (loop_body Sample.stalled_at_deadline Sample.start) = Ok Break
  /\ firstn 2 (history (snd (loop_body Sample.stalled_at_deadline Sample.start))) =
     [Now; Now]
  /\ total pauses
       (skipn 2 (history (snd (loop_body Sample.stalled_at_deadline Sample.start)))) = 60
  /\ In (Sleep 10)
       (skipn 2 (history (snd (loop_body Sample.stalled_at_deadline Sample.start)))).
Proof.
  split; [cbn; unfold TARGET_DATETIME; lia|].
  split; [vm_compute; reflexivity|].
  split; [vm_compute; reflexivity|].
  split; [vm_compute; reflexivity|].
  vm_compute. do 5 right. left. reflexivity.
Qed.

(** C6, as amended.  In an iteration of the monitoring loop in which
    [is_target_time_reached] sees the deadline reached, the loop runs
    [check_and_transfer] once and breaks, whatever that call returns: the
    loop ends in the state that call leaves, so no other cycle is started
    and the scheduler itself does not sleep.  That one attempt creates at
    most one payment and polls its status at most 60 times; the only
    sleeps after the deadline was seen are the pauses of 10 between two
    status polls of that attempt, at most 60 of them. *)
Theorem deadline_ends_loop env s :
  TARGET_DATETIME <= clock env (S (clock_reads (history s))) ->
  exists ok s' evs,
    check_and_transfer env (record [Now; Now] s) = (Ok ok, s')
    /\ loop_body env s = (Ok Break, s')
    /\ (forall fuel, monitoring_loop env (S fuel) s = Some (Ok tt, s'))
    /\ history s' = history (record [Now; Now] s) ++ evs
    /\ total (counting is_creation) evs <= 1
    /\ (forall n, In (Sleep n) evs -> n = 10)
    /\ total (counting is_status_poll) evs <= 60
    /\ total pauses evs <= 60.
Proof.
  intro Hdeadline.
  destruct (check_and_transfer_total env (record [Now; Now] s)) as (ok & s' & Hrun).
  assert (Hbody : loop_body env s = (Ok Break, s')).
  { unfold loop_body, try_except, bind at 1, datetime_now at 1.
    unfold bind at 1, is_target_time_reached, bind at 1, datetime_now at 1.
    cbn [history self ret].
    rewrite clock_reads_app.
    change (clock_reads [Now]) with 1%nat. rewrite Nat.add_1_r.
    apply Z.leb_le in Hdeadline. rewrite Hdeadline.
    unfold bind at 1.
    change {| self := self s; history := (history s ++ [Now]) ++ [Now] |}
      with (record [Now] (record [Now] s)).
    rewrite record_record. cbn [app]. rewrite Hrun.
    destruct ok; reflexivity. }
  destruct (check_and_transfer_bounded (counting is_creation) env 0 1)
    with (s := record [Now; Now] s) as (evs & Hlog & Hcount);
    try (intros; cbn; lia).
  destruct (check_and_transfer_bounded long_sleeps env 0 0)
    with (s := record [Now; Now] s) as (evs' & Hlog' & Hsleeps);
    try (intros; cbn; lia).
  destruct (check_and_transfer_bounded (counting is_status_poll) env 1 0)
    with (s := record [Now; Now] s) as (evs2 & Hlog2 & Hpolls);
    try (intros; cbn; lia).
  destruct (check_and_transfer_pauses env (record [Now; Now] s))
    as (evs3 & Hlog3 & Hpauses).
  rewrite Hrun in Hlog, Hlog', Hlog2, Hlog3. cbn [snd] in Hlog, Hlog', Hlog2, Hlog3.
  assert (evs' = evs) by (rewrite Hlog in Hlog'; now apply app_inv_head in Hlog').
  assert (evs2 = evs) by (rewrite Hlog in Hlog2; now apply app_inv_head in Hlog2).
  assert (evs3 = evs) by (rewrite Hlog in Hlog3; now apply app_inv_head in Hlog3).
  subst evs' evs2 evs3.
  exists ok, s', evs. split; [assumption|]. split; [assumption|].
  split; [intro fuel; cbn [monitoring_loop]; now rewrite Hbody|].
  split; [assumption|]. split; [lia|].
  split; [apply total_long_sleeps_none; lia|].
  split; [lia | assumption].
Qed.

Lemma deadline_ends_loop_witness :
  exists ok s' evs,
    check_and_transfer Sample.stalled_at_deadline (record [Now; Now] Sample.start) =
      (Ok ok, s')
    /\ loop_body Sample.stalled_at_deadline Sample.start = (Ok Break, s')
    /\ (forall fuel,
          monitoring_loop Sample.stalled_at_deadline (S fuel) Sample.start =
          Some (Ok tt, s'))
    /\ history s' = history (record [Now; Now] Sample.start) ++ evs
    /\ total (counting is_creation) evs <= 1
    /\ (forall n, In (Sleep n) evs -> n = 10)
    /\ total (counting is_status_poll) evs <= 60
    /\ total pauses evs <= 60.
Proof.
  apply (deadline_ends_loop Sample.stalled_at_deadline Sample.start).
  cbn. unfold TARGET_DATETIME. lia.
Defined.

(** ** Failures of the platform client *)

(** C7 as stated fails: a timeout and an HTTP 500 with an error body give
    the caller the same value and leave the same state, for each of the
    seven operations. *)
Lemma network_error_looks_like_rejection :
  get_user_info Sample.offline Sample.start =
    get_user_info Sample.rejecting Sample.start
  /\ get_wallet_balance Sample.offline Sample.start =
     get_wallet_balance Sample.rejecting Sample.start
  /\ get_pending_payments Sample.offline Sample.start =
     get_pending_payments Sample.rejecting Sample.start
  /\ create_payment Sample.offline (allowed_recipient Sample.bot)
       TRANSFER_AMOUNT (TransferMemo TRANSFER_AMOUNT) Sample.start =
     create_payment Sample.rejecting (allowed_recipient Sample.bot)
       TRANSFER_AMOUNT (TransferMemo TRANSFER_AMOUNT) Sample.start
  /\ approve_payment Sample.offline (VStr "pay-1") Sample.start =
     approve_payment Sample.rejecting (VStr "pay-1") Sample.start
  /\ get_payment_status Sample.offline (VStr "pay-1") Sample.start =
     get_payment_status Sample.rejecting (VStr "pay-1") Sample.start
  /\ _complete_payment Sample.offline (VStr "pay-1") Sample.start =
     _complete_payment Sample.rejecting (VStr "pay-1") Sample.start
  /\ reply Sample.offline EpStatus 0 = NetworkError
  /\ reply Sample.rejecting EpStatus 0 =
     Sample.respond 500 (VDict [("error", VStr "rejected")]).
Proof. repeat split. Qed.

(** C7 (amended).  When a call fails, by a network error or by a
    non-success status code, each of the seven operations returns its
    failure value ([None] or [False]) and raises nothing; the value and
    the state are the same for both kinds of failure. *)
Theorem client_failures_are_values env s :
  (failed [200] (next env EpMe s) = true ->
   get_user_info env s = (Ok VNone, record [sent s GetMe] s))
  /\ (truthy (wallet_address (self s)) = true ->
      failed [200] (next env EpBalance s) = true ->
      get_wallet_balance env s =
      (Ok VNone, record [sent s (GetBalance (wallet_address (self s)))] s))
  /\ (failed [200] (next env EpPending s) = true ->
      get_pending_payments env s = (Ok VNone, record [sent s GetPendingPayments] s))
  /\ (forall amount memo,
        failed [200; 201] (next env EpCreate s) = true ->
        create_payment env (allowed_recipient (self s)) amount memo s =
        (Ok VNone,
         record [sent s (PostPayment amount memo (allowed_recipient (self s))
                                     (user_uid (self s)))] s))
  /\ (forall payment_id,
        failed [200] (next env EpApprove s) = true ->
        approve_payment env payment_id s =
        (Ok false, record [sent s (PostApprove payment_id)] s))
  /\ (forall payment_id,
        failed [200] (next env EpStatus s) = true ->
        get_payment_status env payment_id s =
        (Ok VNone, record [sent s (GetPayment payment_id)] s))
  /\ (forall payment_id,
        failed [200] (next env EpComplete s) = true ->
        _complete_payment env payment_id s =
        (Ok false, record [sent s (PostComplete payment_id)] s)).
Proof.
  repeat split.
  - apply get_user_info_failed.
  - intros Hw H. rewrite get_wallet_balance_eq, Hw. now rewrite body_or_none_failed.
  - intro H. rewrite get_pending_payments_eq. apply failed_200 in H.
    destruct H as [-> | (r & -> & Hcode)]; [reflexivity | now rewrite Hcode].
  - intros amount memo H. rewrite create_payment_allowed. unfold created.
    destruct (next env EpCreate s) as [|r]; [reflexivity|]. cbn in H.
    rewrite orb_false_r in H.
    destruct ((status_code r =? 200) || (status_code r =? 201));
      [discriminate | reflexivity].
  - intros payment_id H. rewrite approve_payment_eq. now rewrite ok_200_failed.
  - intros payment_id H. rewrite get_payment_status_eq. now rewrite body_or_none_failed.
  - intros payment_id H. rewrite _complete_payment_eq. now rewrite ok_200_failed.
Qed.

Lemma client_failures_are_values_witness :
  get_user_info Sample.rejecting Sample.start =
    (Ok VNone, record [sent Sample.start GetMe] Sample.start)
  /\ get_wallet_balance Sample.rejecting Sample.start =
     (Ok VNone, record [sent Sample.start (GetBalance (VStr "GBWALLET"))] Sample.start)
  /\ get_pending_payments Sample.rejecting Sample.start =
     (Ok VNone, record [sent Sample.start GetPendingPayments] Sample.start)
  /\ create_payment Sample.rejecting (allowed_recipient Sample.bot)
       TRANSFER_AMOUNT (TransferMemo TRANSFER_AMOUNT) Sample.start =
     (Ok VNone, record [sent Sample.start Sample.create] Sample.start)
  /\ approve_payment Sample.rejecting (VStr "pay-1") Sample.start =
     (Ok false, record [sent Sample.start Sample.approve] Sample.start)
  /\ get_payment_status Sample.rejecting (VStr "pay-1") Sample.start =
     (Ok VNone, record [sent Sample.start Sample.status] Sample.start)
  /\ _complete_payment Sample.rejecting (VStr "pay-1") Sample.start =
     (Ok false, record [sent Sample.start Sample.complete] Sample.start).
Proof.
  destruct (client_failures_are_values Sample.rejecting Sample.start)
    as (H1 & H2 & H3 & H4 & H5 & H6 & H7).
  split; [apply H1; reflexivity|].
  split; [apply H2; reflexivity|].
  split; [apply H3; reflexivity|].
  split; [apply H4; reflexivity|].
  split; [apply H5; reflexivity|].
  split; [apply H6; reflexivity|].
  apply H7; reflexivity.
Defined.

(** ** Start-up *)

(** C8 as stated fails at "absent ... constructing the bot fails".  With
    none of the variables set, [os.getenv] hands back the placeholder
    defaults, the checks of [_validate_configuration] see non-empty
    strings and a recipient of 24 characters, and the bot is constructed.
    It is the guard of the script's entry point that refuses that
    environment: it lists the four variables as missing and exits with
    status 1. *)
Theorem unconfigured_bot_is_constructed :
  __init__ Sample.no_environment =
    Ok {| access_token := "test_access_token_here";
          allowed_recipient := "test_wallet_address_here";
          app_id := "test_app_id_here";
          app_secret := "test_app_secret_here";
          pi_api_base_url := "https://api.minepi.com";
          sandbox_mode := false;
          wallet_address := VNone;
          user_uid := VNone |}
  /\ missing_vars Sample.no_environment = required_env_vars
  /\ forall env fuel, script env Sample.no_environment fuel = Exit 1.
Proof. repeat split. Qed.

(** C8, as amended.  Run as a script, the process refuses to run (exit
    status 1, before any bot is constructed) whenever the access token,
    the allowed recipient, the app id or the app secret is unset or empty.
    The constructor fails, with a [ValueError], exactly when one of the
    four is set to the empty string or the recipient is set to fewer than
    20 characters; an unset variable is replaced by its placeholder and
    does not make the construction fail.  A recipient of fewer than 20
    characters ends [main()] by that [ValueError]. *)
Theorem settings_are_checked_at_startup env e fuel :
  ((exists var, In var required_env_vars
                /\ (e var = None \/ e var = Some ""%string)) ->
   script env e fuel = Exit 1)
  /\ (__init__ e = Raise ValueError <->
      (exists var, In var required_env_vars /\ e var = Some ""%string)
      \/ (exists r, e "ALLOWED_RECIPIENT_ADDRESS" = Some r
                    /\ (String.length r < 20)%nat))
  /\ ((forall var, In var required_env_vars -> e var <> Some ""%string) ->
      (forall r, e "ALLOWED_RECIPIENT_ADDRESS" = Some r -> (20 <= String.length r)%nat) ->
      exists bot, __init__ e = Ok bot)
  /\ (forall r,
        e "ALLOWED_RECIPIENT_ADDRESS" = Some r ->
        (String.length r < 20)%nat ->
        __init__ e = Raise ValueError /\ main env e fuel = Crashed ValueError).
Proof.
  split; [|split; [|split]].
  - intros (var & Hin & Hvar). unfold script.
    destruct (missing_vars e) as [|x l] eqn:Hm; [|reflexivity].
    destruct (proj1 (missing_vars_nil e) Hm var Hin) as (v & Hv & Hne).
    destruct Hvar as [Hvar|Hvar]; rewrite Hvar in Hv; [discriminate|].
    injection Hv as <-. now contradiction Hne.
  - apply init_fails_iff.
  - intros Hset Hlong.
    destruct (__init__ e) as [bot|ex] eqn:Hinit; [eauto|].
    pose proof (init_raises_value_error e ex Hinit) as ->.
    apply init_fails_iff in Hinit.
    destruct Hinit as [(var & Hin & Hvar)|(r & Hr & Hshort)].
    + now contradiction (Hset var Hin).
    + specialize (Hlong r Hr). lia.
  - intros r Hr Hshort.
    assert (Hinit : __init__ e = Raise ValueError)
      by (apply init_fails_iff; right; eauto).
    split; [assumption|]. unfold main. now rewrite Hinit.
Qed.

Lemma settings_are_checked_at_startup_witness :
  script Sample.offline (setenv Sample.configured "PI_APP_ID" "") 3 = Exit 1
  /\ script Sample.offline Sample.no_environment 3 = Exit 1
  /\ (exists bot, __init__ Sample.configured = Ok bot)
  /\ main Sample.offline Sample.short_recipient 3 = Crashed ValueError.
Proof.
  split; [|split; [|split]].
  - apply (proj1 (settings_are_checked_at_startup Sample.offline
                    (setenv Sample.configured "PI_APP_ID" "") 3)).
    exists "PI_APP_ID". split; [cbn; tauto | right; reflexivity].
  - apply (proj1 (settings_are_checked_at_startup Sample.offline
                    Sample.no_environment 3)).
    exists "PI_ACCESS_TOKEN". split; [cbn; tauto | left; reflexivity].
  - apply (proj1 (proj2 (proj2 (settings_are_checked_at_startup Sample.offline
                                  Sample.configured 3)))).
    + intros var [<-|[<-|[<-|[<-|[]]]]]; discriminate.
    + intros r Hr. injection Hr as <-. cbn. lia.
  - refine (proj2 (proj2 (proj2 (proj2 (settings_are_checked_at_startup Sample.offline
                                          Sample.short_recipient 3)))
                    "GBSHORT1" _ _)).
    + reflexivity.
    + cbn. lia.
Defined.

(** ** A balance that cannot be read *)

(** C9.  When the balance cannot be read (no wallet address, a network
    error, or a status code other than 200), [get_available_balance]
    returns [0.0].  A cycle in which that happens returns [False] and
    sends no request of the payment workflow (no creation, no approval, no
    status poll). *)
Theorem unreadable_balance_blocks_transfer env s :
  (truthy (wallet_address (self s)) = false
   \/ failed [200] (next env EpBalance s) = true ->
   get_available_balance env s =
   (Ok (float_of_Z 0),
    if truthy (wallet_address (self s))
    then record [sent s (GetBalance (wallet_address (self s)))] s
    else s))
  /\ (failed [200] (next env EpBalance s) = true
      \/ (truthy (wallet_address (self s)) = false
          /\ truthy (wallet_address (self (snd (get_user_info env s)))) = false) ->
      exists s' evs,
        check_and_transfer env s = (Ok false, s')
        /\ history s' = history s ++ evs
        /\ forall base bearer r, In (Http base bearer r) evs -> is_workflow r = false).
Proof.
  split; [apply get_available_balance_unreadable|].
  intro H. rewrite check_and_transfer_unfold.
  unfold try_except, bind at 1, get_self at 1.
  destruct (truthy (wallet_address (self s))) eqn:Hw; cbn [negb].
  - unfold bind at 1, ret at 1. cbn [negb].
    destruct H as [H|[H _]]; [|discriminate].
    destruct (gate_closed env s (or_intror H)) as (s' & evs & Hrun & Hlog & Hnone).
    rewrite Hrun. now exists s', evs.
  - unfold bind at 1. unfold bind at 1.
    pose proof (get_user_info_log env s) as Hme.
    destruct (get_user_info env s) as [[user_info|e] s1]; cbn [snd] in *.
    + unfold ret at 1. destruct (truthy user_info); cbn [negb].
      * assert (H1 : truthy (wallet_address (self s1)) = false
                     \/ failed [200] (next env EpBalance s1) = true).
        { destruct H as [H|[_ H]]; [right|now left].
          unfold next in *. rewrite Hme, calls_after_other; [assumption|reflexivity]. }
        destruct (gate_closed env s1 H1) as (s' & evs & Hrun & Hlog & Hnone).
        rewrite Hrun. exists s', (sent s GetMe :: evs).
        split; [reflexivity|]. split.
        -- rewrite Hlog, Hme, <- app_assoc. reflexivity.
        -- intros base bearer r [Heq|Hin]; [|now apply (Hnone base bearer r)].
           unfold sent in Heq. now injection Heq as _ _ <-.
      * exists s1, [sent s GetMe]. split; [reflexivity|]. split; [assumption|].
        intros base bearer r [Heq|[]]. unfold sent in Heq. now injection Heq as _ _ <-.
    + exists s1, [sent s GetMe]. split; [reflexivity|]. split; [assumption|].
      intros base bearer r [Heq|[]]. unfold sent in Heq. now injection Heq as _ _ <-.
Qed.

Lemma unreadable_balance_blocks_transfer_witness :
  get_available_balance Sample.balance_down Sample.start =
    (Ok (float_of_Z 0),
     record [sent Sample.start (GetBalance (VStr "GBWALLET"))] Sample.start)
  /\ exists s' evs,
       check_and_transfer Sample.balance_down Sample.start = (Ok false, s')
       /\ history s' = history Sample.start ++ evs
       /\ forall base bearer r, In (Http base bearer r) evs -> is_workflow r = false.
Proof.
  destruct (unreadable_balance_blocks_transfer Sample.balance_down Sample.start)
    as [Hread Hcycle].
  split.
  - apply Hread. right. reflexivity.
  - apply Hcycle. left. reflexivity.
Defined.

(** ** Unlock confirmation *)

(** C10.  When the platform lists pending payments, the sweep sends the
    listing request and then one completion request for each listed
    payment whose status record carries a false [developer_completed]
    flag, in order, and nothing else.  A payment without a status record,
    or whose status record lacks the flag, is not flagged. *)
Theorem sweep_completes_only_flagged env s r payments_data payments :
  next env EpPending s = Response r ->
  status_code r = 200 ->
  json r = Ok payments_data ->
  get payments_data "payments" (VList []) = Ok (VList payments) ->
  confirm_unlock env s =
    (Ok (forallb has_status_record payments),
     record (sent s GetPendingPayments :: completions s (swept payments)) s)
  /\ (forall base bearer payment_id,
        In (Http base bearer (PostComplete payment_id))
           (completions s (swept payments)) ->
        exists payment,
          In payment payments
          /\ explicitly_uncompleted payment = true
          /\ get payment "identifier" VNone = Ok payment_id)
  /\ (forall d, lookup d "status" = None ->
                explicitly_uncompleted (VDict d) = false)
  /\ (forall d status,
        lookup d "status" = Some (VDict status) ->
        lookup status "developer_completed" = None ->
        explicitly_uncompleted (VDict d) = false)
  /\ (forall d status b,
        lookup d "status" = Some (VDict status) ->
        lookup status "developer_completed" = Some (VBool b) ->
        explicitly_uncompleted (VDict d) = negb b).
Proof.
  intros Hr Hcode Hjson Hget. split; [|split; [|split; [|split]]].
  - now apply (confirm_unlock_listed env s r payments_data payments).
  - intros base bearer payment_id Hin. unfold completions in Hin.
    apply in_map_iff in Hin. destruct Hin as (payment & Heq & Hin).
    apply filter_In in Hin. destruct Hin as [Hin Hflag].
    exists payment. split; [now apply swept_incl|]. split; [assumption|].
    unfold sent in Heq. injection Heq as _ _ Hid. subst payment_id.
    destruct payment; try discriminate. reflexivity.
  - intros d Hd. cbn. now rewrite Hd.
  - intros d status Hd Hs. cbn. now rewrite Hd, Hs.
  - intros d status b Hd Hs. cbn. now rewrite Hd, Hs.
Qed.

Lemma sweep_completes_only_flagged_witness :
  confirm_unlock Sample.with_pending Sample.start =
  (Ok true,
   record [sent Sample.start GetPendingPayments;
           sent Sample.start (PostComplete (VStr "old-1"))] Sample.start).
Proof.
  refine (proj1 (sweep_completes_only_flagged Sample.with_pending Sample.start
                   {| status_code := 200;
                      json := Ok (VDict [("payments", VList Sample.pending_list)]) |}
                   (VDict [("payments", VList Sample.pending_list)])
                   Sample.pending_list _ _ _ _)).
  - reflexivity.
  - reflexivity.
  - reflexivity.
  - reflexivity.
Defined.

(** * Further properties *)

(** ** What a run keeps *)

Lemma same_config_refl b : same_config b b.
Proof. unfold same_config. tauto. Qed.

Lemma same_config_trans b1 b2 b3 :
  same_config b1 b2 -> same_config b2 b3 -> same_config b1 b3.
Proof.
  unfold same_config. intros (A1 & A2 & A3 & A4 & A5 & A6) (B1 & B2 & B3 & B4 & B5 & B6).
  repeat split; congruence.
Qed.

Lemma orderly_config amount b b' e :
  same_config b b' -> orderly amount b' e -> orderly amount b e.
Proof.
  intros (A1 & A2 & _ & _ & A5 & _). destruct e as [base bearer r| |]; cbn; try tauto.
  intros (-> & -> & H). repeat split; try congruence.
  destruct r; try exact I. destruct H as (-> & H). split; [congruence | exact H].
Qed.

Section Keeps.

Variable P : Bot -> event -> Prop.
Hypothesis P_config : forall b b' e, same_config b b' -> P b' e -> P b e.

Lemma keeps_nothing {A} (m : M A) :
  (forall s, snd (m s) = s) -> keeps P m.
Proof.
  intros H s. exists []. rewrite H, app_nil_r.
  split; [reflexivity|]. split; [apply same_config_refl | constructor].
Qed.

Lemma keeps_ret {A} (a : A) : keeps P (ret a).
Proof. now apply keeps_nothing. Qed.

Lemma keeps_raise {A} e : keeps P (@raise A e).
Proof. now apply keeps_nothing. Qed.

Lemma keeps_lift {A} (r : result A) : keeps P (lift r).
Proof. now apply keeps_nothing. Qed.

Lemma keeps_get_self : keeps P get_self.
Proof. now apply keeps_nothing. Qed.

Lemma keeps_set_user_uid u : keeps P (modify_self (set_user_uid u)).
Proof.
  intro s. exists []. cbn. rewrite app_nil_r.
  split; [reflexivity|]. split; [unfold same_config; cbn; tauto | constructor].
Qed.

Lemma keeps_set_wallet_address w : keeps P (modify_self (set_wallet_address w)).
Proof.
  intro s. exists []. cbn. rewrite app_nil_r.
  split; [reflexivity|]. split; [unfold same_config; cbn; tauto | constructor].
Qed.

Lemma keeps_emit e : (forall b, P b e) -> keeps P (emit e).
Proof.
  intros H s. exists [e]. cbn.
  split; [reflexivity|]. split; [apply same_config_refl | now constructor].
Qed.

Lemma keeps_requests_call env r :
  (forall b, P b (Http (pi_api_base_url b) (access_token b) r)) ->
  keeps P (requests_call env r).
Proof.
  intros H s. exists [sent s r]. unfold requests_call, sent.
  destruct (reply env (endpoint_of r) (calls (endpoint_of r) (history s))); cbn;
    (split; [reflexivity|]; split; [apply same_config_refl | now constructor]).
Qed.

Lemma keeps_bind {A B} (m : M A) (k : A -> M B) :
  keeps P m -> (forall a, keeps P (k a)) -> keeps P (bind m k).
Proof.
  intros Hm Hk s. unfold bind.
  destruct (Hm s) as (e1 & E1 & C1 & F1).
  destruct (m s) as [[a|ex] s1]; cbn [snd] in *.
  - destruct (Hk a s1) as (e2 & E2 & C2 & F2).
    exists (e1 ++ e2). rewrite E2, E1, app_assoc.
    split; [reflexivity|]. split; [now apply same_config_trans with (self s1)|].
    apply Forall_app. split; [assumption|].
    eapply Forall_impl; [|exact F2]. intros e He. now apply (P_config _ (self s1)).
  - now exists e1.
Qed.

Lemma keeps_try {A} (body handler : M A) catches :
  keeps P body -> keeps P handler -> keeps P (try_except body catches handler).
Proof.
  intros Hb Hh s. unfold try_except.
  destruct (Hb s) as (e1 & E1 & C1 & F1).
  destruct (body s) as [[a|ex] s1]; cbn [snd] in *.
  - now exists e1.
  - destruct (catches ex); [|now exists e1].
    destruct (Hh s1) as (e2 & E2 & C2 & F2).
    exists (e1 ++ e2). rewrite E2, E1, app_assoc.
    split; [reflexivity|]. split; [now apply same_config_trans with (self s1)|].
    apply Forall_app. split; [assumption|].
    eapply Forall_impl; [|exact F2]. intros e He. now apply (P_config _ (self s1)).
Qed.

Lemma keeps_for_each {A} (xs : list A) (body : A -> M unit) :
  (forall x, keeps P (body x)) -> keeps P (for_each xs body).
Proof.
  intro Hb. induction xs as [|x xs IH]; cbn [for_each].
  - apply keeps_ret.
  - apply keeps_bind; [apply Hb | intros _; exact IH].
Qed.

End Keeps.

Ltac kept :=
  repeat first
    [ assumption
    | apply keeps_ret
    | apply keeps_lift
    | apply keeps_raise
    | apply keeps_get_self
    | apply keeps_set_user_uid
    | apply keeps_set_wallet_address
    | apply keeps_bind; [ assumption | | intro ]
    | apply keeps_try; [ assumption | | ]
    | apply keeps_for_each; [ assumption | intro ]
    | match goal with
      | |- keeps _ (if ?c then _ else _) => destruct c
      | |- keeps _ (match ?x with _ => _ end) => destruct x
      end ].

Section PollKeeps.

Variable P : Bot -> event -> Prop.
Hypothesis P_config : forall b b' e, same_config b b' -> P b' e -> P b e.
Variable env : Env.
Variable payment_id : value.
Hypothesis P_status :
  forall b, P b (Http (pi_api_base_url b) (access_token b) (GetPayment payment_id)).
Hypothesis P_complete :
  forall b, P b (Http (pi_api_base_url b) (access_token b) (PostComplete payment_id)).
Hypothesis P_sleep : forall b, P b (Sleep 10).

Lemma get_payment_status_keeps : keeps P (get_payment_status env payment_id).
Proof.
  unfold get_payment_status. kept. now apply keeps_requests_call.
Qed.

Lemma _complete_payment_keeps : keeps P (_complete_payment env payment_id).
Proof.
  unfold _complete_payment. kept. now apply keeps_requests_call.
Qed.

Lemma poll_once_keeps : keeps P (poll_once env payment_id).
Proof.
  unfold poll_once, complete_payment.
  apply keeps_bind; [assumption | apply get_payment_status_keeps | intro payment_status].
  destruct (truthy payment_status); [|apply keeps_ret].
  apply keeps_bind; [assumption | apply keeps_lift | intro status].
  apply keeps_bind; [assumption | apply keeps_lift | intro verified].
  apply keeps_bind; [assumption | kept | intro ready].
  apply keeps_bind; [assumption | | intro done; kept].
  destruct ready; [|apply keeps_ret].
  apply keeps_bind; [assumption | apply keeps_lift | intro transaction].
  apply keeps_bind; [assumption | apply keeps_lift | intro txid].
  apply _complete_payment_keeps.
Qed.

Lemma poll_loop_keeps n : keeps P (poll_loop env payment_id n).
Proof.
  induction n as [|n IH]; cbn [poll_loop]; [apply keeps_ret|].
  apply keeps_bind; [assumption | apply poll_once_keeps | intros [b|]].
  - apply keeps_ret.
  - apply keeps_bind; [assumption | | intros _; exact IH].
    apply keeps_emit. exact P_sleep.
Qed.

End PollKeeps.

Lemma orderly_plain amount b r :
  is_creation r = false ->
  orderly amount b (Http (pi_api_base_url b) (access_token b) r).
Proof. intro H. cbn. repeat split. destruct r; try exact I. discriminate. Qed.

Section OrderlyRun.

Variable env : Env.
Variable amount : float.

Let P := orderly amount.

Lemma orderly_respects : forall b b' e, same_config b b' -> P b' e -> P b e.
Proof. intros b b' e. apply orderly_config. Qed.

Lemma plain_request_keeps r :
  is_creation r = false -> keeps P (requests_call env r).
Proof. intro H. apply keeps_requests_call. intro b. now apply orderly_plain. Qed.

Lemma get_user_info_keeps : keeps P (get_user_info env).
Proof.
  pose proof orderly_respects as HP. unfold get_user_info.
  apply keeps_try; [assumption | | apply keeps_ret].
  apply keeps_bind; [assumption | now apply plain_request_keeps | intro response].
  kept.
Qed.

Lemma get_available_balance_keeps : keeps P (get_available_balance env).
Proof.
  pose proof orderly_respects as HP. unfold get_available_balance, get_wallet_balance.
  apply keeps_bind; [assumption | | intro balance_data; kept].
  apply keeps_bind; [assumption | apply keeps_get_self | intro b].
  destruct (negb (truthy (wallet_address b))); [apply keeps_ret|].
  apply keeps_try; [assumption | | apply keeps_ret].
  apply keeps_bind; [assumption | now apply plain_request_keeps | intro response].
  kept.
Qed.

Lemma confirm_unlock_keeps : keeps P (confirm_unlock env).
Proof.
  pose proof orderly_respects as HP. unfold confirm_unlock, get_pending_payments.
  apply keeps_try; [assumption | | apply keeps_ret].
  apply keeps_bind; [assumption | | intro pending_payments].
  { apply keeps_try; [assumption | | apply keeps_ret].
    apply keeps_bind; [assumption | now apply plain_request_keeps | intro response].
    kept. }
  destruct (negb (truthy pending_payments)); [apply keeps_ret|].
  apply keeps_bind; [assumption | apply keeps_lift | intro payments].
  apply keeps_bind; [assumption | | intros _; apply keeps_ret].
  apply keeps_for_each; [assumption | intro payment]. unfold sweep_one.
  apply keeps_bind; [assumption | apply keeps_lift | intro status].
  apply keeps_bind; [assumption | apply keeps_lift | intro completed].
  destruct (negb (truthy completed)); [|apply keeps_ret].
  apply keeps_bind; [assumption | apply keeps_lift | intro payment_id].
  apply keeps_bind; [assumption | | intros _; apply keeps_ret].
  apply _complete_payment_keeps; [assumption|]. intro b. now apply orderly_plain.
Qed.

Lemma create_payment_keeps recipient :
  keeps P (create_payment env recipient amount (TransferMemo amount)).
Proof.
  intro s.
  destruct (String.eqb_spec recipient (allowed_recipient (self s))) as [->|Hne].
  - rewrite create_payment_allowed. eexists. cbn [snd record history self].
    split; [reflexivity|]. split; [apply same_config_refl|].
    constructor; [|constructor]. cbn. repeat split.
  - rewrite create_payment_denied by assumption. exists []. cbn. rewrite app_nil_r.
    split; [reflexivity|]. split; [apply same_config_refl | constructor].
Qed.

Lemma execute_transfer_keeps recipient :
  keeps P (execute_transfer env recipient amount).
Proof.
  pose proof orderly_respects as HP. unfold execute_transfer.
  apply keeps_try; [assumption | | apply keeps_ret].
  apply keeps_bind; [assumption | apply create_payment_keeps | intro payment_id].
  destruct (negb (truthy payment_id)); [apply keeps_ret|].
  apply keeps_bind; [assumption | | intro approved].
  { unfold approve_payment.
    apply keeps_try; [assumption | | apply keeps_ret].
    apply keeps_bind; [assumption | now apply plain_request_keeps | intro response].
    kept. }
  destruct (negb approved); [apply keeps_ret|].
  apply poll_loop_keeps; try assumption; intro b; try exact I; now apply orderly_plain.
Qed.

End OrderlyRun.

Section OrderlyCycle.

Variable env : Env.

Let P := orderly TRANSFER_AMOUNT.

Lemma check_and_transfer_keeps : keeps P (check_and_transfer env).
Proof.
  pose proof (orderly_respects TRANSFER_AMOUNT) as HP. unfold check_and_transfer.
  apply keeps_try; [assumption | | apply keeps_ret].
  apply keeps_bind; [assumption | apply keeps_get_self | intro b].
  apply keeps_bind; [assumption | | intro authenticated].
  { destruct (negb (truthy (wallet_address b))); [|apply keeps_ret].
    apply keeps_bind; [assumption | apply get_user_info_keeps | intro; apply keeps_ret]. }
  destruct (negb authenticated); [apply keeps_ret|].
  apply keeps_bind; [assumption | apply confirm_unlock_keeps | intros _].
  apply keeps_bind; [assumption | apply get_available_balance_keeps | intro available].
  destruct (fge available REQUIRED_BALANCE); [|apply keeps_ret].
  apply keeps_bind; [assumption | apply keeps_get_self | intro b'].
  apply keeps_bind; [assumption | apply execute_transfer_keeps | intro success; kept].
Qed.

Lemma datetime_now_keeps : keeps P (datetime_now env).
Proof.
  intro s. exists [Now]. cbn.
  split; [reflexivity|]. split; [apply same_config_refl | now repeat constructor].
Qed.

Lemma time_sleep_keeps n : keeps P (time_sleep n).
Proof. apply keeps_emit. intro b. exact I. Qed.

Lemma loop_body_keeps : keeps P (loop_body env).
Proof.
  pose proof (orderly_respects TRANSFER_AMOUNT) as HP. unfold loop_body.
  apply keeps_try; [assumption | | ].
  2:{ apply keeps_bind; [assumption | apply time_sleep_keeps | intros _; apply keeps_ret]. }
  apply keeps_bind; [assumption | apply datetime_now_keeps | intro current_time].
  apply keeps_bind; [assumption | | intro reached].
  { unfold is_target_time_reached.
    apply keeps_bind; [assumption | apply datetime_now_keeps | intro; apply keeps_ret]. }
  destruct reached.
  - apply keeps_bind; [assumption | apply check_and_transfer_keeps | intro ok; kept].
  - apply keeps_bind; [assumption | apply check_and_transfer_keeps | intro ok].
    destruct ok; [apply keeps_ret|].
    destruct (300 * 1000000 <? TARGET_DATETIME - current_time);
      (apply keeps_bind; [assumption | apply time_sleep_keeps | intros _; apply keeps_ret]).
Qed.

Lemma monitoring_loop_keeps : forall fuel s r s',
  monitoring_loop env fuel s = Some (r, s') ->
  exists evs,
    history s' = history s ++ evs
    /\ same_config (self s) (self s')
    /\ Forall (P (self s)) evs.
Proof.
  induction fuel as [|fuel IH]; intros s r s' H; [discriminate|].
  cbn [monitoring_loop] in H.
  destruct (loop_body_keeps s) as (e1 & E1 & C1 & F1).
  destruct (loop_body env s) as [[[|]|ex] s1]; cbn [snd] in *.
  - injection H as <- <-. now exists e1.
  - destruct (IH s1 r s' H) as (e2 & E2 & C2 & F2).
    exists (e1 ++ e2). rewrite E2, E1, app_assoc.
    split; [reflexivity|]. split; [now apply same_config_trans with (self s1)|].
    apply Forall_app. split; [assumption|].
    eapply Forall_impl; [|exact F2]. intros e He.
    now apply (orderly_respects TRANSFER_AMOUNT _ (self s1)).
  - injection H as <- <-. now exists e1.
Qed.

End OrderlyCycle.

(** ** The workflow, step by step *)

Lemma next_after_other env ep s e :
  match e with Http _ _ r => endpoint_eqb (endpoint_of r) ep | _ => false end = false ->
  next env ep (record [e] s) = next env ep s.
Proof. intro H. unfold next. cbn [record history]. now rewrite calls_after_other. Qed.

(** A poll that reports verified-and-uncompleted without a transaction
    record: reading the [txid] raises before any completion is sent. *)
Lemma poll_once_no_transaction env payment_id s v :
  body_or_none (next env EpStatus s) = Ok v ->
  verified_uncompleted v = true ->
  has_transaction_record v = false ->
  poll_once env payment_id s =
  (Raise AttributeError, record [sent s (GetPayment payment_id)] s).
Proof.
  intros Hv Hvu Htx. unfold poll_once, bind at 1. rewrite get_payment_status_eq, Hv.
  unfold verified_uncompleted, status_flag, has_transaction_record in *.
  destruct v as [| | | | | |dv];
    try (cbn in Hvu; rewrite ?andb_false_r in Hvu; discriminate).
  destruct (truthy (VDict dv)) eqn:Tv; [|discriminate]. cbn [andb] in Hvu.
  unfold bind at 1, lift at 1. cbn [get] in *.
  destruct (match lookup dv "status" with Some x => x | None => VDict [] end)
    as [| | | | | |d]; try discriminate.
  unfold bind at 1, lift at 1. cbn [get] in *.
  destruct (truthy (match lookup d "transaction_verified" with
                    | Some x => x | None => VNone end)); [|discriminate].
  cbn in Hvu. unfold bind at 1. unfold bind at 1, lift at 1, ret at 1.
  destruct (truthy (match lookup d "developer_completed" with
                    | Some x => x | None => VNone end)); [discriminate|].
  cbn [negb]. unfold bind at 1. unfold bind at 1, lift at 1.
  destruct (match lookup dv "transaction" with Some x => x | None => VDict [] end);
    try discriminate; reflexivity.
Qed.

Lemma poll_once_refused env payment_id s :
  ok_200 (next env EpComplete s) = false ->
  fst (poll_once env payment_id s) <> Ok (Some true).
Proof.
  intro Hno.
  destruct (reports verified_uncompleted (body_or_none (next env EpStatus s))) eqn:Hvu.
  - destruct (body_or_none (next env EpStatus s)) as [v|e] eqn:Hv; [|discriminate].
    cbn in Hvu. destruct (has_transaction_record v) eqn:Htx.
    + rewrite (poll_once_verified env payment_id s v Hv Hvu Htx), Hno. cbn.
      destruct (cancelled v); discriminate.
    + rewrite (poll_once_no_transaction env payment_id s v Hv Hvu Htx). discriminate.
  - destruct (poll_once_unverified env payment_id s Hvu) as (r & E & Hne & _).
    now rewrite E.
Qed.

Lemma poll_loop_refused env payment_id :
  (forall k, ok_200 (reply env EpComplete k) = false) ->
  forall n s, fst (poll_loop env payment_id n s) <> Ok true.
Proof.
  intros Hno. induction n as [|n IH]; intro s; cbn [poll_loop]; [discriminate|].
  unfold bind at 1.
  pose proof (poll_once_refused env payment_id s (Hno _)) as Hne.
  destruct (poll_once env payment_id s) as [[[[|]|]|e] s1]; cbn [fst] in *.
  - now contradiction Hne.
  - discriminate.
  - unfold bind, time_sleep, emit. apply IH.
  - discriminate.
Qed.

(** [execute_transfer] fails as soon as the polling loop does not succeed. *)
Lemma execute_transfer_result env recipient amount s :
  (forall payment_id s2, fst (poll_loop env payment_id max_attempts s2) <> Ok true) ->
  fst (execute_transfer env recipient amount s) = Ok false.
Proof.
  intro Hloop. unfold execute_transfer, try_except, bind at 1.
  destruct (create_payment env recipient amount (TransferMemo amount) s)
    as [[payment_id|e] s1]; [|reflexivity].
  destruct (truthy payment_id); cbn [negb]; [|reflexivity].
  unfold bind at 1.
  destruct (approve_payment env payment_id s1) as [[approved|e] s2]; [|reflexivity].
  destruct approved; cbn [negb]; [|reflexivity].
  specialize (Hloop payment_id s2).
  destruct (poll_loop env payment_id max_attempts s2) as [[[|]|e] s3]; cbn [fst] in *;
    [now contradiction Hloop | reflexivity | reflexivity].
Qed.

(** ** The payment workflow *)

(** X1.  With a recipient other than the allowed one, [execute_transfer]
    returns [False] and leaves the state as it was: no request at all is
    sent. *)
Theorem foreign_recipient_sends_nothing env recipient amount s :
  recipient <> allowed_recipient (self s) ->
  execute_transfer env recipient amount s = (Ok false, s).
Proof.
  intro Hne. unfold execute_transfer, try_except, bind at 1.
  now rewrite create_payment_denied.
Qed.

Lemma foreign_recipient_sends_nothing_witness :
  execute_transfer Sample.last_chance "GBSOMEONEELSE00000000001" TRANSFER_AMOUNT
    Sample.start = (Ok false, Sample.start).
Proof.
  apply (foreign_recipient_sends_nothing Sample.last_chance
           "GBSOMEONEELSE00000000001" TRANSFER_AMOUNT Sample.start).
  discriminate.
Defined.

(** X2.  The workflow stops before any polling when the creation gives no
    usable identifier (the call fails, or the answer has no truthy
    [identifier]): only the creation request is sent.  It also stops when
    the approval is not answered by 200: only the creation and the
    approval are sent.  Both return [False]. *)
Theorem workflow_aborts_before_polling env amount s :
  let create := PostPayment amount (TransferMemo amount)
                  (allowed_recipient (self s)) (user_uid (self s)) in
  let payment_id := created (next env EpCreate s) in
  (truthy payment_id = false ->
   execute_transfer env (allowed_recipient (self s)) amount s =
   (Ok false, record [sent s create] s))
  /\ (truthy payment_id = true ->
      ok_200 (next env EpApprove s) = false ->
      execute_transfer env (allowed_recipient (self s)) amount s =
      (Ok false, record [sent s create; sent s (PostApprove payment_id)] s)).
Proof.
  intros create payment_id. split.
  - intro Hid. unfold execute_transfer, try_except, bind at 1.
    rewrite create_payment_allowed. fold payment_id. now rewrite Hid.
  - intros Hid Hap. unfold execute_transfer, try_except, bind at 1.
    rewrite create_payment_allowed. fold payment_id create. rewrite Hid. cbn [negb].
    unfold bind at 1. rewrite approve_payment_eq, next_after_other by reflexivity.
    rewrite Hap, record_record. reflexivity.
Qed.

Lemma workflow_aborts_before_polling_witness :
  execute_transfer Sample.no_identifier (allowed_recipient Sample.bot)
    TRANSFER_AMOUNT Sample.start =
    (Ok false, record [sent Sample.start Sample.create] Sample.start)
  /\ execute_transfer Sample.approval_refused (allowed_recipient Sample.bot)
       TRANSFER_AMOUNT Sample.start =
     (Ok false,
      record [sent Sample.start Sample.create; sent Sample.start Sample.approve]
        Sample.start).
Proof.
  split.
  - apply (proj1 (workflow_aborts_before_polling Sample.no_identifier
                    TRANSFER_AMOUNT Sample.start)).
    reflexivity.
  - apply (proj2 (workflow_aborts_before_polling Sample.approval_refused
                    TRANSFER_AMOUNT Sample.start)); reflexivity.
Defined.

(** X3.  [execute_transfer] returns [True] only through an accepted
    completion: on a platform that never answers a completion by 200, it
    returns [False], whoever the recipient and whatever the polls report. *)
Theorem success_needs_accepted_completion env recipient amount s :
  (forall k, ok_200 (reply env EpComplete k) = false) ->
  fst (execute_transfer env recipient amount s) = Ok false.
Proof.
  intro Hno. apply execute_transfer_result.
  intros payment_id s2. now apply poll_loop_refused.
Qed.

Lemma success_needs_accepted_completion_witness :
  fst (execute_transfer Sample.completion_always_refused
         (allowed_recipient Sample.bot) TRANSFER_AMOUNT Sample.start) = Ok false.
Proof.
  apply (success_needs_accepted_completion Sample.completion_always_refused
           (allowed_recipient Sample.bot) TRANSFER_AMOUNT Sample.start).
  intro k. reflexivity.
Defined.

(** X4.  After the creation request, everything [execute_transfer] does is
    about the payment that the creation returned: it approves, polls and
    completes that identifier and no other, and its only pauses are of
    10. *)
Theorem workflow_follows_created_payment env amount s :
  exists evs,
    history (snd (execute_transfer env (allowed_recipient (self s)) amount s)) =
    history s ++ sent s (PostPayment amount (TransferMemo amount)
                           (allowed_recipient (self s)) (user_uid (self s))) :: evs
    /\ Forall (workflow_step (created (next env EpCreate s)) (self s)) evs.
Proof.
  unfold execute_transfer, try_except, bind at 1.
  rewrite create_payment_allowed.
  set (payment_id := created (next env EpCreate s)).
  set (create := PostPayment _ _ _ _).
  destruct (truthy payment_id); cbn [negb].
  2:{ exists []. split; [reflexivity | constructor]. }
  unfold bind at 1. rewrite approve_payment_eq, record_record. cbn [app].
  assert (Hstep : workflow_step payment_id (self s)
                    (sent (record [sent s create] s) (PostApprove payment_id)))
    by reflexivity.
  destruct (ok_200 _); cbn [negb].
  2:{ eexists. cbn. split; [reflexivity | now repeat constructor]. }
  destruct (poll_loop_keeps (workflow_step payment_id)) with
    (env := env) (payment_id := payment_id) (n := max_attempts)
    (s := record [sent s create;
                  sent (record [sent s create] s) (PostApprove payment_id)] s)
    as (evs & Hlog & _ & Hall); try (intros; exact eq_refl); try (intros; assumption).
  destruct (poll_loop env payment_id max_attempts _) as [[ok|e] s'];
    unfold is_Exception, ret; cbn [snd] in *; rewrite Hlog; cbn [record history];
    rewrite <- app_assoc; eexists; (split; [reflexivity|]);
    (constructor; [exact Hstep | exact Hall]).
Qed.

(** ** What never happens in a run *)

Lemma run_scheduled_check_keeps env :
  keeps (orderly TRANSFER_AMOUNT) (run_scheduled_check env).
Proof.
  pose proof (orderly_respects TRANSFER_AMOUNT) as HP. unfold run_scheduled_check.
  apply keeps_bind; [assumption | | intros _].
  { unfold is_target_time_reached.
    apply keeps_bind; [assumption | apply datetime_now_keeps | intro; apply keeps_ret]. }
  apply keeps_bind; [assumption | apply check_and_transfer_keeps | intro; apply keeps_ret].
Qed.

Lemma run_monitoring_loop_keeps env fuel s r s' :
  run_monitoring_loop env fuel s = Some (r, s') ->
  exists evs,
    history s' = history s ++ evs
    /\ same_config (self s) (self s')
    /\ Forall (orderly TRANSFER_AMOUNT (self s)) evs.
Proof.
  unfold run_monitoring_loop. intro H.
  destruct (get_user_info_keeps env TRANSFER_AMOUNT s) as (e1 & E1 & C1 & F1).
  destruct (get_user_info env s) as [[user_info|ex] s1]; cbn [snd] in *.
  - destruct (negb (truthy user_info)).
    + injection H as <- <-. now exists e1.
    + destruct (monitoring_loop_keeps env fuel s1 r s' H) as (e2 & E2 & C2 & F2).
      exists (e1 ++ e2). rewrite E2, E1, app_assoc.
      split; [reflexivity|]. split; [now apply same_config_trans with (self s1)|].
      apply Forall_app. split; [assumption|].
      eapply Forall_impl; [|exact F2]. intros e He.
      now apply (orderly_respects TRANSFER_AMOUNT _ (self s1)).
  - injection H as <- <-. now exists e1.
Qed.

(** X5.  In a cycle, in an iteration of the monitoring loop, in a scheduled
    check and in a whole monitoring run, every request goes to the bot's
    base URL with the bot's access token, every payment creation is for
    the allowed recipient and the amount 1650.0, and the settings of the
    bot (token, recipient, app id and secret, base URL, sandbox flag) are
    never changed. *)
Theorem requests_are_orderly env :
  keeps (orderly TRANSFER_AMOUNT) (check_and_transfer env)
  /\ keeps (orderly TRANSFER_AMOUNT) (loop_body env)
  /\ keeps (orderly TRANSFER_AMOUNT) (run_scheduled_check env)
  /\ (forall fuel s r s',
        run_monitoring_loop env fuel s = Some (r, s') ->
        exists evs,
          history s' = history s ++ evs
          /\ same_config (self s) (self s')
          /\ Forall (orderly TRANSFER_AMOUNT (self s)) evs).
Proof.
  split; [apply check_and_transfer_keeps|].
  split; [apply loop_body_keeps|].
  split; [apply run_scheduled_check_keeps|].
  intros fuel s r s'. apply run_monitoring_loop_keeps.
Qed.

Lemma requests_are_orderly_witness :
  exists r s' evs,
    run_monitoring_loop Sample.last_chance 1 Sample.fresh = Some (r, s')
    /\ history s' = history Sample.fresh ++ evs
    /\ same_config (self Sample.fresh) (self s')
    /\ Forall (orderly TRANSFER_AMOUNT (self Sample.fresh)) evs.
Proof.
  destruct (run_monitoring_loop Sample.last_chance 1 Sample.fresh)
    as [[r s']|] eqn:E; [|vm_compute in E; discriminate].
  destruct (proj2 (proj2 (proj2 (requests_are_orderly Sample.last_chance)))
              1%nat Sample.fresh r s' E) as (evs & H1 & H2 & H3).
  exists r, s', evs.
  split; [reflexivity|]. split; [exact H1|]. split; [exact H2 | exact H3].
Defined.

Lemma loop_body_total env s :
  exists c s', loop_body env s = (Ok c, s').
Proof.
  unfold loop_body, try_except, is_Exception.
  match goal with |- context [match ?b s with _ => _ end] => destruct (b s) as [[c|e] s1] end.
  - eauto.
  - unfold bind, time_sleep, emit, ret. eauto.
Qed.

Lemma monitoring_loop_never_raises env : forall fuel s r s',
  monitoring_loop env fuel s = Some (r, s') -> r = Ok tt.
Proof.
  induction fuel as [|fuel IH]; intros s r s' H; [discriminate|].
  cbn [monitoring_loop] in H.
  destruct (loop_body_total env s) as (c & s1 & E). rewrite E in H.
  destruct c; [now injection H as <- _ | now apply (IH s1 r s')].
Qed.

(** X6.  Whatever the platform answers, no exception leaves
    [create_payment], [confirm_unlock], [execute_transfer],
    [check_and_transfer], an iteration of the monitoring loop or a
    scheduled check; the monitoring loop itself can only end by a
    return. *)
Theorem no_exception_escapes env s :
  (forall recipient amount memo,
      exists v s', create_payment env recipient amount memo s = (Ok v, s'))
  /\ (exists ok s', confirm_unlock env s = (Ok ok, s'))
  /\ (forall recipient amount,
        exists ok s', execute_transfer env recipient amount s = (Ok ok, s'))
  /\ (exists ok s', check_and_transfer env s = (Ok ok, s'))
  /\ (exists c s', loop_body env s = (Ok c, s'))
  /\ (exists s', run_scheduled_check env s = (Ok tt, s'))
  /\ (forall fuel r s', monitoring_loop env fuel s = Some (r, s') -> r = Ok tt).
Proof.
  split; [intros; apply try_except_total|].
  split; [apply try_except_total|].
  split; [intros; apply execute_transfer_total|].
  split; [apply check_and_transfer_total|].
  split; [apply loop_body_total|].
  split.
  - unfold run_scheduled_check, is_target_time_reached, bind, datetime_now, ret.
    match goal with
    | |- context [check_and_transfer env ?st] =>
        destruct (check_and_transfer_total env st) as (ok & s' & E); rewrite E
    end.
    eauto.
  - intros fuel r s'. apply monitoring_loop_never_raises.
Qed.

Lemma no_exception_escapes_witness :
  exists r s',
    monitoring_loop Sample.last_chance 1 Sample.start = Some (r, s') /\ r = Ok tt.
Proof.
  destruct (monitoring_loop Sample.last_chance 1 Sample.start)
    as [[r s']|] eqn:E; [|vm_compute in E; discriminate].
  exists r, s'. split; [reflexivity|].
  exact (proj2 (proj2 (proj2 (proj2 (proj2 (proj2
           (no_exception_escapes Sample.last_chance Sample.start))))))
           1%nat r s' E).
Defined.

(** ** Identity lookup *)

(** X7.  A successful identity lookup (HTTP 200 with an object) returns
    that object and assigns the bot's user id and wallet address from its
    [uid] and [wallet_address] fields, [None] for a field that is absent:
    a wallet address known before is overwritten. *)
Theorem identity_is_stored env s r d :
  next env EpMe s = Response r ->
  status_code r = 200 ->
  json r = Ok (VDict d) ->
  let field name := match lookup d name with Some x => x | None => VNone end in
  get_user_info env s =
  (Ok (VDict d),
   {| self := set_wallet_address (field "wallet_address")
                (set_user_uid (field "uid") (self s));
      history := history s ++ [sent s GetMe] |}).
Proof.
  intros Hr Hcode Hjson field. unfold get_user_info; run.
  unfold next in Hr. rewrite Hr. cbn. rewrite Hcode, Hjson. reflexivity.
Qed.

Lemma identity_is_stored_witness :
  get_user_info Sample.no_wallet Sample.start =
  (Ok (VDict [("uid", VStr "user-2")]),
   {| self := set_wallet_address VNone (set_user_uid (VStr "user-2") Sample.bot);
      history := [sent Sample.start GetMe] |}).
Proof.
  refine (identity_is_stored Sample.no_wallet Sample.start
            {| status_code := 200; json := Ok (VDict [("uid", VStr "user-2")]) |}
            [("uid", VStr "user-2")] _ _ _); reflexivity.
Defined.

(** X8.  An identity answer of HTTP 200 whose body is not an object makes
    [get_user_info] raise [AttributeError]: the handler for request errors
    does not catch it.  The bot is left as it was. *)
Theorem identity_must_be_an_object env s r v :
  next env EpMe s = Response r ->
  status_code r = 200 ->
  json r = Ok v ->
  (forall d, v <> VDict d) ->
  get_user_info env s = (Raise AttributeError, record [sent s GetMe] s).
Proof.
  intros Hr Hcode Hjson Hv. unfold get_user_info; run.
  unfold next in Hr. rewrite Hr. cbn. rewrite Hcode, Hjson.
  destruct v; try reflexivity. now contradiction (Hv d).
Qed.

Lemma identity_must_be_an_object_witness :
  get_user_info Sample.odd_identity Sample.start =
  (Raise AttributeError, record [sent Sample.start GetMe] Sample.start).
Proof.
  refine (identity_must_be_an_object Sample.odd_identity Sample.start
            {| status_code := 200; json := Ok (VList [VStr "unexpected"]) |}
            (VList [VStr "unexpected"]) _ _ _ _); try reflexivity.
  intros d H. discriminate H.
Defined.

(** ** Listing the pending payments *)

(** X9.  When the listing of pending payments fails (network error or a
    status other than 200), or succeeds with an object that has no
    [payments] field, [confirm_unlock] returns [True] having sent the
    listing request only: a failed listing is not told apart from an
    empty one.  When the listing succeeds with a body that is not an
    object, it returns [False], again with no completion sent. *)
Theorem failed_listing_is_nothing_pending env s :
  (failed [200] (next env EpPending s) = true ->
   confirm_unlock env s = (Ok true, record [sent s GetPendingPayments] s))
  /\ (forall r d,
        next env EpPending s = Response r ->
        status_code r = 200 ->
        json r = Ok (VDict d) ->
        lookup d "payments" = None ->
        confirm_unlock env s = (Ok true, record [sent s GetPendingPayments] s))
  /\ (forall r v,
        next env EpPending s = Response r ->
        status_code r = 200 ->
        json r = Ok v ->
        (forall d, v <> VDict d) ->
        confirm_unlock env s = (Ok false, record [sent s GetPendingPayments] s)).
Proof.
  split; [|split].
  - intro H. apply failed_200 in H.
    unfold confirm_unlock, try_except, bind at 1. rewrite get_pending_payments_eq.
    destruct H as [-> | (r & -> & Hcode)]; [reflexivity | now rewrite Hcode].
  - intros r d Hr Hcode Hjson Hnone.
    unfold confirm_unlock, try_except, bind at 1.
    rewrite get_pending_payments_eq, Hr, Hcode, Hjson. cbn. now rewrite Hnone.
  - intros r v Hr Hcode Hjson Hv.
    unfold confirm_unlock, try_except, bind at 1.
    rewrite get_pending_payments_eq, Hr, Hcode, Hjson. cbn.
    destruct v; try reflexivity. now contradiction (Hv d).
Qed.

Lemma failed_listing_is_nothing_pending_witness :
  confirm_unlock Sample.offline Sample.start =
    (Ok true, record [sent Sample.start GetPendingPayments] Sample.start)
  /\ confirm_unlock Sample.nothing_listed Sample.start =
     (Ok true, record [sent Sample.start GetPendingPayments] Sample.start)
  /\ confirm_unlock Sample.odd_identity Sample.start =
     (Ok false, record [sent Sample.start GetPendingPayments] Sample.start).
Proof.
  split; [|split].
  - apply (proj1 (failed_listing_is_nothing_pending Sample.offline Sample.start)).
    reflexivity.
  - refine (proj1 (proj2 (failed_listing_is_nothing_pending Sample.nothing_listed
                            Sample.start))
              {| status_code := 200; json := Ok (VDict [("total", VInt 0)]) |}
              [("total", VInt 0)] _ _ _ _); reflexivity.
  - refine (proj2 (proj2 (failed_listing_is_nothing_pending Sample.odd_identity
                            Sample.start))
              {| status_code := 200; json := Ok (VList [VStr "unexpected"]) |}
              (VList [VStr "unexpected"]) _ _ _ _); try reflexivity.
    intros d H. discriminate H.
Defined.

(** ** Reading the balance *)

Lemma get_available_balance_object env s s' d :
  get_wallet_balance env s = (Ok (VDict d), s') ->
  d <> [] ->
  get_available_balance env s =
  (to_float (float_of_str env)
            (match lookup d "available" with Some x => x | None => VInt 0 end),
   s').
Proof.
  intros Hread Hd. unfold get_available_balance, bind at 1. rewrite Hread.
  assert (Ht : truthy (VDict d) = true) by (destruct d; [congruence | reflexivity]).
  rewrite Ht. unfold bind, lift. cbn [get]. reflexivity.
Qed.

(** X10.  On a successful balance answer (HTTP 200 with an object) of an
    authenticated bot: an empty object and an object without an
    [available] field both read as [0.0]; a float is read as it is;
    [null], a list or an object makes [get_available_balance] raise
    [TypeError]. *)
Theorem balance_field_is_converted env s r d :
  truthy (wallet_address (self s)) = true ->
  next env EpBalance s = Response r ->
  status_code r = 200 ->
  json r = Ok (VDict d) ->
  let s' := record [sent s (GetBalance (wallet_address (self s)))] s in
  (d = [] \/ lookup d "available" = None ->
   get_available_balance env s = (Ok (float_of_Z 0), s'))
  /\ (forall f, d <> [] -> lookup d "available" = Some (VFloat f) ->
      get_available_balance env s = (Ok f, s'))
  /\ (forall v, d <> [] -> lookup d "available" = Some v ->
      v = VNone \/ (exists l, v = VList l) \/ (exists o, v = VDict o) ->
      get_available_balance env s = (Raise TypeError, s')).
Proof.
  intros Hw Hr Hcode Hjson s'.
  assert (Hread : get_wallet_balance env s = (Ok (VDict d), s')).
  { rewrite get_wallet_balance_eq, Hw, Hr. cbn. now rewrite Hcode, Hjson. }
  split; [|split].
  - intros [-> | Hnone].
    + unfold get_available_balance, bind at 1. now rewrite Hread.
    + destruct d as [|kv d'] eqn:Hd.
      * unfold get_available_balance, bind at 1. now rewrite Hread.
      * rewrite (get_available_balance_object env s s' _ Hread) by discriminate.
        now rewrite Hnone.
  - intros f Hd Hf. rewrite (get_available_balance_object env s s' d Hread Hd).
    now rewrite Hf.
  - intros v Hd Hv Hkind.
    rewrite (get_available_balance_object env s s' d Hread Hd), Hv.
    destruct Hkind as [-> | [(l & ->) | (o & ->)]]; reflexivity.
Qed.

Lemma balance_field_is_converted_witness :
  get_available_balance Sample.no_available_field Sample.start =
    (Ok (float_of_Z 0),
     record [sent Sample.start (GetBalance (VStr "GBWALLET"))] Sample.start)
  /\ get_available_balance Sample.funded Sample.start =
     (Ok (decimal 165001 100),
      record [sent Sample.start (GetBalance (VStr "GBWALLET"))] Sample.start)
  /\ get_available_balance Sample.null_balance Sample.start =
     (Raise TypeError,
      record [sent Sample.start (GetBalance (VStr "GBWALLET"))] Sample.start).
Proof.
  split; [|split].
  - refine (proj1 (balance_field_is_converted Sample.no_available_field Sample.start
                     {| status_code := 200; json := Ok (VDict [("locked", VInt 5)]) |}
                     [("locked", VInt 5)] _ _ _ _) _);
      try reflexivity. right. reflexivity.
  - refine (proj1 (proj2 (balance_field_is_converted Sample.funded Sample.start
                     {| status_code := 200;
                        json := Ok (VDict [("available", VFloat (decimal 165001 100))]) |}
                     [("available", VFloat (decimal 165001 100))] _ _ _ _))
              (decimal 165001 100) _ _);
      try reflexivity. discriminate.
  - refine (proj2 (proj2 (balance_field_is_converted Sample.null_balance Sample.start
                     {| status_code := 200; json := Ok (VDict [("available", VNone)]) |}
                     [("available", VNone)] _ _ _ _))
              VNone _ _ _);
      try reflexivity; [discriminate | now left].
Defined.

(** X11.  When the balance that a cycle reads cannot be converted to a
    float, the exception ends the cycle: [check_and_transfer] returns
    [False], in the state the balance read left, and no request of the
    payment workflow has been sent. *)
Theorem unconvertible_balance_ends_cycle env s s0 sweep s1 e s2 :
  authenticated env s s0 ->
  confirm_unlock env s0 = (sweep, s1) ->
  get_available_balance env s1 = (Raise e, s2) ->
  check_and_transfer env s = (Ok false, s2)
  /\ exists evs,
       history s2 = history s ++ evs
       /\ forall base bearer r, In (Http base bearer r) evs -> is_workflow r = false.
Proof.
  intros Hauth Hsweep Hbalance. split.
  - rewrite (check_and_transfer_authenticated env s s0 Hauth).
    destruct (confirm_unlock_run env s0) as (ok & payments & Hrun).
    rewrite Hrun in Hsweep. injection Hsweep as <- <-.
    unfold try_except, gate_and_transfer, bind at 1. rewrite Hrun.
    unfold bind at 1. now rewrite Hbalance.
  - destruct (before_the_gate env s0 sweep s1 (Raise e) s2 Hsweep Hbalance)
      as (evs & Hlog & Hnone).
    destruct (authenticated_log env s s0 Hauth) as [H0|H0].
    + exists evs. split; [now rewrite Hlog, H0 | assumption].
    + exists (sent s GetMe :: evs). split.
      * rewrite Hlog, H0, <- app_assoc. reflexivity.
      * intros base bearer r [Heq|Hin]; [|now apply (Hnone base bearer r)].
        unfold sent in Heq. now injection Heq as _ _ <-.
Qed.

Lemma unconvertible_balance_ends_cycle_witness :
  check_and_transfer Sample.null_balance Sample.start =
  (Ok false,
   record [sent Sample.start (GetBalance (VStr "GBWALLET"))]
     (record [sent Sample.start GetPendingPayments] Sample.start)).
Proof.
  assert (Hauth : authenticated Sample.null_balance Sample.start Sample.start)
    by (left; split; reflexivity).
  assert (Hsweep : confirm_unlock Sample.null_balance Sample.start =
                   (Ok true, record [sent Sample.start GetPendingPayments] Sample.start))
    by reflexivity.
  assert (Hbalance :
            get_available_balance Sample.null_balance
              (record [sent Sample.start GetPendingPayments] Sample.start) =
            (Raise TypeError,
             record [sent Sample.start (GetBalance (VStr "GBWALLET"))]
               (record [sent Sample.start GetPendingPayments] Sample.start)))
    by reflexivity.
  exact (proj1 (unconvertible_balance_ends_cycle Sample.null_balance Sample.start
                  _ _ _ _ _ Hauth Hsweep Hbalance)).
Defined.

(** ** The scheduler *)

(** X12.  In an iteration that sees the deadline not yet reached, a cycle
    that transfers ends the loop without any sleep of the scheduler;
    after a cycle that does not, the loop sleeps 300 when more than 300
    seconds remain at the first clock read of the iteration, 60 otherwise
    (so also with exactly 300 seconds left), and goes on. *)
Theorem waiting_policy env s :
  clock env (S (clock_reads (history s))) < TARGET_DATETIME ->
  exists ok s',
    check_and_transfer env (record [Now; Now] s) = (Ok ok, s')
    /\ loop_body env s =
       if ok then (Ok Break, s')
       else (Ok Continue,
             record [Sleep (if 300 * 1000000
                               <? TARGET_DATETIME - clock env (clock_reads (history s))
                            then 300 else 60)] s').
Proof.
  intro Hbefore.
  destruct (check_and_transfer_total env (record [Now; Now] s)) as (ok & s' & Hrun).
  exists ok, s'. split; [assumption|].
  unfold loop_body, try_except, bind at 1, datetime_now at 1.
  unfold bind at 1, is_target_time_reached, bind at 1, datetime_now at 1.
  cbn [history self ret].
  rewrite clock_reads_app.
  change (clock_reads [Now]) with 1%nat. rewrite Nat.add_1_r.
  apply Z.leb_gt in Hbefore. rewrite Hbefore.
  unfold bind at 1.
  change {| self := self s; history := (history s ++ [Now]) ++ [Now] |}
    with (record [Now] (record [Now] s)).
  rewrite record_record. cbn [app]. rewrite Hrun.
  destruct ok; [reflexivity|].
  destruct (300 * 1000000 <? TARGET_DATETIME - clock env (clock_reads (history s)));
    reflexivity.
Qed.

Lemma waiting_policy_witness :
  exists ok s',
    check_and_transfer (Sample.waiting 300) (record [Now; Now] Sample.start) = (Ok ok, s')
    /\ loop_body (Sample.waiting 300) Sample.start =
       if ok then (Ok Break, s')
       else (Ok Continue,
             record [Sleep (if 300 * 1000000
                               <? TARGET_DATETIME
                                  - clock (Sample.waiting 300)
                                      (clock_reads (history Sample.start))
                            then 300 else 60)] s').
Proof.
  apply (waiting_policy (Sample.waiting 300) Sample.start).
  cbn. unfold TARGET_DATETIME. lia.
Defined.

(** X13.  [run_monitoring_loop] returns at once, having sent the identity
    request only, when the initial identity lookup fails or is answered by
    an empty object; no cycle is run, whatever the fuel.  When the answer
    is HTTP 200 with a body that is not an object, the [AttributeError]
    leaves [run_monitoring_loop]. *)
Theorem failed_login_ends_monitoring env s fuel :
  (failed [200] (next env EpMe s) = true ->
   run_monitoring_loop env fuel s = Some (Ok tt, record [sent s GetMe] s))
  /\ (forall r,
        next env EpMe s = Response r ->
        status_code r = 200 ->
        json r = Ok (VDict []) ->
        exists s',
          run_monitoring_loop env fuel s = Some (Ok tt, s')
          /\ history s' = history s ++ [sent s GetMe])
  /\ (forall r v,
        next env EpMe s = Response r ->
        status_code r = 200 ->
        json r = Ok v ->
        (forall d, v <> VDict d) ->
        run_monitoring_loop env fuel s =
        Some (Raise AttributeError, record [sent s GetMe] s)).
Proof.
  split; [|split].
  - intro H. unfold run_monitoring_loop. now rewrite get_user_info_failed.
  - intros r Hr Hcode Hjson. unfold run_monitoring_loop.
    unfold get_user_info; run. unfold next in Hr. rewrite Hr. cbn.
    rewrite Hcode, Hjson. cbn. eexists. split; reflexivity.
  - intros r v Hr Hcode Hjson Hv. unfold run_monitoring_loop.
    unfold get_user_info; run. unfold next in Hr. rewrite Hr. cbn.
    rewrite Hcode, Hjson. destruct v; try reflexivity. now contradiction (Hv d).
Qed.

Lemma failed_login_ends_monitoring_witness :
  run_monitoring_loop Sample.offline 0 Sample.fresh =
    Some (Ok tt, record [sent Sample.fresh GetMe] Sample.fresh)
  /\ run_monitoring_loop Sample.odd_identity 5 Sample.fresh =
     Some (Raise AttributeError, record [sent Sample.fresh GetMe] Sample.fresh).
Proof.
  split.
  - apply (proj1 (failed_login_ends_monitoring Sample.offline Sample.fresh 0)).
    reflexivity.
  - refine (proj2 (proj2 (failed_login_ends_monitoring Sample.odd_identity
                            Sample.fresh 5))
              {| status_code := 200; json := Ok (VList [VStr "unexpected"]) |}
              (VList [VStr "unexpected"]) _ _ _ _); try reflexivity.
    intros d H. discriminate H.
Defined.

(** *** A cycle does not read the clock *)

Lemma bind_same {A B} (m1 m2 : M A) (k1 k2 : A -> M B) s :
  m1 s = m2 s ->
  (forall a s', k1 a s' = k2 a s') ->
  bind m1 k1 s = bind m2 k2 s.
Proof.
  intros Hm Hk. unfold bind. rewrite Hm.
  destruct (m2 s) as [[a|e] s']; [apply Hk | reflexivity].
Qed.

Lemma try_same {A} (body1 body2 : M A) catches (handler1 handler2 : M A) s :
  body1 s = body2 s ->
  (forall s', handler1 s' = handler2 s') ->
  try_except body1 catches handler1 s = try_except body2 catches handler2 s.
Proof.
  intros Hb Hh. unfold try_except. rewrite Hb.
  destruct (body2 s) as [[a|e] s']; [reflexivity|].
  destruct (catches e); [apply Hh | reflexivity].
Qed.

Lemma for_each_same {A} (body1 body2 : A -> M unit) xs s :
  (forall x s', body1 x s' = body2 x s') ->
  for_each xs body1 s = for_each xs body2 s.
Proof.
  intro Hb. revert s.
  induction xs as [|x xs IH]; intro s; [reflexivity|].
  cbn [for_each]. apply bind_same; [apply Hb | intros _ s'; apply IH].
Qed.

Ltac same_step :=
  first [ reflexivity
        | apply try_same
        | apply bind_same
        | apply for_each_same
        | match goal with
          | |- (if ?c then _ else _) _ = (if ?c then _ else _) _ => destruct c
          | |- (match ?x with Some _ => _ | None => _ end) _ = _ => destruct x
          end ].

Section Timeless.

Variables env1 env2 : Env.
Hypothesis same_replies : reply env1 = reply env2.
Hypothesis same_parser : float_of_str env1 = float_of_str env2.

Lemma requests_call_same r s : requests_call env1 r s = requests_call env2 r s.
Proof. unfold requests_call. now rewrite same_replies. Qed.

Ltac same := repeat first [ apply requests_call_same | same_step | intro ].

Lemma get_user_info_same s : get_user_info env1 s = get_user_info env2 s.
Proof. unfold get_user_info. same. Qed.

Lemma get_available_balance_same s :
  get_available_balance env1 s = get_available_balance env2 s.
Proof.
  unfold get_available_balance, get_wallet_balance. rewrite same_parser. same.
Qed.

Lemma _complete_payment_same payment_id s :
  _complete_payment env1 payment_id s = _complete_payment env2 payment_id s.
Proof. unfold _complete_payment. same. Qed.

Lemma confirm_unlock_same s : confirm_unlock env1 s = confirm_unlock env2 s.
Proof.
  unfold confirm_unlock, get_pending_payments, sweep_one.
  repeat first [ apply _complete_payment_same | apply requests_call_same
               | same_step | intro ].
Qed.

Lemma poll_once_same payment_id s :
  poll_once env1 payment_id s = poll_once env2 payment_id s.
Proof.
  unfold poll_once, get_payment_status, complete_payment.
  repeat first [ apply _complete_payment_same | apply requests_call_same
               | same_step | intro ].
Qed.

Lemma poll_loop_same payment_id remaining s :
  poll_loop env1 payment_id remaining s = poll_loop env2 payment_id remaining s.
Proof.
  revert s. induction remaining as [|k IH]; intro s; [reflexivity|].
  cbn [poll_loop].
  repeat first [ apply poll_once_same | apply IH | same_step | intro ].
Qed.

Lemma execute_transfer_same recipient amount s :
  execute_transfer env1 recipient amount s = execute_transfer env2 recipient amount s.
Proof.
  unfold execute_transfer, create_payment, approve_payment. cbv zeta.
  repeat first [ apply poll_loop_same | apply requests_call_same | same_step | intro ].
Qed.

Lemma check_and_transfer_same s :
  check_and_transfer env1 s = check_and_transfer env2 s.
Proof.
  unfold check_and_transfer. cbv zeta.
  repeat first [ apply get_user_info_same | apply confirm_unlock_same
               | apply get_available_balance_same | apply execute_transfer_same
               | same_step | intro ].
Qed.

End Timeless.

(** X14.  Neither a cycle nor a scheduled check depends on the time: on
    the same platform (the same answers to the same requests) two clocks
    give the same result, the same requests and the same bot.  A scheduled
    check reads the clock once and does not use what it reads, so it runs
    its cycle after the deadline as well as before it; the deadline only
    matters to the monitoring loop. *)
Theorem scheduled_check_ignores_deadline env1 env2 s :
  reply env1 = reply env2 ->
  float_of_str env1 = float_of_str env2 ->
  check_and_transfer env1 s = check_and_transfer env2 s
  /\ run_scheduled_check env1 s = run_scheduled_check env2 s
  /\ exists ok s',
       check_and_transfer env1 (record [Now] s) = (Ok ok, s')
       /\ run_scheduled_check env1 s = (Ok tt, s').
Proof.
  intros Hreply Hparser.
  assert (Hrun : forall env,
             run_scheduled_check env s =
             bind (check_and_transfer env) (fun _ => ret tt) (record [Now] s)).
  { intro env. reflexivity. }
  split; [now apply check_and_transfer_same|]. split.
  - rewrite !Hrun. apply bind_same; [now apply check_and_transfer_same | reflexivity].
  - destruct (check_and_transfer_total env1 (record [Now] s)) as (ok & s' & Hok).
    exists ok, s'. split; [assumption|].
    rewrite Hrun. unfold bind. now rewrite Hok.
Qed.

Lemma scheduled_check_ignores_deadline_witness :
  run_scheduled_check Sample.last_chance Sample.fresh =
  run_scheduled_check
    {| reply := reply Sample.last_chance;
       clock := fun _ => 0;
       float_of_str := float_of_str Sample.last_chance |} Sample.fresh.
Proof.
  apply (scheduled_check_ignores_deadline Sample.last_chance
           {| reply := reply Sample.last_chance;
              clock := fun _ => 0;
              float_of_str := float_of_str Sample.last_chance |} Sample.fresh);
    reflexivity.
Defined.

(** ** Start-up of the script *)

(** X15.  Run as a script, the file exits with status 1 as soon as one of
    the four required variables is unset or empty, before anything is
    constructed.  Otherwise it runs [main()], where the only way left for
    the construction to fail is a recipient of fewer than 20 characters,
    which ends the process by a [ValueError]; with a longer recipient the
    bot holds the token and the recipient of the environment and no
    identity yet. *)
Theorem script_guard env e fuel :
  ((exists var, In var required_env_vars
                /\ (e var = None \/ e var = Some ""%string)) ->
   script env e fuel = Exit 1)
  /\ ((forall var, In var required_env_vars ->
                   exists v, e var = Some v /\ v <> ""%string) ->
      script env e fuel = main env e fuel
      /\ forall token recipient,
           e "PI_ACCESS_TOKEN" = Some token ->
           e "ALLOWED_RECIPIENT_ADDRESS" = Some recipient ->
           ((String.length recipient < 20)%nat ->
            main env e fuel = Crashed ValueError)
           /\ ((20 <= String.length recipient)%nat ->
               exists bot,
                 __init__ e = Ok bot
                 /\ access_token bot = token
                 /\ allowed_recipient bot = recipient
                 /\ wallet_address bot = VNone
                 /\ user_uid bot = VNone)).
Proof.
  split.
  - intros (var & Hin & Hvar). unfold script.
    destruct (missing_vars e) as [|x l] eqn:Hm; [|reflexivity].
    destruct (proj1 (missing_vars_nil e) Hm var Hin) as (v & Hv & Hne).
    destruct Hvar as [Hvar|Hvar]; rewrite Hvar in Hv; [discriminate|].
    injection Hv as <-. now contradiction Hne.
  - intro Hset. pose proof (proj2 (missing_vars_nil e) Hset) as Hm.
    split; [unfold script; now rewrite Hm|].
    intros token recipient Htoken Hrecipient.
    destruct (Hset "PI_ACCESS_TOKEN" ltac:(cbn; tauto)) as (v1 & E1 & N1).
    destruct (Hset "ALLOWED_RECIPIENT_ADDRESS" ltac:(cbn; tauto)) as (v2 & E2 & N2).
    destruct (Hset "PI_APP_ID" ltac:(cbn; tauto)) as (v3 & E3 & N3).
    destruct (Hset "PI_APP_SECRET" ltac:(cbn; tauto)) as (v4 & E4 & N4).
    rewrite Htoken in E1. injection E1 as <-.
    rewrite Hrecipient in E2. injection E2 as <-.
    split.
    + intro Hshort. unfold main. rewrite init_rejects; [reflexivity|].
      do 4 right. unfold getenv. now rewrite Hrecipient.
    + intro Hlong.
      assert (Hinit : __init__ e =
                Ok {| access_token := token;
                      allowed_recipient := recipient;
                      app_id := v3;
                      app_secret := v4;
                      pi_api_base_url :=
                        if (lower (getenv e "PI_SANDBOX_MODE" "false") =? "true")%string
                        then "https://api.sandbox.minepi.com"
                        else getenv e "PI_API_BASE_URL" "https://api.minepi.com";
                      sandbox_mode :=
                        (lower (getenv e "PI_SANDBOX_MODE" "false") =? "true")%string;
                      wallet_address := VNone;
                      user_uid := VNone |}).
      { unfold __init__, _validate_configuration, nonempty, getenv.
        rewrite Htoken, Hrecipient, E3, E4.
        cbn [access_token allowed_recipient app_id app_secret].
        apply String.eqb_neq in N1, N2, N3, N4. rewrite N1, N2, N3, N4.
        apply Nat.ltb_ge in Hlong. rewrite Hlong. reflexivity. }
      eexists. split; [exact Hinit|]. repeat split.
Qed.

Lemma script_guard_witness :
  script Sample.offline Sample.empty_secret 3 = Exit 1
  /\ script Sample.offline Sample.configured 3 = main Sample.offline Sample.configured 3
  /\ main Sample.offline Sample.short_recipient 3 = Crashed ValueError.
Proof.
  split; [|split].
  - apply (proj1 (script_guard Sample.offline Sample.empty_secret 3)).
    exists "PI_APP_SECRET". split; [cbn; tauto | right; reflexivity].
  - apply (proj2 (script_guard Sample.offline Sample.configured 3)).
    intros var [<-|[<-|[<-|[<-|[]]]]]; eexists; (split; [reflexivity | discriminate]).
  - refine (proj1 (proj2 (proj2 (script_guard Sample.offline Sample.short_recipient 3) _)
                     "token" "GBSHORT1" _ _) _).
    + intros var [<-|[<-|[<-|[<-|[]]]]]; eexists; (split; [reflexivity | discriminate]).
    + reflexivity.
    + reflexivity.
    + cbn. lia.
Defined.

(** X16.  A constructed bot is in sandbox mode exactly when
    [PI_SANDBOX_MODE], lower-cased, is [true]; it then talks to the sandbox
    URL whatever [PI_API_BASE_URL] says.  Otherwise it talks to
    [PI_API_BASE_URL], the production URL by default. *)
Theorem sandbox_overrides_base_url e bot :
  __init__ e = Ok bot ->
  (lower (getenv e "PI_SANDBOX_MODE" "false") = "true"%string ->
   sandbox_mode bot = true
   /\ pi_api_base_url bot = "https://api.sandbox.minepi.com"%string)
  /\ (lower (getenv e "PI_SANDBOX_MODE" "false") <> "true"%string ->
      sandbox_mode bot = false
      /\ pi_api_base_url bot = getenv e "PI_API_BASE_URL" "https://api.minepi.com").
Proof.
  unfold __init__. intro H.
  destruct (_validate_configuration _); [|discriminate]. injection H as <-.
  cbn [sandbox_mode pi_api_base_url]. split.
  - intro Ht. apply String.eqb_eq in Ht. now rewrite Ht.
  - intro Hf. apply String.eqb_neq in Hf. now rewrite Hf.
Qed.

Lemma sandbox_overrides_base_url_witness :
  exists bot,
    __init__ Sample.configured = Ok bot
    /\ sandbox_mode bot = true
    /\ pi_api_base_url bot = "https://api.sandbox.minepi.com"%string.
Proof.
  eexists. split; [reflexivity|].
  apply (proj1 (sandbox_overrides_base_url Sample.configured _ eq_refl)).
  reflexivity.
Defined.

Lemma try_except_uncaught {A} (body : M A) catches (v : A) s ex s' :
  try_except body catches (ret v) s = (Raise ex, s') -> catches ex = false.
Proof.
  unfold try_except, ret. destruct (body s) as [[a|e] s0]; [discriminate|].
  destruct (catches e) eqn:E; [discriminate|].
  intro H. now inversion H; subst.
Qed.

(** X17.  Started through [main()], the bot can only be ended by an
    exception at start-up: a [ValueError] of the construction, or an
    exception of the initial identity lookup that is not a request error
    (a malformed answer).  Once the monitoring loop has begun, [main()]
    can only return. *)
Theorem crash_only_at_startup env e fuel ex :
  main env e fuel = Crashed ex ->
  (__init__ e = Raise ex /\ ex = ValueError)
  \/ (exists bot,
        __init__ e = Ok bot
        /\ fst (get_user_info env {| self := bot; history := [] |}) = Raise ex
        /\ is_RequestException ex = false).
Proof.
  unfold main. destruct (__init__ e) as [bot|ex0] eqn:Hinit.
  - intro H. right. exists bot. split; [reflexivity|].
    unfold run_monitoring_loop in H.
    destruct (get_user_info env {| self := bot; history := [] |})
      as [[user_info|ex1] s1] eqn:Hlogin.
    + destruct (negb (truthy user_info)); [discriminate|].
      destruct (monitoring_loop env fuel s1) as [[r s2]|] eqn:Hloop; [|discriminate].
      apply monitoring_loop_never_raises in Hloop. subst r. discriminate.
    + inversion H; subst ex1. split; [reflexivity|].
      unfold get_user_info in Hlogin.
      exact (try_except_uncaught _ _ _ _ _ _ Hlogin).
  - intro H. inversion H; subst ex0. left. split; [reflexivity|].
    exact (init_raises_value_error e ex Hinit).
Qed.

Lemma crash_only_at_startup_witness :
  main Sample.odd_identity Sample.configured 5 = Crashed AttributeError
  /\ ((__init__ Sample.configured = Raise AttributeError /\ AttributeError = ValueError)
      \/ (exists bot,
            __init__ Sample.configured = Ok bot
            /\ fst (get_user_info Sample.odd_identity {| self := bot; history := [] |}) =
               Raise AttributeError
            /\ is_RequestException AttributeError = false)).
Proof.
  split; [reflexivity|].
  apply (crash_only_at_startup Sample.odd_identity Sample.configured 5 AttributeError).
  reflexivity.
Defined.

(** ** The trigger endpoint *)

Lemma init_after_trigger e token :
  token <> ""%string ->
  __init__ (trigger_environ e token) = Ok (trigger_bot token).
Proof.
  intro Hne. apply String.eqb_neq in Hne.
  unfold __init__, trigger_environ, trigger_bot, _validate_configuration, nonempty,
    getenv, setenv.
  cbn. now rewrite Hne.
Qed.

(** X18.  [handle_transfer] answers 400 "No access token", and touches
    neither the environment nor the platform, when the posted object has
    no [accessToken] or a falsy one.  An exception leaves it, again with
    nothing touched, when the posted body is not an object
    ([AttributeError]) or when the token is truthy without being a string
    ([TypeError], raised by the assignment to the environment, which is
    outside the [try]). *)
Theorem trigger_needs_a_token env data p :
  (forall d,
      data = VDict d ->
      truthy (match lookup d "accessToken" with Some x => x | None => VNone end) = false ->
      handle_transfer env data p = (Ok (ErrorText "No access token", 400), p))
  /\ ((forall d, data <> VDict d) ->
      handle_transfer env data p = (Raise AttributeError, p))
  /\ (forall d v,
        data = VDict d ->
        lookup d "accessToken" = Some v ->
        truthy v = true ->
        (forall t, v <> VStr t) ->
        handle_transfer env data p = (Raise TypeError, p)).
Proof.
  split; [|split].
  - intros d -> Hfalsy. unfold handle_transfer. cbn [get]. now rewrite Hfalsy.
  - intro Hd. unfold handle_transfer.
    destruct data; try reflexivity. now contradiction (Hd d).
  - intros d v -> Hv Ht Hs. unfold handle_transfer. cbn [get]. rewrite Hv, Ht.
    cbn [negb]. destruct v; try reflexivity. now contradiction (Hs s).
Qed.

Lemma trigger_needs_a_token_witness :
  handle_transfer Sample.last_chance (VDict [("accessToken", VStr "")]) Sample.server =
    (Ok (ErrorText "No access token", 400), Sample.server)
  /\ handle_transfer Sample.last_chance (VList []) Sample.server =
     (Raise AttributeError, Sample.server)
  /\ handle_transfer Sample.last_chance (VDict [("accessToken", VInt 7)]) Sample.server =
     (Raise TypeError, Sample.server).
Proof.
  destruct (trigger_needs_a_token Sample.last_chance
              (VDict [("accessToken", VStr "")]) Sample.server) as (H1 & _ & _).
  destruct (trigger_needs_a_token Sample.last_chance (VList []) Sample.server)
    as (_ & H2 & _).
  destruct (trigger_needs_a_token Sample.last_chance
              (VDict [("accessToken", VInt 7)]) Sample.server) as (_ & _ & H3).
  split; [|split].
  - apply (H1 [("accessToken", VStr "")]); reflexivity.
  - apply H2. intros d H. discriminate H.
  - apply (H3 [("accessToken", VInt 7)] (VInt 7)); try reflexivity.
    intros t H. discriminate H.
Defined.

(** X19.  With a non-empty string token without a NUL character (a value
    with one is refused by [os.environ]), [handle_transfer] runs exactly
    one cycle of a fresh bot that holds the posted token, the recipient
    written in the handler and the sandbox URL, whatever the environment
    of the process said before; it answers [success] with status 200 when
    the cycle returns [True] and 500 when it returns [False].  The
    construction cannot fail, so the handler's own error answer is never
    given.  Every request of that cycle carries the posted token and goes
    to the sandbox URL. *)
Theorem trigger_runs_one_cycle env d token p :
  lookup d "accessToken" = Some (VStr token) ->
  token <> ""%string ->
  has_nul token = false ->
  exists ok s' evs,
    check_and_transfer env {| self := trigger_bot token; history := exchanged p |} =
      (Ok ok, s')
    /\ handle_transfer env (VDict d) p =
       (Ok (Success ok, if ok then 200 else 500),
        {| os_environ := trigger_environ (os_environ p) token;
           exchanged := history s' |})
    /\ history s' = exchanged p ++ evs
    /\ Forall (orderly TRANSFER_AMOUNT (trigger_bot token)) evs.
Proof.
  intros Hd Hne Hnul.
  set (s := {| self := trigger_bot token; history := exchanged p |}).
  destruct (check_and_transfer_total env s) as (ok & s' & Hrun).
  destruct (check_and_transfer_keeps env s) as (evs & Hlog & _ & Hall).
  rewrite Hrun in Hlog. cbn [snd] in Hlog.
  exists ok, s', evs. split; [assumption|]. split; [|split; assumption].
  unfold handle_transfer. cbn [get]. rewrite Hd.
  assert (Ht : truthy (VStr token) = true).
  { cbn. apply String.eqb_neq in Hne. now rewrite Hne. }
  rewrite Ht. cbn [negb environ_set]. rewrite Hnul.
  change (setenv (setenv (setenv (setenv (setenv (os_environ p) "PI_ACCESS_TOKEN" token)
            "ALLOWED_RECIPIENT_ADDRESS" "pi_1abc234...yourrecipient")
            "PI_APP_ID" "your_app_id_here")
            "PI_APP_SECRET" "your_app_secret_here")
            "PI_SANDBOX_MODE" "true")
    with (trigger_environ (os_environ p) token).
  rewrite (init_after_trigger (os_environ p) token Hne).
  fold s. now rewrite Hrun.
Qed.

Lemma trigger_runs_one_cycle_witness :
  exists s',
    handle_transfer Sample.last_chance (VDict [("accessToken", VStr "token")])
      Sample.server =
    (Ok (Success true, 200),
     {| os_environ := trigger_environ (os_environ Sample.server) "token";
        exchanged := history s' |}).
Proof.
  destruct (trigger_runs_one_cycle Sample.last_chance
              [("accessToken", VStr "token")] "token" Sample.server)
    as (ok & s' & evs & Hrun & Hanswer & _); [reflexivity | discriminate | reflexivity |].
  exists s'.
  assert (Hok : ok = true).
  { vm_compute in Hrun. now injection Hrun as <- _. }
  now rewrite Hok in Hanswer.
Defined.
